(** * DMentorAI: the issue detector, the learning system and the orchestrator

    A shallow embedding of [src/analysis/codeAnalyzer.ts],
    [src/learning/learningSystem.ts] and [src/core/dmentorCore.ts], and the
    properties of the specification that concern them.

    Conventions of the embedding.
    - A JavaScript string is the list of its UTF-16 code units ([list N]).
    - [Date.now()] is an argument [now : Z] (milliseconds) of every operation
      that reads the clock; one reading is used per operation, except in
      [requestReviewAt], which tells the readings of a review apart.
    - A JavaScript number that only counts is a [nat]; the sensitivities, the
      only fractional numbers of the program, are IEEE 754 binary64 numbers,
      with the operations of the specification of floating-point arithmetic
      of the Standard Library ([SpecFloat], precision 53): every
      subtraction and addition rounds to nearest, ties to even.
    - Objects mutated in place are threaded explicitly through the state. *)

From Stdlib Require Import ZArith NArith List String Ascii Lia
  DecimalString DecimalNat SpecFloat.
From stdpp Require Import base option list sorting gmap strings numbers.

Local Open Scope N_scope.

(** ** JavaScript strings *)

Module JsString.

Abbreviation jsstring := (list N).

(** The code units of an ASCII literal. *)
Definition js (s : string) : jsstring :=
  List.map N_of_ascii (list_ascii_of_string s).

(** [WhiteSpace] and [LineTerminator] of ECMAScript: what [\s] matches and
    what [trim] strips. *)
Definition is_line_terminator (c : N) : bool :=
  (c =? 10) || (c =? 13) || (c =? 8232) || (c =? 8233).

Definition is_space (c : N) : bool :=
  (c =? 9) || (c =? 11) || (c =? 12) || (c =? 32) || (c =? 160)
  || (c =? 5760) || ((8192 <=? c) && (c <=? 8202)) || (c =? 8239)
  || (c =? 8287) || (c =? 12288) || (c =? 65279) || is_line_terminator c.

(** [\w] without the unicode flag. *)
Definition is_word (c : N) : bool :=
  ((48 <=? c) && (c <=? 57)) || ((65 <=? c) && (c <=? 90))
  || ((97 <=? c) && (c <=? 122)) || (c =? 95).

Definition is_upper (c : N) : bool := (65 <=? c) && (c <=? 90).
Definition is_lower (c : N) : bool := (97 <=? c) && (c <=? 122).

(** [toLowerCase] on the ASCII letters, the only cased code units of the
    literals the program lowers or matches without case. *)
Definition ascii_lower (c : N) : N := if is_upper c then c + 32 else c.

Fixpoint startsWith (p s : jsstring) : bool :=
  match p, s with
  | [], _ => true
  | _ :: _, [] => false
  | a :: p', b :: s' => (a =? b) && startsWith p' s'
  end.

(** [s.includes(sub)] *)
Fixpoint includes (s sub : jsstring) : bool :=
  startsWith sub s ||
  match s with
  | [] => false
  | _ :: s' => includes s' sub
  end.

(** [s.split('\n')] *)
Fixpoint split_lines (s : jsstring) : list jsstring :=
  match s with
  | [] => [[]]
  | c :: s' =>
      if c =? 10 then [] :: split_lines s'
      else match split_lines s' with
           | l :: ls => (c :: l) :: ls
           | [] => [[c]]
           end
  end.

Fixpoint trimStart (s : jsstring) : jsstring :=
  match s with
  | c :: s' => if is_space c then trimStart s' else s
  | [] => []
  end.

Definition trimEnd (s : jsstring) : jsstring := rev (trimStart (rev s)).

(** [s.trim()] *)
Definition trim (s : jsstring) : jsstring := trimEnd (trimStart s).

(** [s.substring(0, n)] *)
Definition substring0 (n : nat) (s : jsstring) : jsstring := take n s.

(** [(s.match(/c/g) || []).length] for a one-character pattern. *)
Definition count_char (c : N) (s : jsstring) : nat :=
  length (filter (λ x, x = c) s).

Definition eqb (s t : jsstring) : bool := bool_decide (s = t).

(** [String(n)] of a non-negative integer. *)
Definition of_nat (n : nat) : jsstring :=
  js (NilZero.string_of_uint (Nat.to_uint n)).

(** [String(z)] of an integer. *)
Definition of_Z (z : Z) : jsstring :=
  js (NilZero.string_of_int (Z.to_int z)).

End JsString.

Import JsString.

(** ** JavaScript numbers

    The Number type is IEEE 754 binary64. [JsNumber.sub] and [JsNumber.add]
    are the operators [-] and [+], [JsNumber.ltb] is [<], and a decimal
    literal is the number nearest to the fraction it denotes, which the
    correctly rounded division of its numerator by its denominator gives. *)

Module JsNumber.

Definition number : Type := spec_float.

Definition prec : Z := 53.
Definition emax : Z := 1024.

(** An integer literal. *)
Definition ofZ (z : Z) : number := binary_normalize prec emax z 0 false.

(** The decimal literal that denotes [n / d]: [0.3] is [literal 3 10]. *)
Definition literal (n d : Z) : number := SFdiv prec emax (ofZ n) (ofZ d).

Definition add : number → number → number := SFadd prec emax.
Definition sub : number → number → number := SFsub prec emax.
Definition ltb : number → number → bool := SFltb.
Definition leb : number → number → bool := SFleb.

(** [Math.max(a, b)] and [Math.min(a, b)]: [NaN] if either is, and [+0]
    is larger than [-0]. *)
Definition max (a b : number) : number :=
  match SFcompare a b with
  | None => S754_nan
  | Some Lt => b
  | Some Gt => a
  | Some Eq => match a with S754_zero true => b | _ => a end
  end.

Definition min (a b : number) : number :=
  match SFcompare a b with
  | None => S754_nan
  | Some Lt => a
  | Some Gt => b
  | Some Eq => match a with S754_zero false => b | _ => a end
  end.

(** [!v]: a number is falsy when it is a zero or [NaN]. *)
Definition falsy (v : number) : bool :=
  match v with
  | S754_zero _ | S754_nan => true
  | _ => false
  end.

(** The values of the type that are numbers: mantissa and exponent are in
    the canonical form of binary64. *)
Definition isNumber (v : number) : Prop := valid_binary prec emax v = true.

(** The value of a positive number of exponent -57 or more, in units of
    2^-57. *)
Definition scaled (v : number) : Z :=
  match v with
  | S754_finite false m e => (Z.pos m * 2 ^ (e + 57))%Z
  | _ => 0%Z
  end.

(** A positive number with a mantissa of 53 bits and an exponent between
    -57 and -50: a normal number between 2^-5 and 2^3. *)
Definition normal (v : number) : Prop :=
  match v with
  | S754_finite false m e =>
      (2 ^ 52 ≤ Z.pos m < 2 ^ 53)%Z ∧ (-57 ≤ e ≤ -50)%Z
  | _ => False
  end.

End JsNumber.

(** ** Regular expressions

    The fragment of ECMAScript regular expressions the analyzer uses, with
    Brzozowski derivatives as the matcher. [String.prototype.match] is only
    ever used for its truthiness, so language membership is all that is
    needed. *)

Module RegExp.

Inductive regex : Type :=
| Void : regex
| Eps : regex
| Class : (N → bool) → regex
| Seq : regex → regex → regex
| Alt : regex → regex → regex
| Star : regex → regex.

Fixpoint nullable (r : regex) : bool :=
  match r with
  | Void => false
  | Eps => true
  | Class _ => false
  | Seq r1 r2 => nullable r1 && nullable r2
  | Alt r1 r2 => nullable r1 || nullable r2
  | Star _ => true
  end.

Fixpoint deriv (c : N) (r : regex) : regex :=
  match r with
  | Void => Void
  | Eps => Void
  | Class p => if p c then Eps else Void
  | Seq r1 r2 =>
      if nullable r1 then Alt (Seq (deriv c r1) r2) (deriv c r2)
      else Seq (deriv c r1) r2
  | Alt r1 r2 => Alt (deriv c r1) (deriv c r2)
  | Star r1 => Seq (deriv c r1) (Star r1)
  end.

Fixpoint accepts (r : regex) (s : jsstring) : bool :=
  match s with
  | [] => nullable r
  | c :: s' => accepts (deriv c r) s'
  end.

(** The language of a regular expression. *)
Inductive lang : regex → jsstring → Prop :=
| lang_eps : lang Eps []
| lang_class p c : p c = true → lang (Class p) [c]
| lang_seq r1 r2 s1 s2 : lang r1 s1 → lang r2 s2 → lang (Seq r1 r2) (s1 ++ s2)
| lang_alt_l r1 r2 s : lang r1 s → lang (Alt r1 r2) s
| lang_alt_r r1 r2 s : lang r2 s → lang (Alt r1 r2) s
| lang_star_nil r : lang (Star r) []
| lang_star_cons r s1 s2 :
    lang r s1 → lang (Star r) s2 → lang (Star r) (s1 ++ s2).

(** Atoms of the concrete syntax. *)
Definition chr (c : N) : regex := Class (N.eqb c).
Definition chri (c : N) : regex :=
  Class (λ x, ascii_lower x =? ascii_lower c).
Definition any : regex := Class (λ _, true).
Definition dot : regex := Class (λ c, negb (is_line_terminator c)).
Definition ws : regex := Class is_space.
Definition word : regex := Class is_word.
Definition oneOf (cs : jsstring) : regex :=
  Class (λ c, existsb (N.eqb c) cs).
Definition noneOf (cs : jsstring) : regex :=
  Class (λ c, negb (existsb (N.eqb c) cs)).
Definition plus (r : regex) : regex := Seq r (Star r).

Fixpoint seqs (rs : list regex) : regex :=
  match rs with
  | [] => Eps
  | [r] => r
  | r :: rs' => Seq r (seqs rs')
  end.

(** A literal, with and without the [i] flag. *)
Definition lit (s : string) : regex := seqs (List.map chr (js s)).
Definition liti (s : string) : regex := seqs (List.map chri (js s)).

(** [s.match(/r/)], [s.match(/^r/)] and [s.match(/r$/)] as booleans. *)
Definition test (r : regex) (s : jsstring) : bool :=
  accepts (Seq (Star any) (Seq r (Star any))) s.
Definition test_at_start (r : regex) (s : jsstring) : bool :=
  accepts (Seq r (Star any)) s.
Definition test_at_end (r : regex) (s : jsstring) : bool :=
  accepts (Seq (Star any) r) s.

End RegExp.

Import RegExp.

Local Open Scope string_scope.
Local Open Scope list_scope.

(** ** The analyzer: [src/analysis/codeAnalyzer.ts] *)

Module CodeAnalyzer.

Inductive IssueType : Type :=
| bug | security | performance | style | accessibility | code_smell.

Inductive Severity : Type := critical | warning | info.

(** The string a template literal prints for an issue type. *)
Definition typeName (t : IssueType) : jsstring :=
  match t with
  | bug => js "bug"
  | security => js "security"
  | performance => js "performance"
  | style => js "style"
  | accessibility => js "accessibility"
  | code_smell => js "code-smell"
  end.

#[global] Instance IssueType_eq_dec : EqDecision IssueType.
Proof. solve_decision. Defined.

#[global] Instance Severity_eq_dec : EqDecision Severity.
Proof. solve_decision. Defined.

Record CodeIssue : Type := {
  type : IssueType;
  severity : Severity;
  line : nat;
  column : option nat;
  message : jsstring;
  code : jsstring;
  suggestion : option jsstring;
  filePath : jsstring
}.

(** What the analyzer reads of a [vscode.TextDocument]. *)
Record TextDocument : Type := {
  uri : jsstring;
  scheme : jsstring;
  fileName : jsstring;
  languageId : jsstring;
  getText : jsstring
}.

(** The fields of the class that hold state; [lastAnalysisTime] is
    declared by the class and never read or written. *)
Record State : Type := {
  lastAnalysisTime : gmap jsstring Z;
  suggestionsRateLimit : Z;
  lastSuggestionTime : Z
}.

Definition init : State :=
  {| lastAnalysisTime := ∅; suggestionsRateLimit := 0; lastSuggestionTime := 0 |}.

(** The double quote, which the literals below cannot hold. *)
Definition dq : jsstring := [34%N].

Definition issue (t : IssueType) (sv : Severity) (lineNum : nat)
    (msg cd sg fp : jsstring) : CodeIssue :=
  {| type := t; severity := sv; line := lineNum; column := None;
     message := msg; code := cd; suggestion := Some sg; filePath := fp |}.

(** [forEach((line, index) => ...)] with [lineNum = index + 1]: the issues
    of each line in rule order, lines in ascending order. *)
Fixpoint forEachLine (rules : jsstring → nat → list CodeIssue)
    (lines : list jsstring) (index : nat) : list CodeIssue :=
  match lines with
  | [] => []
  | l :: ls => rules l index ++ forEachLine rules ls (S index)
  end.

(** Kind, severity and line of an issue. *)
Definition summary (i : CodeIssue) : IssueType * Severity * nat :=
  (type i, severity i, line i).

Definition isStyle (i : CodeIssue) : bool := bool_decide (type i = style).

(** *** Nested loops *)

(** [/for\s*\(/] *)
Definition re_for : regex := seqs [lit "for"; Star ws; chr 40].

Definition isLoopOpen (l : jsstring) : bool := test re_for (trim l).

Definition braceDelta (l : jsstring) : Z :=
  Z.of_nat (count_char 123 l) - Z.of_nat (count_char 125 l).

(** The body of the [for] loop of [hasNestedLoop] over the lines still to
    scan, with the two local variables as arguments. *)
Fixpoint scanLoop (window : list jsstring) (braceCount : Z)
    (foundFor : bool) : bool :=
  match window with
  | [] => false
  | l :: rest =>
      if isLoopOpen l then
        if foundFor && (braceCount =? 1)%Z then true
        else scanLoop rest (braceCount + braceDelta l)%Z true
      else scanLoop rest (braceCount + braceDelta l)%Z foundFor
  end.


(** Lines [startLine] to [min (startLine + 20) lines.length - 1]. *)
Definition hasNestedLoop (code : jsstring) (startLine : nat) : bool :=
  scanLoop (take 20 (drop startLine (split_lines code))) 0 false.

(** *** JavaScript and TypeScript *)

(** [/\.\w+\s*[;)}]/] *)
Definition re_member_access : regex :=
  seqs [chr 46; plus word; Star ws; oneOf (js ";)}")].

(** [s.replace(/\.(\w+)/, '?.$1')]: the first dot that a word character
    follows gets a question mark in front. *)
Fixpoint optionalChain (s : jsstring) : jsstring :=
  match s with
  | [] => []
  | c :: s' =>
      if (c =? 46)%N && match s' with d :: _ => is_word d | [] => false end
      then 63%N :: c :: s'
      else c :: optionalChain s'
  end.

(** [/query\s*=\s*[\x22'`].*\+\s*\w+|query\s*=\s*\w+\s*\+/i], the double
    quote of the source's character class written [\x22] here. *)
Definition re_sql_concat : regex :=
  Alt (seqs [liti "query"; Star ws; chr 61; Star ws; oneOf [34; 39; 96]%N;
             Star dot; chr 43; Star ws; plus word])
      (seqs [liti "query"; Star ws; chr 61; Star ws; plus word; Star ws;
             chr 43]).

(** [/innerHTML\s*=|document\.write|eval\(/i] *)
Definition re_dom_sink : regex :=
  Alt (seqs [liti "innerHTML"; Star ws; chr 61])
      (Alt (liti "document.write") (liti "eval(")).

(** [/console\.(log|debug|warn)/] *)
Definition re_console : regex :=
  Seq (lit "console.") (Alt (lit "log") (Alt (lit "debug") (lit "warn"))).

(** [/\.then\(|\.catch\(/] *)
Definition re_promise : regex := Alt (lit ".then(") (lit ".catch(").

Definition javaScriptRules (code filePath : jsstring) (l : jsstring)
    (index : nat) : list CodeIssue :=
  let lineNum := S index in
  (if test re_member_access l && negb (includes l (js "?."))
      && negb (includes l (js "||")) && negb (includes l (js "if"))
   then [issue bug warning lineNum
           (js "Potential null/undefined access without optional chaining or null check")
           (trim l)
           (js "Consider using optional chaining (?.) or adding a null check: "
              ++ optionalChain (trim l))
           filePath]
   else [])
  ++ (if test re_sql_concat l
      then [issue security critical lineNum
              (js "Potential SQL injection vulnerability detected")
              (trim l)
              (js "Use parameterized queries or prepared statements instead of string concatenation")
              filePath]
      else [])
  ++ (if test re_dom_sink l
      then [issue security warning lineNum
              (js "Potential XSS vulnerability - dangerous DOM manipulation detected")
              (trim l)
              (js "Use textContent instead of innerHTML, or sanitize user input")
              filePath]
      else [])
  ++ (if test re_console l && negb (includes filePath (js "test"))
      then [issue style info lineNum
              (js "Console.log statement found - consider removing for production")
              (trim l)
              (js "Remove console.log or use a proper logging library")
              filePath]
      else [])
  ++ (if isLoopOpen l && hasNestedLoop code index
      then [issue performance warning lineNum
              (js "Nested loop detected - potential O(n" ++ [178%N]
                 ++ js ") complexity")
              (trim l)
              (js "Consider using a Map or Set for O(1) lookups instead of nested loops")
              filePath]
      else [])
  ++ (if test re_promise l && negb (includes code (js "async"))
      then [issue style info lineNum
              (js "Promise chain detected - consider using async/await for better readability")
              (trim l)
              (js "Convert to async/await syntax for better readability and error handling")
              filePath]
      else []).

Definition analyzeJavaScript (code filePath : jsstring) : list CodeIssue :=
  forEachLine (javaScriptRules code filePath) (split_lines code) 0.

(** *** Python *)

(** [/cursor\.execute\s*\(\s*[\x22'f].*%\s*\w+/], the double quote of the
    source's character class written [\x22] here. *)
Definition re_py_execute : regex :=
  seqs [lit "cursor.execute"; Star ws; chr 40; Star ws;
        oneOf [34; 39; 102]%N; Star dot; chr 37; Star ws; plus word].

(** [/except\s*:$/] without its end anchor. *)
Definition re_bare_except : regex := seqs [lit "except"; Star ws; chr 58].

(** [/^def\s+\w+\s*\([^)]*\)\s*:/] without its start anchor. *)
Definition re_def : regex :=
  seqs [lit "def"; plus ws; plus word; Star ws; chr 40;
        Star (noneOf (js ")")); chr 41; Star ws; chr 58].

Definition pythonRules (filePath : jsstring) (l : jsstring) (index : nat)
    : list CodeIssue :=
  let lineNum := S index in
  (if test re_py_execute l
   then [issue security critical lineNum
           (js "Potential SQL injection - string formatting in SQL query")
           (trim l)
           (js "Use parameterized queries: cursor.execute(" ++ dq
              ++ js "SELECT * FROM table WHERE id = ?" ++ dq ++ js ", (id,))")
           filePath]
   else [])
  ++ (if eqb (trim l) (js "except:") || test_at_end re_bare_except (trim l)
      then [issue bug warning lineNum
              (js "Bare except clause catches all exceptions including system exits")
              (trim l)
              (js "Use specific exception types: except ValueError: or except Exception:")
              filePath]
      else [])
  ++ (if test_at_start re_def l && negb (includes l (js "->"))
         && negb (includes l (js ":"))
      then [issue style info lineNum
              (js "Function missing type hints")
              (trim l)
              (js "Add type hints for better code documentation and IDE support")
              filePath]
      else []).

Definition analyzePython (code filePath : jsstring) : list CodeIssue :=
  forEachLine (pythonRules filePath) (split_lines code) 0.

(** *** HTML, Vue and Svelte *)

(** [/<img[^>]*>/i] *)
Definition re_img : regex := seqs [liti "<img"; Star (noneOf (js ">")); chr 62].

(** [/alt\s*=/i] *)
Definition re_alt : regex := seqs [liti "alt"; Star ws; chr 61].

(** [/<button[^>]*>/i] *)
Definition re_button : regex :=
  seqs [liti "<button"; Star (noneOf (js ">")); chr 62].

(** [/aria-label\s*=|aria-labelledby\s*=/i] *)
Definition re_aria : regex :=
  Alt (seqs [liti "aria-label"; Star ws; chr 61])
      (seqs [liti "aria-labelledby"; Star ws; chr 61]).

(** [/>[^<]+</] *)
Definition re_inner_text : regex :=
  seqs [chr 62; plus (noneOf (js "<")); chr 60].

(** [/style\s*=/i] *)
Definition re_style : regex := seqs [liti "style"; Star ws; chr 61].

Definition htmlRules (filePath : jsstring) (l : jsstring) (index : nat)
    : list CodeIssue :=
  let lineNum := S index in
  (if test re_img l && negb (test re_alt l)
   then [issue accessibility warning lineNum
           (js "Image missing alt attribute - accessibility issue")
           (trim l)
           (js "Add alt attribute: <img src=" ++ dq ++ js "..." ++ dq
              ++ js " alt=" ++ dq ++ js "descriptive text" ++ dq ++ js ">")
           filePath]
   else [])
  ++ (if test re_button l && negb (test re_aria l)
         && negb (test re_inner_text l)
      then [issue accessibility info lineNum
              (js "Button may need aria-label for screen readers")
              (trim l)
              (js "Add aria-label if button text is not descriptive enough")
              filePath]
      else [])
  ++ (if test re_style l
      then [issue style info lineNum
              (js "Inline styles detected - consider using CSS classes")
              (trim l)
              (js "Move styles to external stylesheet or style tag for better maintainability")
              filePath]
      else []).

Definition analyzeHTML (code filePath : jsstring) : list CodeIssue :=
  forEachLine (htmlRules filePath) (split_lines code) 0.

(** *** Any other language *)

(** [/TODO|FIXME|HACK|XXX/i] *)
Definition re_todo : regex :=
  Alt (liti "TODO") (Alt (liti "FIXME") (Alt (liti "HACK") (liti "XXX"))).

Definition genericRules (filePath : jsstring) (l : jsstring) (index : nat)
    : list CodeIssue :=
  let lineNum := S index in
  (if test re_todo l
   then [issue code_smell info lineNum
           (js "TODO/FIXME comment found")
           (trim l)
           (js "Consider addressing this before merging to production")
           filePath]
   else [])
  ++ (if bool_decide (120 < length l)%nat
      then [issue style info lineNum
              (js "Line exceeds 120 characters - consider breaking it up")
              (substring0 100 (trim l) ++ js "...")
              (js "Break long lines for better readability")
              filePath]
      else []).

Definition analyzeGeneric (code filePath _languageId : jsstring)
    : list CodeIssue :=
  forEachLine (genericRules filePath) (split_lines code) 0.

(** *** The entry point *)

(** The [switch] of [analyzeDocument] on the language. *)
Definition detect (document : TextDocument) : list CodeIssue :=
  let text := getText document in
  let languageId := languageId document in
  if eqb languageId (js "javascript") || eqb languageId (js "typescript")
  then analyzeJavaScript text (fileName document)
  else if eqb languageId (js "python")
  then analyzePython text (fileName document)
  else if eqb languageId (js "html") || eqb languageId (js "vue")
          || eqb languageId (js "svelte")
  then analyzeHTML text (fileName document)
  else analyzeGeneric text (fileName document) languageId.

(** [analyzeDocument]: the setting [dmentorAI.proactiveInterruptions], the
    clock and the document are read; [lastSuggestionTime] is written. *)
Definition analyzeDocument (proactiveInterruptions : bool) (now : Z)
    (document : TextDocument) (st : State) : list CodeIssue * State :=
  if negb proactiveInterruptions || negb (eqb (scheme document) (js "file"))
  then ([], st)
  else if (now - lastSuggestionTime st <? 20000)%Z
  then ([], st)
  else (detect document,
        {| lastAnalysisTime := lastAnalysisTime st;
           suggestionsRateLimit := suggestionsRateLimit st;
           lastSuggestionTime := now |}).

(** Where an issue of line [index] of the file [path] is located. *)
Definition locatedAt (path : jsstring) (index : nat) (i : CodeIssue) : Prop :=
  line i = S index ∧ filePath i = path ∧ column i = None.

(** The issue carries this message. *)
Definition hasMessage (m : jsstring) (i : CodeIssue) : bool :=
  eqb (message i) m.

Definition isCritical (i : CodeIssue) : bool :=
  bool_decide (severity i = critical).

(** The messages of the logging rule and of the promise rule. *)
Definition consoleMessage : jsstring :=
  js "Console.log statement found - consider removing for production".
Definition promiseMessage : jsstring :=
  js "Promise chain detected - consider using async/await for better readability".

(** The line is longer than 120 code units. *)
Definition isLong (l : jsstring) : bool := bool_decide (120 < length l)%nat.

(** The languages [analyzeDocument] has a dedicated analyzer for. *)
Definition knownLanguages : list jsstring :=
  [js "javascript"; js "typescript"; js "python"; js "html"; js "vue";
   js "svelte"].

End CodeAnalyzer.

(** ** The personalities: [src/personalities/] *)

Module Personality.

Import CodeAnalyzer.

Record SuggestionContext : Type := {
  filePath : jsstring;
  lineNumber : nat;
  code : jsstring;
  issueType : IssueType;
  severity : Severity;
  description : jsstring;
  suggestion : option jsstring
}.

Inductive Tone : Type := direct | supportive | questioning | urgent | gentle.

Record PersonalityResponse : Type := {
  message : jsstring;
  icon : jsstring;
  tone : Tone;
  showCodeExample : option bool;
  codeExample : option jsstring
}.

(** The abstract class [Personality]. *)
Record Personality : Type := {
  name : jsstring;
  description_ : jsstring;
  priorities : list jsstring;
  respondToIssue : SuggestionContext → PersonalityResponse
}.

(** [x || fallback] on an optional string: undefined and the empty string
    are falsy. *)
Definition orElse (x : option jsstring) (fallback : jsstring) : jsstring :=
  match x with
  | Some (c :: s) => c :: s
  | _ => fallback
  end.

(** [src/personalities/performanceOptimizer.ts]; the icon is U+26A1. *)
Definition PerformanceOptimizer : Personality :=
  {| name := js "Performance Optimizer";
     description_ :=
       js "Obsessed with speed and efficiency. Spots bottlenecks before they happen.";
     priorities := [js "performance"; js "efficiency"; js "optimization"];
     respondToIssue := λ context,
       {| message :=
            if bool_decide (issueType context = performance)
            then [9889%N] ++ js " Performance Warning: " ++ description context
                 ++ [10%N] ++ js "Line " ++ of_nat (lineNumber context)
                 ++ js ": This will impact performance with larger datasets."
                 ++ [10%N; 10%N] ++ js "Optimization: "
                 ++ orElse (suggestion context)
                      (js "Consider refactoring for better complexity.")
                 ++ [10%N; 10%N] ++ js "[Show optimized code]"
            else [9889%N] ++ js " Performance Note: " ++ description context
                 ++ [10%N] ++ js "Line " ++ of_nat (lineNumber context)
                 ++ js ": "
                 ++ orElse (suggestion context)
                      (js "This could be optimized for better performance.");
          icon := [9889%N];
          tone := direct;
          showCodeExample := Some true;
          codeExample := suggestion context |} |}.

End Personality.

Module Conversion.

Import CodeAnalyzer.

(** [CodeAnalyzer.convertToSuggestionContext] *)
Definition convertToSuggestionContext (issue : CodeIssue)
    : Personality.SuggestionContext :=
  {| Personality.filePath := filePath issue;
     Personality.lineNumber := line issue;
     Personality.code := code issue;
     Personality.issueType := type issue;
     Personality.severity := severity issue;
     Personality.description := message issue;
     Personality.suggestion := suggestion issue |}.

End Conversion.

(** ** Interventions: the interface of [src/core/dmentorCore.ts] *)

Module Interventions.

Record Intervention : Type := {
  id : jsstring;
  context : Personality.SuggestionContext;
  response : Personality.PersonalityResponse;
  timestamp : Z;
  dismissed : option bool;
  accepted : option bool
}.

(** [i.dismissed = true] and [i.accepted = true] on the object. *)
Definition setDismissed (i : Intervention) : Intervention :=
  {| id := id i; context := context i; response := response i;
     timestamp := timestamp i; dismissed := Some true;
     accepted := accepted i |}.

Definition setAccepted (i : Intervention) : Intervention :=
  {| id := id i; context := context i; response := response i;
     timestamp := timestamp i; dismissed := dismissed i;
     accepted := Some true |}.

(** Both flags of an intervention, [dismissed] first. *)
Definition flags (i : Intervention) : option bool * option bool :=
  (dismissed i, accepted i).

(** Truthiness of an optional boolean. *)
Definition truthy (b : option bool) : bool := default false b.

End Interventions.

(** ** The learning system: [src/learning/learningSystem.ts] *)

Module LearningSystem.

Import CodeAnalyzer Interventions.

Inductive Action : Type := accepted | dismissed | modified.
Inductive Reaction : Type := preferred | rejected | neutral.

#[global] Instance Action_eq_dec : EqDecision Action.
Proof. solve_decision. Defined.

Record UserFeedback : Type := {
  interventionId : jsstring;
  action : Action;
  feedback : option jsstring;
  timestamp : Z;
  issueType : jsstring;
  personality : jsstring
}.

Record LearningPattern : Type := {
  pattern : jsstring;
  patternIssueType : jsstring;
  userReaction : Reaction;
  count : nat;
  lastUpdated : Z
}.

Record AdaptationRules : Type := {
  skipPatterns : list jsstring;
  preferredPatterns : list jsstring;
  personalityAdjustments : gmap jsstring JsNumber.number;
  issueTypeSensitivity : gmap jsstring JsNumber.number
}.

Definition noRules : AdaptationRules :=
  {| skipPatterns := []; preferredPatterns := [];
     personalityAdjustments := ∅; issueTypeSensitivity := ∅ |}.

(** The three keys of [context.globalState] the class uses; a key never
    written is [None]. The array stored under [dmentor.learning.patterns]
    is kept as the map it lists. *)
Record Memento : Type := {
  stored_feedback : option (list UserFeedback);
  stored_patterns : option (gmap jsstring LearningPattern);
  stored_adaptation : option AdaptationRules
}.

Record State : Type := {
  globalState : Memento;
  feedbackHistory : list UserFeedback;
  learningPatterns : gmap jsstring LearningPattern;
  adaptationRules : AdaptationRules;
  (** what [vscode.window.showInformationMessage] was called with *)
  shown : list jsstring
}.

(** The constructor: [loadLearningData] then [loadAdaptationRules]. *)
Definition create (g : Memento) : State :=
  {| globalState := g;
     feedbackHistory := default [] (stored_feedback g);
     learningPatterns := default ∅ (stored_patterns g);
     adaptationRules := default noRules (stored_adaptation g);
     shown := [] |}.

Definition saveLearningData (st : State) : State :=
  {| globalState :=
       {| stored_feedback := Some (feedbackHistory st);
          stored_patterns := Some (learningPatterns st);
          stored_adaptation := stored_adaptation (globalState st) |};
     feedbackHistory := feedbackHistory st;
     learningPatterns := learningPatterns st;
     adaptationRules := adaptationRules st;
     shown := shown st |}.

Definition saveAdaptationRules (st : State) : State :=
  {| globalState :=
       {| stored_feedback := stored_feedback (globalState st);
          stored_patterns := stored_patterns (globalState st);
          stored_adaptation := Some (adaptationRules st) |};
     feedbackHistory := feedbackHistory st;
     learningPatterns := learningPatterns st;
     adaptationRules := adaptationRules st;
     shown := shown st |}.

(** The key of a pattern, as [extractPattern] builds it from an
    intervention and as [shouldShowIssue] builds it from an issue. *)
Definition patternKey (t : IssueType) (code : jsstring) : jsstring :=
  typeName t ++ js ":" ++ substring0 30 code.

Definition extractPattern (i : Intervention) : jsstring :=
  patternKey (Personality.issueType (context i)) (Personality.code (context i)).

Definition issuePattern (issue : CodeIssue) : jsstring :=
  patternKey (type issue) (code issue).

Definition reactionOf (a : Action) : Reaction :=
  match a with
  | accepted => preferred
  | dismissed => rejected
  | modified => neutral
  end.

Definition updateLearningPatterns (now : Z) (i : Intervention) (a : Action)
    (st : State) : State :=
  let pattern := extractPattern i in
  let existing :=
    default {| pattern := pattern;
               patternIssueType := typeName (Personality.issueType (context i));
               userReaction := neutral; count := 0; lastUpdated := now |}
            (learningPatterns st !! pattern) in
  let existing :=
    {| pattern := LearningSystem.pattern existing;
       patternIssueType := patternIssueType existing;
       userReaction := reactionOf a;
       count := S (count existing);
       lastUpdated := now |} in
  {| globalState := globalState st;
     feedbackHistory := feedbackHistory st;
     learningPatterns := <[pattern := existing]> (learningPatterns st);
     adaptationRules := adaptationRules st;
     shown := shown st |}.

(** Falsiness of [m[k]]: an absent entry, a zero or [NaN]. *)
Definition falsy (v : option JsNumber.number) : bool :=
  match v with
  | Some v => JsNumber.falsy v
  | None => true
  end.

(** [m[k] || 1.0] *)
Definition sensitivityOf (m : gmap jsstring JsNumber.number) (k : jsstring)
    : JsNumber.number :=
  if falsy (m !! k) then JsNumber.ofZ 1
  else default (JsNumber.ofZ 1) (m !! k).

(** [if (!m[k]) { m[k] = 1.0; }] *)
Definition initSensitivity (m : gmap jsstring JsNumber.number) (k : jsstring)
    : gmap jsstring JsNumber.number :=
  if falsy (m !! k) then <[k := JsNumber.ofZ 1]> m else m.

Definition updateAdaptationRules (i : Intervention) (a : Action) (st : State)
    : State :=
  let pattern := extractPattern i in
  let issueType := typeName (Personality.issueType (context i)) in
  let rules := adaptationRules st in
  let patternCount := from_option count 0%nat (learningPatterns st !! pattern) in
  let learned :=
    bool_decide (a = dismissed) && bool_decide (3 ≤ patternCount)%nat
    && negb (bool_decide (pattern ∈ skipPatterns rules)) in
  let skip :=
    if learned then skipPatterns rules ++ [pattern] else skipPatterns rules in
  let preferred :=
    if bool_decide (a = accepted)
       && negb (bool_decide (pattern ∈ preferredPatterns rules))
    then preferredPatterns rules ++ [pattern]
    else preferredPatterns rules in
  let sensitivity := initSensitivity (issueTypeSensitivity rules) issueType in
  let current := default (JsNumber.ofZ 1) (sensitivity !! issueType) in
  let sensitivity :=
    match a with
    | dismissed =>
        <[issueType := JsNumber.max (JsNumber.literal 3 10)
                         (JsNumber.sub current (JsNumber.literal 1 10))]>
          sensitivity
    | accepted =>
        <[issueType := JsNumber.min (JsNumber.ofZ 1)
                         (JsNumber.add current (JsNumber.literal 5 100))]>
          sensitivity
    | modified => sensitivity
    end in
  {| globalState := globalState st;
     feedbackHistory := feedbackHistory st;
     learningPatterns := learningPatterns st;
     adaptationRules :=
       {| skipPatterns := skip;
          preferredPatterns := preferred;
          personalityAdjustments := personalityAdjustments rules;
          issueTypeSensitivity := sensitivity |};
     shown :=
       if learned
       then shown st ++ [js "DMentor learned: Will reduce " ++ issueType
                           ++ js " suggestions like this."]
       else shown st |}.

(** [feedbackHistory.slice(-1000)] once the length exceeds 1000. *)
Definition trimHistory (h : list UserFeedback) : list UserFeedback :=
  if bool_decide (1000 < length h)%nat then drop (length h - 1000) h else h.

Definition recordFeedback (now : Z) (i : Intervention) (a : Action)
    (fb : option jsstring) (st : State) : State :=
  let userFeedback :=
    {| interventionId := id i; action := a; feedback := fb;
       timestamp := now;
       issueType := typeName (Personality.issueType (context i));
       personality := substring0 50 (Personality.message (response i)) |} in
  let st :=
    {| globalState := globalState st;
       feedbackHistory := feedbackHistory st ++ [userFeedback];
       learningPatterns := learningPatterns st;
       adaptationRules := adaptationRules st;
       shown := shown st |} in
  let st := updateLearningPatterns now i a st in
  let st := updateAdaptationRules i a st in
  let st := saveLearningData st in
  let st := saveAdaptationRules st in
  {| globalState := globalState st;
     feedbackHistory := trimHistory (feedbackHistory st);
     learningPatterns := learningPatterns st;
     adaptationRules := adaptationRules st;
     shown := shown st |}.

Definition shouldShowIssue (st : State) (issue : CodeIssue) : bool :=
  let pattern := issuePattern issue in
  if bool_decide (pattern ∈ skipPatterns (adaptationRules st)) then false
  else
    let sensitivity :=
      sensitivityOf (issueTypeSensitivity (adaptationRules st))
        (typeName (type issue)) in
    if JsNumber.ltb sensitivity (JsNumber.literal 5 10)
       && negb (bool_decide (severity issue = critical))
    then false
    else true.

Record LearningStats : Type := {
  totalFeedback : nat;
  statAccepted : nat;
  statDismissed : nat;
  statModified : nat
}.

Definition countAction (a : Action) (h : list UserFeedback) : nat :=
  length (filter (λ f, action f = a) h).

Definition getLearningStats (st : State) : LearningStats :=
  {| totalFeedback := length (feedbackHistory st);
     statAccepted := countAction accepted (feedbackHistory st);
     statDismissed := countAction dismissed (feedbackHistory st);
     statModified := countAction modified (feedbackHistory st) |}.

Definition resetLearningData (st : State) : State :=
  let st :=
    {| globalState := globalState st;
       feedbackHistory := [];
       learningPatterns := ∅;
       adaptationRules := noRules;
       shown := shown st |} in
  let st := saveLearningData st in
  let st := saveAdaptationRules st in
  {| globalState := globalState st;
     feedbackHistory := feedbackHistory st;
     learningPatterns := learningPatterns st;
     adaptationRules := adaptationRules st;
     shown := shown st ++ [js "DMentor learning data has been reset."] |}.

(** A memento in which no key was ever written. *)
Definition emptyMemento : Memento :=
  {| stored_feedback := None; stored_patterns := None;
     stored_adaptation := None |}.

(** One call of [recordFeedback], and a sequence of calls. *)
Record Call : Type := {
  callNow : Z;
  callIntervention : Intervention;
  callAction : Action;
  callFeedback : option jsstring
}.

Definition recordAll (calls : list Call) (st : State) : State :=
  fold_left
    (λ st c, recordFeedback (callNow c) (callIntervention c) (callAction c)
               (callFeedback c) st)
    calls st.

(** [learningPatterns.get(pattern)?.count || 0] *)
Definition patternCount (st : State) (pattern : jsstring) : nat :=
  from_option count 0%nat (learningPatterns st !! pattern).

(** A number between 0.3 and 1.0. *)
Definition inRange (v : JsNumber.number) : Prop :=
  JsNumber.isNumber v
  ∧ JsNumber.leb (JsNumber.literal 3 10) v = true
  ∧ JsNumber.leb v (JsNumber.ofZ 1) = true.

(** Every recorded sensitivity lies between 0.3 and 1.0. *)
Definition sensitivityInRange (st : State) : Prop :=
  map_Forall (λ _, inRange) (issueTypeSensitivity (adaptationRules st)).

(** The pattern key and the issue kind of a call. *)
Definition callPattern (c : Call) : jsstring :=
  extractPattern (callIntervention c).

Definition callKind (c : Call) : jsstring :=
  typeName (Personality.issueType (context (callIntervention c))).

(** How many of the calls are on the pattern [K]. *)
Definition occurrences (K : jsstring) (calls : list Call) : nat :=
  length (filter (λ c, callPattern c = K) calls).

(** Every learning pattern is stored under its own [pattern] field, which
    is what lets [saveLearningData] persist the values alone. *)
Definition keysAgree (st : State) : Prop :=
  map_Forall (λ k p, pattern p = k) (learningPatterns st).

(** A new session over what the old one persisted. *)
Definition restart (st : State) : State := create (globalState st).

(** The record [recordFeedback] appends to the history. *)
Definition feedbackOf (now : Z) (i : Intervention) (a : Action)
    (fb : option jsstring) : UserFeedback :=
  {| interventionId := id i; action := a; feedback := fb; timestamp := now;
     issueType := typeName (Personality.issueType (context i));
     personality := substring0 50 (Personality.message (response i)) |}.

(** Statistics without any feedback. *)
Definition noStats : LearningStats :=
  {| totalFeedback := 0; statAccepted := 0; statDismissed := 0;
     statModified := 0 |}.

(** [m[k] || 1.0] for the sensitivities of a state. *)
Definition kindSensitivity (st : State) (k : jsstring) : JsNumber.number :=
  sensitivityOf (issueTypeSensitivity (adaptationRules st)) k.

End LearningSystem.

(** ** The orchestrator: [src/core/dmentorCore.ts] *)

Module DMentorCore.

Import CodeAnalyzer Personality Interventions.

(** The settings of [dmentorAI] the orchestrator and the analyzer read,
    with the defaults their [config.get] calls give. *)
Record Configuration : Type := {
  proactiveInterruptions : bool;
  autoReviewOnSave : bool;
  maxSuggestionsPerMinute : Z;
  interventionFrequency : jsstring;
  useAIEnhancement : bool
}.

Definition defaultConfiguration : Configuration :=
  {| proactiveInterruptions := true; autoReviewOnSave := true;
     maxSuggestionsPerMinute := 3; interventionFrequency := js "balanced";
     useAIEnhancement := false |}.

(** What the orchestrator uses of [AIService]: [analyzeCodeWithAI] of the
    text, the language and the issue type resolves to a string ([Some]) or
    rejects ([None]). *)
Record AIService : Type := {
  isConfigured : bool;
  analyzeCodeWithAI : jsstring → jsstring → jsstring → option jsstring
}.

Record State : Type := {
  codeAnalyzer : CodeAnalyzer.State;
  learningSystem : LearningSystem.State;
  interventions : list Intervention;
  isActive : bool;
  focusMode : bool;
  lastDocumentChange : gmap jsstring Z;
  (** the pending [setTimeout] callbacks: due time and captured document *)
  timers : list (Z * TextDocument);
  (** how many times [Math.random] was called *)
  randomDraws : nat;
  (** the arguments of [dmentor.onInterventionCreated] so far *)
  emitted : list Intervention;
  (** what [vscode.window.showWarningMessage] was called with *)
  warned : list jsstring
}.

Definition debounceDelay : Z := 1000.

Definition create (g : LearningSystem.Memento) : State :=
  {| codeAnalyzer := CodeAnalyzer.init;
     learningSystem := LearningSystem.create g;
     interventions := [];
     isActive := true;
     focusMode := false;
     lastDocumentChange := ∅;
     timers := [];
     randomDraws := 0;
     emitted := [];
     warned := [] |}.

(** [a.slice(0, n)] for an integer [n]. *)
Definition slice0 {A} (n : Z) (l : list A) : list A :=
  if (n <? 0)%Z then take (Z.to_nat (Z.of_nat (length l) + n)) l
  else take (Z.to_nat n) l.

(** The frequency policy of [analyzeDocument]. *)
Definition frequencyFilter (frequency : jsstring) (issues : list CodeIssue)
    : list CodeIssue :=
  if eqb frequency (js "minimal")
  then List.filter (λ i, bool_decide (CodeAnalyzer.severity i = critical))
         issues
  else if eqb frequency (js "balanced")
  then List.filter (λ i, negb (bool_decide (CodeAnalyzer.severity i = info))
                        || bool_decide (CodeAnalyzer.type i = security))
         issues
  else issues.

(** [interventions.find(i => i.id === id)] followed by a write to the
    object found: the first intervention with this id is replaced in the
    array, and returned as written. *)
Fixpoint updateFound (ident : jsstring) (f : Intervention → Intervention)
    (l : list Intervention) : option (Intervention * list Intervention) :=
  match l with
  | [] => None
  | i :: l' =>
      if eqb (id i) ident then Some (f i, f i :: l')
      else match updateFound ident f l' with
           | Some (j, l'') => Some (j, i :: l'')
           | None => None
           end
  end.

Section Orchestrator.

(** The collaborators: the settings, the active personality, the AI
    service, and the textual forms of the successive results of
    [Math.random()]. *)
Variable config : Configuration.
Variable personality : Personality.
Variable aiService : AIService.
Variable random : nat → jsstring.

Definition withTimer (now : Z) (document : TextDocument) (st : State)
    : State :=
  {| codeAnalyzer := codeAnalyzer st;
     learningSystem := learningSystem st;
     interventions := interventions st;
     isActive := isActive st;
     focusMode := focusMode st;
     lastDocumentChange := <[uri document := now]> (lastDocumentChange st);
     timers := timers st ++ [((now + debounceDelay)%Z, document)];
     randomDraws := randomDraws st;
     emitted := emitted st;
     warned := warned st |}.

Definition onDocumentChange (now : Z) (document : TextDocument)
    (st : State) : State :=
  if negb (isActive st) || focusMode st then st
  else if negb (proactiveInterruptions config) then st
  else
    let lastChange :=
      default 0%Z (lastDocumentChange st !! uri document) in
    if (now - lastChange <? debounceDelay)%Z then st
    else withTimer now document st.

(** [`${Date.now()}-${Math.random()}`] *)
Definition freshId (now : Z) (st : State) : jsstring :=
  of_Z now ++ js "-" ++ random (randomDraws st).

Definition newIntervention (now : Z) (st : State)
    (suggestionContext : SuggestionContext) : Intervention :=
  {| id := freshId now st;
     context := suggestionContext;
     response := respondToIssue personality suggestionContext;
     timestamp := now;
     dismissed := None;
     accepted := None |}.

Definition withSuggestion (c : SuggestionContext) (s : option jsstring)
    : SuggestionContext :=
  {| filePath := filePath c; lineNumber := lineNumber c; code := code c;
     issueType := issueType c; severity := severity c;
     description := description c; suggestion := s |}.

Definition createIntervention (now : Z) (issue : CodeIssue)
    (document : TextDocument) (st : State) : State :=
  let suggestionContext := Conversion.convertToSuggestionContext issue in
  let enhancedSuggestion :=
    if useAIEnhancement config && isConfigured aiService then
      match analyzeCodeWithAI aiService (getText document)
              (languageId document) (typeName (CodeAnalyzer.type issue)) with
      | Some (c :: s) => Some (c :: s)
      | _ => suggestion suggestionContext
      end
    else suggestion suggestionContext in
  let suggestionContext :=
    match enhancedSuggestion with
    | Some (c :: s) => withSuggestion suggestionContext (Some (c :: s))
    | _ => suggestionContext
    end in
  let intervention := newIntervention now st suggestionContext in
  {| codeAnalyzer := codeAnalyzer st;
     learningSystem := learningSystem st;
     interventions := interventions st ++ [intervention];
     isActive := isActive st;
     focusMode := focusMode st;
     lastDocumentChange := lastDocumentChange st;
     timers := timers st;
     randomDraws := S (randomDraws st);
     emitted := emitted st ++ [intervention];
     warned := warned st |}.

Definition withAnalyzer (ca : CodeAnalyzer.State) (st : State) : State :=
  {| codeAnalyzer := ca;
     learningSystem := learningSystem st;
     interventions := interventions st;
     isActive := isActive st;
     focusMode := focusMode st;
     lastDocumentChange := lastDocumentChange st;
     timers := timers st;
     randomDraws := randomDraws st;
     emitted := emitted st;
     warned := warned st |}.

(** The issues [analyzeDocument] turns into interventions, given what
    the analyzer returned. *)
Definition selectIssues (st : State) (issues : list CodeIssue)
    : list CodeIssue :=
  let issues :=
    List.filter (LearningSystem.shouldShowIssue (learningSystem st)) issues in
  let filteredIssues := frequencyFilter (interventionFrequency config) issues in
  slice0 (maxSuggestionsPerMinute config) filteredIssues.

Definition analyzeDocument (now : Z) (document : TextDocument)
    (st : State) : State :=
  let '(issues, ca) :=
    CodeAnalyzer.analyzeDocument (proactiveInterruptions config) now
      document (codeAnalyzer st) in
  let st := withAnalyzer ca st in
  match issues with
  | [] => st
  | _ :: _ =>
      fold_left (λ st issue, createIntervention now issue document st)
        (selectIssues st issues) st
  end.

Definition onDocumentSave (now : Z) (document : TextDocument)
    (st : State) : State :=
  if autoReviewOnSave config && negb (focusMode st)
  then analyzeDocument now document st
  else st.

(** The callback of the oldest pending timer, run at [now]. *)
Definition fireTimer (now : Z) (st : State) : State :=
  match timers st with
  | [] => st
  | (_, document) :: rest =>
      analyzeDocument now document
        {| codeAnalyzer := codeAnalyzer st;
           learningSystem := learningSystem st;
           interventions := interventions st;
           isActive := isActive st;
           focusMode := focusMode st;
           lastDocumentChange := lastDocumentChange st;
           timers := rest;
           randomDraws := randomDraws st;
           emitted := emitted st;
           warned := warned st |}
  end.

(** The interventions [requestReview] builds from the issues, the
    [k]-th with the [k]-th next result of [Math.random()], when the clock
    shows one time during the whole call; [reviewInterventionsAt] below
    tells the readings apart. *)
Fixpoint reviewInterventions (now : Z) (draws : nat)
    (issues : list CodeIssue) : list Intervention :=
  match issues with
  | [] => []
  | issue :: rest =>
      let suggestionContext := Conversion.convertToSuggestionContext issue in
      {| id := of_Z now ++ js "-" ++ random draws;
         context := suggestionContext;
         response := respondToIssue personality suggestionContext;
         timestamp := now;
         dismissed := None;
         accepted := None |}
      :: reviewInterventions now (S draws) rest
  end.

(** [requestReview(document)]; [doc] is the argument or else the
    document of the active editor, [None] when there is neither. *)
Definition requestReview (now : Z) (doc : option TextDocument)
    (st : State) : list Intervention * State :=
  match doc with
  | None =>
      ([], {| codeAnalyzer := codeAnalyzer st;
              learningSystem := learningSystem st;
              interventions := interventions st;
              isActive := isActive st;
              focusMode := focusMode st;
              lastDocumentChange := lastDocumentChange st;
              timers := timers st;
              randomDraws := randomDraws st;
              emitted := emitted st;
              warned := warned st ++ [js "No active document to review"] |})
  | Some doc =>
      let '(issues, ca) :=
        CodeAnalyzer.analyzeDocument (proactiveInterruptions config) now
          doc (codeAnalyzer st) in
      let new := reviewInterventions now (randomDraws st) issues in
      (new, {| codeAnalyzer := ca;
               learningSystem := learningSystem st;
               interventions := interventions st ++ new;
               isActive := isActive st;
               focusMode := focusMode st;
               lastDocumentChange := lastDocumentChange st;
               timers := timers st;
               randomDraws := (randomDraws st + length issues)%nat;
               emitted := emitted st;
               warned := warned st |})
  end.

(** [requestReview] with every reading of the clock told apart: the
    analyzer reads it once, then the loop reads it twice for each issue,
    [Date.now()] for the id and [new Date()] for the timestamp. [clock n]
    is the [n]-th reading of the call. *)
Fixpoint reviewInterventionsAt (clock : nat → Z) (reading draws : nat)
    (issues : list CodeIssue) : list Intervention :=
  match issues with
  | [] => []
  | issue :: rest =>
      let suggestionContext := Conversion.convertToSuggestionContext issue in
      {| id := of_Z (clock reading) ++ js "-" ++ random draws;
         context := suggestionContext;
         response := respondToIssue personality suggestionContext;
         timestamp := clock (S reading);
         dismissed := None;
         accepted := None |}
      :: reviewInterventionsAt clock (S (S reading)) (S draws) rest
  end.

Definition requestReviewAt (clock : nat → Z) (doc : option TextDocument)
    (st : State) : list Intervention * State :=
  match doc with
  | None =>
      ([], {| codeAnalyzer := codeAnalyzer st;
              learningSystem := learningSystem st;
              interventions := interventions st;
              isActive := isActive st;
              focusMode := focusMode st;
              lastDocumentChange := lastDocumentChange st;
              timers := timers st;
              randomDraws := randomDraws st;
              emitted := emitted st;
              warned := warned st ++ [js "No active document to review"] |})
  | Some doc =>
      let '(issues, ca) :=
        CodeAnalyzer.analyzeDocument (proactiveInterruptions config)
          (clock 0%nat) doc (codeAnalyzer st) in
      let new := reviewInterventionsAt clock 1 (randomDraws st) issues in
      (new, {| codeAnalyzer := ca;
               learningSystem := learningSystem st;
               interventions := interventions st ++ new;
               isActive := isActive st;
               focusMode := focusMode st;
               lastDocumentChange := lastDocumentChange st;
               timers := timers st;
               randomDraws := (randomDraws st + length issues)%nat;
               emitted := emitted st;
               warned := warned st |})
  end.

Definition withFeedback (l : list Intervention)
    (ls : LearningSystem.State) (st : State) : State :=
  {| codeAnalyzer := codeAnalyzer st;
     learningSystem := ls;
     interventions := l;
     isActive := isActive st;
     focusMode := focusMode st;
     lastDocumentChange := lastDocumentChange st;
     timers := timers st;
     randomDraws := randomDraws st;
     emitted := emitted st;
     warned := warned st |}.

Definition dismissIntervention (now : Z) (ident : jsstring)
    (feedback : option jsstring) (st : State) : State :=
  match updateFound ident setDismissed (interventions st) with
  | Some (intervention, l) =>
      withFeedback l
        (LearningSystem.recordFeedback now intervention
           LearningSystem.dismissed feedback (learningSystem st)) st
  | None => st
  end.

Definition acceptIntervention (now : Z) (ident : jsstring) (st : State)
    : State :=
  match updateFound ident setAccepted (interventions st) with
  | Some (intervention, l) =>
      withFeedback l
        (LearningSystem.recordFeedback now intervention
           LearningSystem.accepted None (learningSystem st)) st
  | None => st
  end.

Definition getInterventions (st : State) : list Intervention :=
  List.filter (λ i, negb (truthy (dismissed i))) (interventions st).

(** A burst of changes to one document, at the given times. *)
Definition changes (times : list Z) (document : TextDocument) (st : State)
    : State :=
  fold_left (λ st now, onDocumentChange now document st) times st.

End Orchestrator.

(** [stopProactiveAnalysis], [startProactiveAnalysis] and [setFocusMode]. *)
Definition setActive (b : bool) (st : State) : State :=
  {| codeAnalyzer := codeAnalyzer st;
     learningSystem := learningSystem st;
     interventions := interventions st;
     isActive := b;
     focusMode := focusMode st;
     lastDocumentChange := lastDocumentChange st;
     timers := timers st;
     randomDraws := randomDraws st;
     emitted := emitted st;
     warned := warned st |}.

Definition stopProactiveAnalysis (st : State) : State := setActive false st.
Definition startProactiveAnalysis (st : State) : State := setActive true st.

(** [toggleInterventions], with the value it returns. *)
Definition toggleInterventions (st : State) : bool * State :=
  (negb (isActive st), setActive (negb (isActive st)) st).

Definition setFocusMode (enabled : bool) (st : State) : State :=
  {| codeAnalyzer := codeAnalyzer st;
     learningSystem := learningSystem st;
     interventions := interventions st;
     isActive := isActive st;
     focusMode := enabled;
     lastDocumentChange := lastDocumentChange st;
     timers := timers st;
     randomDraws := randomDraws st;
     emitted := emitted st;
     warned := warned st |}.

(** An intervention that [getInterventions] returns. *)
Definition active (i : Intervention) : bool := negb (truthy (dismissed i)).

(** The intervention was made of the issue: it carries its kind, severity,
    line and snippet, and is unresolved. *)
Definition madeFrom (n : Intervention) (issue : CodeIssue) : Prop :=
  Personality.issueType (context n) = CodeAnalyzer.type issue
  ∧ Personality.severity (context n) = CodeAnalyzer.severity issue
  ∧ Personality.lineNumber (context n) = CodeAnalyzer.line issue
  ∧ Personality.code (context n) = CodeAnalyzer.code issue
  ∧ Personality.description (context n) = CodeAnalyzer.message issue
  ∧ dismissed n = None
  ∧ accepted n = None.

End DMentorCore.

(** ** The AI service: [src/ai/aiService.ts]

    The three providers and the service that wraps one of them, as far as
    the orchestrator uses them. What the remote providers answer is the
    result of [callAPI]: the text the call resolves to, or [None] when it
    rejects. *)

Module AIService.

Inductive Provider : Type :=
| OpenAIProvider (apiKey : jsstring)
| AnthropicProvider (apiKey : jsstring)
| LocalAIProvider.

(** The settings [dmentorAI.aiProvider] and [dmentorAI.aiApiKey]. *)
Record Settings : Type := {
  aiProvider : jsstring;
  aiApiKey : jsstring
}.


Definition nonEmpty (s : jsstring) : bool :=
  match s with [] => false | _ :: _ => true end.

(** The provider [loadConfiguration] installs. *)
Definition loadConfiguration (s : Settings) : Provider :=
  if eqb (aiProvider s) (js "openai") then
    if nonEmpty (aiApiKey s) then OpenAIProvider (aiApiKey s)
    else LocalAIProvider
  else if eqb (aiProvider s) (js "anthropic") then
    if nonEmpty (aiApiKey s) then AnthropicProvider (aiApiKey s)
    else LocalAIProvider
  else LocalAIProvider.

(** [AIService.isConfigured]: the provider is never null after
    [loadConfiguration]. *)
Definition isConfigured (s : Settings) : bool :=
  negb (eqb (aiProvider s) (js "none")).

(** The [context] [analyzeCodeWithAI] passes to its provider. *)
Definition analysisContext (issueType : jsstring) : jsstring :=
  js "Analyze this code for " ++ issueType
    ++ js " issues. Provide specific, actionable feedback.".

(** The prompt of the remote providers; the three backticks are written
    as code units. *)
Definition fence : jsstring := [96%N; 96%N; 96%N].

Definition analysisPrompt (code context language : jsstring) : jsstring :=
  js "You are an expert " ++ language ++ js " code reviewer. " ++ context
    ++ [10%N; 10%N] ++ js "Code:" ++ [10%N] ++ fence ++ language ++ [10%N]
    ++ code ++ [10%N] ++ fence ++ [10%N; 10%N]
    ++ js "Provide specific, actionable feedback. Be concise and helpful.".

(** [LocalAIProvider.analyzeCode] *)
Definition localAnalysis (context : jsstring) : jsstring :=
  js "Analysis: " ++ context
    ++ js ". Review the code for best practices, potential bugs, and improvements.".

Section Service.

(** What [callAPI] of a remote provider resolves to for a prompt and a
    system message, [None] when it rejects. *)
Variable callAPI : Provider → jsstring → jsstring → option jsstring.

(** [provider.analyzeCode(code, context, language)] *)
Definition analyzeCode (p : Provider) (code context language : jsstring)
    : option jsstring :=
  match p with
  | LocalAIProvider => Some (localAnalysis context)
  | _ =>
      callAPI p (analysisPrompt code context language)
        (js "You are a helpful code review assistant.")
  end.

(** [AIService.analyzeCodeWithAI]: a rejection of the provider is caught
    and answered with the empty string. *)
Definition analyzeCodeWithAI (s : Settings) (code language issueType : jsstring)
    : jsstring :=
  default [] (analyzeCode (loadConfiguration s) code
                (analysisContext issueType) language).

(** The service as the orchestrator sees it. *)
Definition service (s : Settings) : DMentorCore.AIService :=
  {| DMentorCore.isConfigured := isConfigured s;
     DMentorCore.analyzeCodeWithAI :=
       λ code language issueType,
         Some (analyzeCodeWithAI s code language issueType) |}.

End Service.

End AIService.

(** ** The insights dashboard: [calculateStats] of
    [src/ui/insightsDashboard.ts] *)

Module InsightsDashboard.

Import CodeAnalyzer Interventions.

Definition severityName (s : Severity) : jsstring :=
  match s with
  | critical => js "critical"
  | warning => js "warning"
  | info => js "info"
  end.

Record Stats : Type := {
  total : nat;
  byType : gmap jsstring nat;
  bySeverity : gmap jsstring nat;
  accepted : nat;
  dismissed : nat;
  personality : jsstring
}.

(** [m[k] = (m[k] || 0) + 1] *)
Definition bump (k : jsstring) (m : gmap jsstring nat) : gmap jsstring nat :=
  <[k := S (default 0%nat (m !! k))]> m.

(** [calculateStats(interventions)], with the personality type the
    manager reports as an argument. *)
Definition calculateStats (personalityType : jsstring)
    (interventions : list Intervention) : Stats :=
  {| total := length interventions;
     byType :=
       fold_left
         (λ m i, bump (typeName (Personality.issueType (context i))) m)
         interventions ∅;
     bySeverity :=
       fold_left
         (λ m i, bump (severityName (Personality.severity (context i))) m)
         interventions ∅;
     accepted :=
       length (List.filter (λ i, truthy (Interventions.accepted i))
                 interventions);
     dismissed :=
       length (List.filter (λ i, truthy (Interventions.dismissed i))
                 interventions);
     personality := personalityType |}.

(** How many of the interventions are of the kind [t]. *)
Definition ofKind (t : IssueType) (l : list Intervention) : nat :=
  length (List.filter
            (λ i, bool_decide (Personality.issueType (context i) = t)) l).

Definition kinds : list IssueType :=
  [bug; security; performance; style; accessibility; code_smell].

End InsightsDashboard.

(** ** Inputs of the examples *)

Module Examples.

Import CodeAnalyzer.

Definition nl : jsstring := [10%N].


(** The issue the SQL rule reports for a concatenated query, and an
    intervention made of it. *)
Definition sqlIssue : CodeIssue :=
  issue security critical 1
    (js "Potential SQL injection vulnerability detected")
    (js "const query = 'SELECT * FROM t WHERE id=' + userId;")
    (js "Use parameterized queries or prepared statements instead of string concatenation")
    (js "/a.js").

Definition sqlIntervention : Interventions.Intervention :=
  {| Interventions.id := js "100000-0.25";
     Interventions.context := Conversion.convertToSuggestionContext sqlIssue;
     Interventions.response :=
       Personality.respondToIssue Personality.PerformanceOptimizer
         (Conversion.convertToSuggestionContext sqlIssue);
     Interventions.timestamp := 100000;
     Interventions.dismissed := None;
     Interventions.accepted := None |}.

Definition sqlKey : jsstring := LearningSystem.issuePattern sqlIssue.

Definition fresh : LearningSystem.State :=
  LearningSystem.create LearningSystem.emptyMemento.

(** The learning system after [sqlIntervention] was dismissed three
    times. *)
Definition dismissedThrice : LearningSystem.State :=
  LearningSystem.recordFeedback 100003 sqlIntervention
    LearningSystem.dismissed None
    (LearningSystem.recordFeedback 100002 sqlIntervention
       LearningSystem.dismissed None
       (LearningSystem.recordFeedback 100001 sqlIntervention
          LearningSystem.dismissed None fresh)).

(** ... and then accepted once. *)
Definition thenAccepted : LearningSystem.State :=
  LearningSystem.recordFeedback 100004 sqlIntervention
    LearningSystem.accepted None dismissedThrice.

(** Two JavaScript files, each with one line that a rule reports. *)
Definition docA : TextDocument :=
  {| uri := js "file:///a.js"; scheme := js "file"; fileName := js "/a.js";
     languageId := js "javascript"; getText := js "console.log(x);" |}.

Definition docB : TextDocument :=
  {| uri := js "file:///b.js"; scheme := js "file"; fileName := js "/b.js";
     languageId := js "javascript"; getText := js "el.innerHTML = y;" |}.

(** The analyzer after a pass over [docA] at time 100000. *)
Definition analyzedA : CodeAnalyzer.State :=
  snd (CodeAnalyzer.analyzeDocument true 100000 docA CodeAnalyzer.init).

Definition minimalConfiguration : DMentorCore.Configuration :=
  {| DMentorCore.proactiveInterruptions := true;
     DMentorCore.autoReviewOnSave := true;
     DMentorCore.maxSuggestionsPerMinute := 3;
     DMentorCore.interventionFrequency := js "minimal";
     DMentorCore.useAIEnhancement := false |}.

(** The results of [Math.random()], as they print: ["0.05"], ["0.15"],
    ["0.25"], ... *)
Definition random (n : nat) : jsstring := js "0." ++ of_nat n ++ js "5".

Definition started : DMentorCore.State :=
  DMentorCore.create LearningSystem.emptyMemento.

(** The orchestrator after a review of [docA] at time 100000, which
    creates one intervention, with the id ["100000-0.05"]. *)
Definition reviewedA : DMentorCore.State :=
  snd (DMentorCore.requestReview DMentorCore.defaultConfiguration
         Personality.PerformanceOptimizer random 100000 (Some docA) started).

Definition idA : jsstring := js "100000-0.05".

(** ... then that intervention dismissed, then accepted. *)
Definition dismissedThenAccepted : DMentorCore.State :=
  DMentorCore.acceptIntervention 100002 idA
    (DMentorCore.dismissIntervention 100001 idA None reviewedA).

(** The default settings with AI enhancement switched on. *)
Definition enhancedConfiguration : DMentorCore.Configuration :=
  {| DMentorCore.proactiveInterruptions := true;
     DMentorCore.autoReviewOnSave := true;
     DMentorCore.maxSuggestionsPerMinute := 3;
     DMentorCore.interventionFrequency := js "balanced";
     DMentorCore.useAIEnhancement := true |}.

(** An AI service that is not configured. *)
Definition noAI : DMentorCore.AIService :=
  {| DMentorCore.isConfigured := false;
     DMentorCore.analyzeCodeWithAI := λ _ _ _, None |}.

(** The inputs of the tests of [src/test/suite/codeAnalyzer.test.ts]. *)
Definition testNullAccess : jsstring :=
  js "const user = getUser();" ++ nl ++ js "const name = user.name;".

Definition testSql : jsstring :=
  js "const query = " ++ dq ++ js "SELECT * FROM users WHERE id = " ++ dq
    ++ js " + userId;".

Definition testXss : jsstring := js "element.innerHTML = userInput;".

Definition testImg : jsstring :=
  js "<img src=" ++ dq ++ js "image.jpg" ++ dq ++ js ">".

(** A Python function without a return-type annotation. *)
Definition pythonDef : jsstring := js "def foo(x):".

(** A JavaScript file with two lines that rules report. *)
Definition docC : TextDocument :=
  {| uri := js "file:///c.js"; scheme := js "file"; fileName := js "/c.js";
     languageId := js "javascript";
     getText := js "console.log(x);" ++ nl ++ js "el.innerHTML = y;" |}.

(** A clock that advances by a millisecond between two readings. *)
Definition ticking (n : nat) : Z := 100000 + Z.of_nat n.

End Examples.

(** * Properties *)

(** ** The tests of the repository

    What [src/test/suite/codeAnalyzer.test.ts] asserts of the analyzers
    holds of the embedding. *)

Example test_null_access :
  List.map CodeAnalyzer.summary
    (CodeAnalyzer.analyzeJavaScript Examples.testNullAccess (js "test.js"))
  = [(CodeAnalyzer.bug, CodeAnalyzer.warning, 2%nat)].
Proof. reflexivity. Qed.

Example test_sql_injection :
  List.map CodeAnalyzer.summary
    (CodeAnalyzer.analyzeJavaScript Examples.testSql (js "test-sql.js"))
  = [(CodeAnalyzer.security, CodeAnalyzer.critical, 1%nat)].
Proof. reflexivity. Qed.

Example test_xss :
  List.map (λ i, (CodeAnalyzer.type i, includes (CodeAnalyzer.message i) (js "XSS")))
    (CodeAnalyzer.analyzeJavaScript Examples.testXss (js "test-xss.js"))
  = [(CodeAnalyzer.security, true)].
Proof. reflexivity. Qed.

Example test_missing_alt :
  List.map CodeAnalyzer.summary
    (CodeAnalyzer.analyzeHTML Examples.testImg (js "test.html"))
  = [(CodeAnalyzer.accessibility, CodeAnalyzer.warning, 1%nat)].
Proof. reflexivity. Qed.

(** ** The matcher is sound for the language *)

Section RegExpFacts.

Lemma nullable_sound r : nullable r = true → lang r [].
Proof.
  induction r as [| | p | r1 IH1 r2 IH2 | r1 IH1 r2 IH2 | r IH]; simpl;
    intros H; try discriminate.
  - constructor.
  - apply andb_true_iff in H as [H1 H2].
    change (@nil N) with (@nil N ++ []). constructor; auto.
  - apply orb_true_iff in H as [H | H];
      [apply lang_alt_l | apply lang_alt_r]; auto.
  - constructor.
Qed.

Lemma deriv_sound r : ∀ c s, lang (deriv c r) s → lang r (c :: s).
Proof.
  induction r as [| | p | r1 IH1 r2 IH2 | r1 IH1 r2 IH2 | r IH];
    simpl; intros c s H.
  - inversion H.
  - inversion H.
  - destruct (p c) eqn:Hp; inversion H; subst. by constructor.
  - destruct (nullable r1) eqn:Hn.
    + inversion H as [| | | ? ? ? Hl | ? ? ? Hr | |]; subst.
      * inversion Hl; subst.
        change (c :: (s1 ++ s2)) with ((c :: s1) ++ s2).
        constructor; auto.
      * change (c :: s) with ([] ++ c :: s).
        constructor; auto using nullable_sound.
    + inversion H; subst.
      change (c :: (s1 ++ s2)) with ((c :: s1) ++ s2).
      constructor; auto.
  - inversion H; subst; [apply lang_alt_l | apply lang_alt_r]; auto.
  - inversion H; subst.
    change (c :: (s1 ++ s2)) with ((c :: s1) ++ s2).
    constructor; auto.
Qed.

Lemma accepts_sound s : ∀ r, accepts r s = true → lang r s.
Proof.
  induction s as [| c s IH]; simpl; intros r H.
  - by apply nullable_sound.
  - by apply deriv_sound, IH.
Qed.

(** A code unit that every word of the tail of a sequence holds is in
    every word of the sequence. *)
Lemma lang_seq_elem_r c r1 r2 s :
  lang (Seq r1 r2) s → (∀ t, lang r2 t → c ∈ t) → c ∈ s.
Proof.
  intros H Ht. inversion H; subst. apply elem_of_app. right. by apply Ht.
Qed.

Lemma lang_seq_elem_l c r1 r2 s :
  lang (Seq r1 r2) s → (∀ t, lang r1 t → c ∈ t) → c ∈ s.
Proof.
  intros H Ht. inversion H; subst. apply elem_of_app. left. by apply Ht.
Qed.

Lemma lang_chr_elem c s : lang (chr c) s → c ∈ s.
Proof.
  unfold chr. intros H. inversion H as [| p x Hx | | | | |]; subst.
  apply N.eqb_eq in Hx. subst. apply list_elem_of_here.
Qed.

Lemma includes_elem c s : c ∈ s → includes s [c] = true.
Proof.
  induction 1 as [x s | x y s _ IH]; simpl.
  - by rewrite N.eqb_refl.
  - rewrite IH. apply orb_true_r.
Qed.

End RegExpFacts.

(** ** The Python rules *)

Section PythonFacts.

Import CodeAnalyzer.

(** A line [/^def\s+\w+\s*\([^)]*\)\s*:/] matches holds a colon. *)
Lemma def_line_has_colon l :
  test_at_start re_def l = true → includes l (js ":") = true.
Proof.
  intros H. apply (includes_elem 58%N).
  apply accepts_sound in H.
  apply (lang_seq_elem_l _ _ _ _ H). clear H l.
  unfold re_def. cbn [seqs].
  do 8 (intros t H; apply (lang_seq_elem_r _ _ _ _ H); clear H t).
  apply lang_chr_elem.
Qed.

(** So the guard of the type-hint rule is never true. *)
Lemma type_hint_guard_false l :
  test_at_start re_def l && negb (includes l (js "->"))
    && negb (includes l (js ":")) = false.
Proof.
  destruct (test_at_start re_def l) eqn:H; [| done].
  by rewrite (def_line_has_colon _ H), andb_false_r.
Qed.

Lemma pythonRules_no_style filePath l index :
  List.filter isStyle (pythonRules filePath l index) = [].
Proof.
  unfold pythonRules. rewrite type_hint_guard_false.
  rewrite !List.filter_app.
  destruct (test re_py_execute l);
    destruct (eqb (trim l) (js "except:") || test_at_end re_bare_except (trim l));
    reflexivity.
Qed.

Lemma forEachLine_filter (p : CodeIssue → bool) rules lines :
  (∀ l index, List.filter p (rules l index) = []) →
  ∀ index, List.filter p (forEachLine rules lines index) = [].
Proof.
  intros Hr. induction lines as [| l ls IH]; simpl; intros index; [done |].
  by rewrite List.filter_app, Hr, IH.
Qed.

End PythonFacts.

(** C6. A Python line with a function definition that lacks a return-type
    annotation, such as [def foo(x):], should yield a style/info issue on
    that line. The code does not: the guard of the rule asks both that the
    line match [/^def\s+\w+\s*\([^)]*\)\s*:/], which ends in a colon, and
    that the line hold no colon, so [analyzePython] yields nothing for
    [def foo(x):] and never yields a style issue at all. *)
Theorem python_type_hint_rule_is_dead :
  (∀ filePath, CodeAnalyzer.analyzePython Examples.pythonDef filePath = [])
  ∧ (∀ code filePath,
       List.filter CodeAnalyzer.isStyle (CodeAnalyzer.analyzePython code filePath)
       = []).
Proof.
  split.
  - intros filePath. reflexivity.
  - intros code filePath. unfold CodeAnalyzer.analyzePython.
    apply forEachLine_filter. intros l index. apply pythonRules_no_style.
Qed.

(** ** Nested loops *)

Section NestedLoopFacts.

Import CodeAnalyzer.








End NestedLoopFacts.



(** ** The learning system *)

Section LearningFacts.

Import CodeAnalyzer Interventions LearningSystem.

Implicit Types (st : State) (i : Intervention) (a : Action).

Lemma rules_recordFeedback now i a fb st :
  adaptationRules (recordFeedback now i a fb st)
  = adaptationRules
      (updateAdaptationRules i a (updateLearningPatterns now i a st)).
Proof. reflexivity. Qed.

Lemma patterns_recordFeedback now i a fb st :
  learningPatterns (recordFeedback now i a fb st)
  = learningPatterns (updateLearningPatterns now i a st).
Proof. reflexivity. Qed.


(** Each call adds one to the count of the pattern of its intervention. *)
Lemma patternCount_recordFeedback now i a fb st :
  patternCount (recordFeedback now i a fb st) (extractPattern i)
  = S (patternCount st (extractPattern i)).
Proof.
  unfold patternCount. rewrite patterns_recordFeedback.
  unfold updateLearningPatterns. cbn [learningPatterns].
  rewrite lookup_insert_eq.
  by destruct (learningPatterns st !! extractPattern i).
Qed.

(** No call takes a pattern out of [skipPatterns]. *)
Lemma skipPatterns_recordFeedback now i a fb st K :
  K ∈ skipPatterns (adaptationRules st) →
  K ∈ skipPatterns (adaptationRules (recordFeedback now i a fb st)).
Proof.
  intros H. rewrite rules_recordFeedback.
  unfold updateAdaptationRules.
  cbn [adaptationRules skipPatterns updateLearningPatterns].
  match goal with |- context [if ?c then _ else _] => destruct c end;
    [apply elem_of_app; by left | done].
Qed.

Lemma skipPatterns_recordAll calls : ∀ st K,
  K ∈ skipPatterns (adaptationRules st) →
  K ∈ skipPatterns (adaptationRules (recordAll calls st)).
Proof.
  induction calls as [| c calls IH]; intros st K H; [done |].
  apply IH. by apply skipPatterns_recordFeedback.
Qed.

(** A dismissal that finds three or more occurrences of its pattern
    leaves the pattern in [skipPatterns]. *)
Lemma updateAdaptationRules_learns i st :
  (3 ≤ patternCount st (extractPattern i))%nat →
  extractPattern i
    ∈ skipPatterns (adaptationRules (updateAdaptationRules i dismissed st)).
Proof.
  intros H. unfold updateAdaptationRules. cbn [adaptationRules skipPatterns].
  fold (patternCount st (extractPattern i)).
  rewrite (bool_decide_eq_true_2 (dismissed = dismissed)) by done.
  rewrite (bool_decide_eq_true_2 (3 ≤ _)%nat) by done.
  cbn [andb].
  destruct (bool_decide (extractPattern i ∈ _)) eqn:Hin; cbn [negb].
  - by apply bool_decide_eq_true_1 in Hin.
  - apply elem_of_app. right. apply list_elem_of_here.
Qed.

Lemma dismissal_learns now i fb st :
  (2 ≤ patternCount st (extractPattern i))%nat →
  extractPattern i
    ∈ skipPatterns (adaptationRules (recordFeedback now i dismissed fb st)).
Proof.
  intros H. rewrite rules_recordFeedback.
  apply updateAdaptationRules_learns.
  change (patternCount (updateLearningPatterns now i dismissed st)
            (extractPattern i))
    with (patternCount (recordFeedback now i dismissed fb st)
            (extractPattern i)).
  rewrite patternCount_recordFeedback. lia.
Qed.

Lemma skipped_not_shown st issue :
  issuePattern issue ∈ skipPatterns (adaptationRules st) →
  shouldShowIssue st issue = false.
Proof.
  intros H. unfold shouldShowIssue. by rewrite bool_decide_eq_true_2.
Qed.

(** An acceptance leaves the pattern of its intervention in
    [preferredPatterns]. *)
Lemma acceptance_prefers now i fb st :
  extractPattern i
    ∈ preferredPatterns (adaptationRules (recordFeedback now i accepted fb st)).
Proof.
  rewrite rules_recordFeedback. unfold updateAdaptationRules.
  cbn [adaptationRules preferredPatterns updateLearningPatterns].
  rewrite (bool_decide_eq_true_2 (accepted = accepted)) by done.
  cbn [andb].
  destruct (bool_decide (extractPattern i ∈ _)) eqn:Hin; cbn [negb].
  - by apply bool_decide_eq_true_1 in Hin.
  - apply elem_of_app. right. apply list_elem_of_here.
Qed.

End LearningFacts.

(** C1. Three consecutive dismissals of interventions whose pattern key is
    [K] put [K] in [skipPatterns], whatever the learning system held before;
    from then on, through any further [recordFeedback] calls,
    [shouldShowIssue] is false for every issue whose pattern key is [K],
    whatever its severity, critical included. *)
Theorem three_dismissals_suppress
    (st : LearningSystem.State) (K : jsstring)
    (n1 n2 n3 : Z) (i1 i2 i3 : Interventions.Intervention)
    (f1 f2 f3 : option jsstring) :
  LearningSystem.extractPattern i1 = K →
  LearningSystem.extractPattern i2 = K →
  LearningSystem.extractPattern i3 = K →
  let st3 :=
    LearningSystem.recordFeedback n3 i3 LearningSystem.dismissed f3
      (LearningSystem.recordFeedback n2 i2 LearningSystem.dismissed f2
         (LearningSystem.recordFeedback n1 i1 LearningSystem.dismissed f1 st)) in
  K ∈ LearningSystem.skipPatterns (LearningSystem.adaptationRules st3)
  ∧ ∀ later issue,
      LearningSystem.issuePattern issue = K →
      LearningSystem.shouldShowIssue (LearningSystem.recordAll later st3) issue
      = false.
Proof.
  intros H1 H2 H3 st3.
  assert (K ∈ LearningSystem.skipPatterns (LearningSystem.adaptationRules st3))
    as HK.
  { subst st3. rewrite <- H3. apply dismissal_learns.
    rewrite H3, <- H2, patternCount_recordFeedback.
    rewrite H2, <- H1, patternCount_recordFeedback. lia. }
  split; [done |].
  intros later issue Hi. apply skipped_not_shown. rewrite Hi.
  by apply skipPatterns_recordAll.
Qed.

Lemma three_dismissals_suppress_witness :
  Examples.sqlKey
    ∈ LearningSystem.skipPatterns
        (LearningSystem.adaptationRules Examples.dismissedThrice)
  ∧ CodeAnalyzer.severity Examples.sqlIssue = CodeAnalyzer.critical
  ∧ LearningSystem.shouldShowIssue Examples.dismissedThrice Examples.sqlIssue
    = false.
Proof.
  pose proof (three_dismissals_suppress Examples.fresh Examples.sqlKey
                100001 100002 100003
                Examples.sqlIntervention Examples.sqlIntervention
                Examples.sqlIntervention None None None
                eq_refl eq_refl eq_refl) as [H1 H2].
  split; [exact H1 |]. split; [reflexivity |].
  exact (H2 [] Examples.sqlIssue eq_refl).
Defined.

(** C9. A pattern key in [skipPatterns] stays there through every sequence
    of [recordFeedback] calls, so [shouldShowIssue] stays false for it; an
    acceptance of an intervention with that key adds the key to
    [preferredPatterns] and leaves it in [skipPatterns]; and
    [resetLearningData] empties [skipPatterns]. *)
Theorem suppression_is_permanent (st : LearningSystem.State) (K : jsstring) :
  K ∈ LearningSystem.skipPatterns (LearningSystem.adaptationRules st) →
  (∀ calls,
     K ∈ LearningSystem.skipPatterns
           (LearningSystem.adaptationRules (LearningSystem.recordAll calls st))
     ∧ ∀ issue, LearningSystem.issuePattern issue = K →
         LearningSystem.shouldShowIssue (LearningSystem.recordAll calls st)
           issue = false)
  ∧ (∀ now i fb,
       LearningSystem.extractPattern i = K →
       let st' :=
         LearningSystem.recordFeedback now i LearningSystem.accepted fb st in
       K ∈ LearningSystem.preferredPatterns (LearningSystem.adaptationRules st')
       ∧ K ∈ LearningSystem.skipPatterns (LearningSystem.adaptationRules st')
       ∧ ∀ issue, LearningSystem.issuePattern issue = K →
           LearningSystem.shouldShowIssue st' issue = false)
  ∧ LearningSystem.skipPatterns
      (LearningSystem.adaptationRules (LearningSystem.resetLearningData st))
    = [].
Proof.
  intros HK. split; [| split].
  - intros calls.
    pose proof (skipPatterns_recordAll calls st K HK) as H.
    split; [done |]. intros issue Hi. apply skipped_not_shown. by rewrite Hi.
  - intros now i fb Hi st'.
    pose proof (skipPatterns_recordFeedback now i LearningSystem.accepted fb
                  st K HK) as H.
    split; [| split].
    + subst st'. rewrite <- Hi. apply acceptance_prefers.
    + done.
    + intros issue Hp. apply skipped_not_shown. by rewrite Hp.
  - reflexivity.
Qed.

Lemma suppression_is_permanent_witness :
  Examples.sqlKey
    ∈ LearningSystem.preferredPatterns
        (LearningSystem.adaptationRules Examples.thenAccepted)
  ∧ Examples.sqlKey
    ∈ LearningSystem.skipPatterns
        (LearningSystem.adaptationRules Examples.thenAccepted)
  ∧ LearningSystem.shouldShowIssue Examples.thenAccepted Examples.sqlIssue
    = false.
Proof.
  assert (Examples.sqlKey
            ∈ LearningSystem.skipPatterns
                (LearningSystem.adaptationRules Examples.dismissedThrice)) as H.
  { vm_compute. apply list_elem_of_here. }
  pose proof (proj1 (proj2 (suppression_is_permanent Examples.dismissedThrice
                              Examples.sqlKey H))
                100004%Z Examples.sqlIntervention None eq_refl) as (H1 & H2 & H3).
  split; [exact H1 |]. split; [exact H2 |].
  exact (H3 Examples.sqlIssue eq_refl).
Defined.

(** C10. After any sequence of [recordFeedback] calls, the statistics of
    [getLearningStats] satisfy
    [totalFeedback = accepted + dismissed + modified]. *)
Theorem stats_total_is_sum (st : LearningSystem.State)
    (calls : list LearningSystem.Call) :
  let stats :=
    LearningSystem.getLearningStats (LearningSystem.recordAll calls st) in
  LearningSystem.totalFeedback stats
  = (LearningSystem.statAccepted stats + LearningSystem.statDismissed stats
     + LearningSystem.statModified stats)%nat.
Proof.
  cbn zeta. unfold LearningSystem.getLearningStats.
  cbn [LearningSystem.totalFeedback LearningSystem.statAccepted
       LearningSystem.statDismissed LearningSystem.statModified].
  generalize (LearningSystem.feedbackHistory (LearningSystem.recordAll calls st)).
  intros h. unfold LearningSystem.countAction.
  induction h as [| f h IH]; [done |].
  rewrite !filter_cons. cbn [length]. rewrite IH.
  destruct (LearningSystem.action f); repeat case_decide; try done;
    cbn [length]; lia.
Qed.

(** ** Binary64 arithmetic between 0.3 and 1

    The two operations of [updateAdaptationRules], [x - 0.1] and
    [x + 0.05], on the numbers between 0.3 and 1.0: each gives a normal
    number that is off the exact result by at most one unit in the last
    place. Values are compared through [JsNumber.scaled], their multiple of
    2^-57. *)

Section Binary64Facts.

Import JsNumber.
Local Open Scope Z_scope.

Lemma digits2_pos_size p : digits2_pos p = Pos.size p.
Proof. induction p as [p IH | p IH |]; cbn; by rewrite ?IH. Qed.

Lemma size_bounds (p : positive) (d : Z) :
  2 ^ (d - 1) ≤ Z.pos p < 2 ^ d → 1 ≤ d → Z.pos (digits2_pos p) = d.
Proof.
  intros [Hl Hu] Hd. rewrite digits2_pos_size.
  pose proof (Pos.size_gt p) as Hgt. pose proof (Pos.size_le p) as Hle.
  apply Pos2Z.pos_lt_pos in Hgt. apply Pos2Z.pos_le_pos in Hle.
  rewrite Pos2Z.inj_pow in Hgt, Hle.
  assert (Z.pos p~0 = 2 * Z.pos p) as Hx by lia. rewrite Hx in Hle. clear Hx.
  set (s := Z.pos (Pos.size p)) in *.
  assert (0 < s) as Hs by (subst s; lia). clearbody s.
  destruct (Z.lt_trichotomy s d) as [H | [H | H]]; [| done |].
  - assert (2 ^ s ≤ 2 ^ (d - 1)) by (apply Z.pow_le_mono_r; lia).
    clear Hle. lia.
  - assert (2 ^ (d + 1) ≤ 2 ^ s) by (apply Z.pow_le_mono_r; lia).
    replace (2 ^ (d + 1)) with (2 * 2 ^ d) in *
      by (rewrite Z.pow_add_r by lia; lia).
    lia.
Qed.

Lemma digits_bounds (p : positive) :
  2 ^ (Z.pos (digits2_pos p) - 1) ≤ Z.pos p < 2 ^ Z.pos (digits2_pos p).
Proof.
  rewrite digits2_pos_size.
  pose proof (Pos.size_gt p) as Hgt. pose proof (Pos.size_le p) as Hle.
  apply Pos2Z.pos_lt_pos in Hgt. apply Pos2Z.pos_le_pos in Hle.
  rewrite Pos2Z.inj_pow in Hgt, Hle.
  assert (Z.pos p~0 = 2 * Z.pos p) as Hx by lia. rewrite Hx in Hle. clear Hx.
  split; [| done].
  replace (2 ^ Z.pos (Pos.size p)) with (2 * 2 ^ (Z.pos (Pos.size p) - 1))
    in Hle.
  - lia.
  - rewrite <- Z.pow_succ_r by lia. f_equal. lia.
Qed.

Lemma Zdigits2_53 m : 2 ^ 52 ≤ m < 2 ^ 53 → Zdigits2 m = 53.
Proof.
  intros H. destruct m as [| p | p]; [lia | | lia].
  cbn [Zdigits2]. apply size_bounds; [done | lia].
Qed.

(** One step of the right shift halves the mantissa, keeps the bit
    shifted out and remembers whether a one was shifted out before. *)
Lemma shr_1_spec m r s :
  0 ≤ m →
  shr_1 {| shr_m := m; shr_r := r; shr_s := s |}
  = {| shr_m := Z.div2 m; shr_r := Z.odd m; shr_s := r || s |}.
Proof. by destruct m as [| [p | p |] |]. Qed.

(** The second half of [binary_round_aux]: a mantissa of 53 bits is kept,
    and 2^53 is renormalised. *)
Lemma round_tail m e :
  2 ^ 52 ≤ m ≤ 2 ^ 53 → -1000 ≤ e ≤ 900 →
  (let '(mrs, e') := shr_fexp prec emax m e loc_Exact in
   match shr_m mrs with
   | Z0 => S754_zero false
   | Z.pos m => if e' <=? emax - prec then S754_finite false m e'
                else S754_infinity false
   | Z.neg _ => S754_nan
   end)
  = if m <? 2 ^ 53 then S754_finite false (Z.to_pos m) e
    else S754_finite false (Z.to_pos (2 ^ 52)) (e + 1).
Proof.
  intros Hm He. destruct (Z.ltb_spec m (2 ^ 53)) as [Hlt | Hge].
  - unfold shr_fexp. rewrite Zdigits2_53 by lia.
    replace (fexp prec emax (53 + e) - e) with 0
      by (unfold fexp, emin, prec, emax; lia).
    cbn [shr shr_record_of_loc shr_m].
    destruct m as [| p | p]; [lia | | lia].
    rewrite (proj2 (Z.leb_le _ _)) by (unfold prec, emax; lia). done.
  - assert (m = 2 ^ 53) as -> by lia.
    unfold shr_fexp.
    replace (Zdigits2 (2 ^ 53)) with 54 by done.
    replace (fexp prec emax (54 + e) - e) with 1
      by (unfold fexp, emin, prec, emax; lia).
    cbn [shr shr_record_of_loc shr_m SpecFloat.iter_pos].
    rewrite shr_1_spec by done. cbn [shr_m].
    change (Z.div2 (2 ^ 53)) with (Z.pos (Z.to_pos (2 ^ 52))).
    rewrite (proj2 (Z.leb_le _ _)) by (unfold prec, emax; lia). done.
Qed.

Ltac peel a :=
  let H := fresh "E" in
  pose proof (Z.div2_odd a) as H;
  let b := fresh "b" in
  let q := fresh "q" in
  let Hb := fresh in
  let Hq := fresh in
  remember (Z.odd a) as b eqn:Hb; remember (Z.div2 a) as q eqn:Hq;
  clear Hb Hq.

Ltac is_pos_literal p :=
  lazymatch p with
  | xH => idtac
  | xO ?q => is_pos_literal q
  | xI ?q => is_pos_literal q
  end.

Ltac is_Z_literal n :=
  lazymatch n with
  | Z0 => idtac
  | Z.pos ?p => is_pos_literal p
  | Z.neg ?p => is_pos_literal p
  | Z.add ?a ?b => is_Z_literal a; is_Z_literal b
  | Z.sub ?a ?b => is_Z_literal a; is_Z_literal b
  end.

(** Powers of two with a closed exponent are replaced by their values. *)
Ltac numerals :=
  repeat match goal with
         | |- context [Z.pow 2 ?n] =>
             is_Z_literal n;
             let v := eval vm_compute in (Z.pow 2 n) in
             change (Z.pow 2 n) with v
         | H : context [Z.pow 2 ?n] |- _ =>
             is_Z_literal n;
             let v := eval vm_compute in (Z.pow 2 n) in
             change (Z.pow 2 n) with v in H
         end.

(** The first half of [binary_round_aux]: dropping [k] bits and rounding
    to nearest, ties to even, moves a number by at most half a unit. *)
Lemma round_head (z : positive) (k : Z) :
  1 ≤ k ≤ 5 →
  2 ^ (52 + k) ≤ Z.pos z < 2 ^ (53 + k) →
  let mrs :=
    SpecFloat.iter_pos shr_1 (Z.to_pos k)
      {| shr_m := Z.pos z; shr_r := false; shr_s := false |} in
  let m := round_nearest_even (shr_m mrs) (loc_of_shr_record mrs) in
  2 ^ 52 ≤ m ≤ 2 ^ 53 ∧ Z.abs (m * 2 ^ k - Z.pos z) ≤ 2 ^ (k - 1).
Proof.
  intros Hk Hz.
  assert (k = 1 ∨ k = 2 ∨ k = 3 ∨ k = 4 ∨ k = 5) as Hc by lia.
  assert (0 ≤ Z.pos z) as H0 by lia.
  destruct Hc as [-> | [-> | [-> | [-> | ->]]]];
    cbn [Z.to_pos SpecFloat.iter_pos] in *;
    rewrite !shr_1_spec by (rewrite ?Z.div2_nonneg; exact H0);
    cbn [orb].
  - peel (Z.pos z). cbv zeta. cbn [shr_m loc_of_shr_record].
    numerals.
    destruct b; cbn [round_nearest_even Z.b2z] in *;
      try destruct (Z.even q) eqn:Hev; lia.
  - peel (Z.pos z). peel q. cbv zeta. cbn [shr_m loc_of_shr_record].
    numerals.
    destruct b, b0;
      cbn [round_nearest_even Z.b2z orb loc_of_shr_record] in *;
      try destruct (Z.even q0) eqn:Hev; lia.
  - peel (Z.pos z). peel q. peel q0. cbv zeta.
    cbn [shr_m loc_of_shr_record]. numerals.
    destruct b, b0, b1;
      cbn [round_nearest_even Z.b2z orb loc_of_shr_record] in *;
      try destruct (Z.even q1) eqn:Hev; lia.
  - peel (Z.pos z). peel q. peel q0. peel q1. cbv zeta.
    cbn [shr_m loc_of_shr_record]. numerals.
    destruct b, b0, b1, b2;
      cbn [round_nearest_even Z.b2z orb loc_of_shr_record] in *;
      try destruct (Z.even q2) eqn:Hev; lia.
  - peel (Z.pos z). peel q. peel q0. peel q1. peel q2. cbv zeta.
    cbn [shr_m loc_of_shr_record]. numerals.
    destruct b, b0, b1, b2, b3;
      cbn [round_nearest_even Z.b2z orb loc_of_shr_record] in *;
      try destruct (Z.even q3) eqn:Hev; lia.
Qed.

(** Rounding a positive integer of [53 + k] bits, in units of [2 ^ e0]:
    the result has a mantissa of 53 bits and is off by at most half a unit
    of the last place kept. *)
Lemma normalize_pos (z : positive) (e0 k : Z) :
  -900 ≤ e0 ≤ 800 → 1 ≤ k ≤ 5 →
  2 ^ (52 + k) ≤ Z.pos z < 2 ^ (53 + k) →
  ∃ m e, binary_normalize prec emax (Z.pos z) e0 false = S754_finite false m e
         ∧ 2 ^ 52 ≤ Z.pos m < 2 ^ 53
         ∧ e0 + k ≤ e ≤ e0 + k + 1
         ∧ Z.abs (Z.pos m * 2 ^ (e - e0) - Z.pos z) ≤ 2 ^ (k - 1).
Proof.
  intros He Hk Hz.
  assert (Z.pos (digits2_pos z) = 53 + k) as Hd.
  { apply size_bounds; [| lia]. by replace (53 + k - 1) with (52 + k) by lia. }
  destruct (round_head z k Hk Hz) as [Hm Hr].
  unfold binary_normalize, binary_round.
  replace (fexp prec emax (Z.pos (digits2_pos z) + e0)) with (e0 + k)
    by (rewrite Hd; unfold fexp, emin, prec, emax; lia).
  unfold shl_align. replace (e0 + k - e0) with k by lia.
  destruct k as [| p | p]; [lia | | lia].
  unfold binary_round_aux, shr_fexp at 1. cbn [Zdigits2]. rewrite Hd.
  replace (fexp prec emax (53 + Z.pos p + e0) - e0) with (Z.pos p)
    by (unfold fexp, emin, prec, emax; lia).
  cbn [shr shr_record_of_loc]. cbn [Z.to_pos] in Hm, Hr.
  set (m := round_nearest_even _ _) in *.
  rewrite round_tail by lia.
  destruct (Z.ltb_spec m (2 ^ 53)) as [Hlt | Hge].
  - exists (Z.to_pos m), (e0 + Z.pos p).
    rewrite Z2Pos.id by lia.
    replace (e0 + Z.pos p - e0) with (Z.pos p) by lia.
    repeat split; lia.
  - exists (Z.to_pos (2 ^ 52)), (e0 + Z.pos p + 1).
    assert (m = 2 ^ 53) as Hm' by lia. rewrite Hm' in Hr.
    replace (e0 + Z.pos p + 1 - e0) with (Z.succ (Z.pos p)) by lia.
    rewrite Z.pow_succ_r by lia.
    repeat split; try lia; done.
Qed.

(** The literals of the learning system, as the numbers they denote. *)
Lemma literal_3_10 : literal 3 10 = S754_finite false 5404319552844595 (-54).
Proof. by vm_compute. Qed.

Lemma literal_1_10 : literal 1 10 = S754_finite false 7205759403792794 (-56).
Proof. by vm_compute. Qed.

Lemma literal_5_100 : literal 5 100 = S754_finite false 7205759403792794 (-57).
Proof. by vm_compute. Qed.

Lemma literal_5_10 : literal 5 10 = S754_finite false 4503599627370496 (-53).
Proof. by vm_compute. Qed.

Lemma ofZ_1 : ofZ 1 = S754_finite false 4503599627370496 (-52).
Proof. by vm_compute. Qed.

Lemma normal_isNumber v : normal v → isNumber v.
Proof.
  destruct v as [| | | [|] m e]; try done. intros [Hm He].
  unfold isNumber, valid_binary, bounded, canonical_mantissa.
  rewrite (size_bounds m 53) by (done || lia).
  apply andb_true_iff. split.
  - apply Z.eqb_eq. unfold fexp, emin, prec, emax. lia.
  - apply Z.leb_le. unfold prec, emax. lia.
Qed.

Lemma exponent_step x y :
  -57 ≤ x → x < y → 2 * 2 ^ (x + 57) ≤ 2 ^ (y + 57).
Proof.
  intros Hx Hxy. rewrite <- Z.pow_succ_r by lia.
  apply Z.pow_le_mono_r; lia.
Qed.

(** Normal numbers compare as their values do. *)
Lemma compare_normal a b :
  normal a → normal b → SFcompare a b = Some (scaled a ?= scaled b).
Proof.
  destruct a as [| | | [|] ma ea]; try done.
  destruct b as [| | | [|] mb eb]; try done.
  intros [Ha Hea] [Hb Heb]. cbn [SFcompare scaled]. f_equal.
  assert (0 < 2 ^ (ea + 57)) as Hpa by (apply Z.pow_pos_nonneg; lia).
  assert (0 < 2 ^ (eb + 57)) as Hpb by (apply Z.pow_pos_nonneg; lia).
  numerals.
  destruct (Z.compare_spec ea eb) as [-> | Hlt | Hgt].
  - change (Pos.compare_cont Eq ma mb) with (Z.pos ma ?= Z.pos mb).
    destruct (Z.compare_spec (Z.pos ma) (Z.pos mb)); symmetry;
      [apply Z.compare_eq_iff | apply Z.compare_lt_iff
      | apply Z.compare_gt_iff]; nia.
  - symmetry. apply Z.compare_lt_iff.
    pose proof (exponent_step ea eb ltac:(lia) Hlt). nia.
  - symmetry. apply Z.compare_gt_iff.
    pose proof (exponent_step eb ea ltac:(lia) ltac:(lia)). nia.
Qed.

(** Two normal numbers of the same value are the same number. *)
Lemma scaled_inj a b : normal a → normal b → scaled a = scaled b → a = b.
Proof.
  destruct a as [| | | [|] ma ea]; try done.
  destruct b as [| | | [|] mb eb]; try done.
  intros [Ha Hea] [Hb Heb]. cbn [scaled]. intros H.
  assert (0 < 2 ^ (ea + 57)) as Hpa by (apply Z.pow_pos_nonneg; lia).
  assert (0 < 2 ^ (eb + 57)) as Hpb by (apply Z.pow_pos_nonneg; lia).
  numerals.
  destruct (Z.lt_trichotomy ea eb) as [Hlt | [-> | Hgt]].
  - pose proof (exponent_step ea eb ltac:(lia) Hlt). nia.
  - f_equal. nia.
  - pose proof (exponent_step eb ea ltac:(lia) ltac:(lia)). nia.
Qed.

Lemma max_normal a b :
  normal a → normal b →
  normal (max a b) ∧ scaled (max a b) = Z.max (scaled a) (scaled b).
Proof.
  intros Ha Hb. unfold max. rewrite compare_normal by done.
  destruct (Z.compare_spec (scaled a) (scaled b)) as [H | H | H].
  - destruct a as [| | | [|] ma ea]; try done. split; [done | lia].
  - split; [done | lia].
  - split; [done | lia].
Qed.

Lemma min_normal a b :
  normal a → normal b →
  normal (min a b) ∧ scaled (min a b) = Z.min (scaled a) (scaled b).
Proof.
  intros Ha Hb. unfold min. rewrite compare_normal by done.
  destruct (Z.compare_spec (scaled a) (scaled b)) as [H | H | H].
  - destruct a as [| | | [|] ma ea]; try done. split; [done | lia].
  - split; [done | lia].
  - split; [done | lia].
Qed.

Lemma leb_normal a b :
  normal a → normal b → leb a b = true ↔ scaled a ≤ scaled b.
Proof.
  intros Ha Hb. unfold leb, SFleb. rewrite compare_normal by done.
  destruct (Z.compare_spec (scaled a) (scaled b)); split; (done || lia).
Qed.

Lemma ltb_normal a b :
  normal a → normal b → ltb a b = true ↔ scaled a < scaled b.
Proof.
  intros Ha Hb. unfold ltb, SFltb. rewrite compare_normal by done.
  destruct (Z.compare_spec (scaled a) (scaled b)); split; (done || lia).
Qed.

(** A number between 0.3 and 1.0 has one of three exponents, and a value,
    in units of 2^-57, between those of 0.3 and 1. *)
Lemma inRange_finite v :
  LearningSystem.inRange v →
  ∃ m e, v = S754_finite false m e
         ∧ 2 ^ 52 ≤ Z.pos m < 2 ^ 53 ∧ -54 ≤ e ≤ -52
         ∧ 43234556422756760 ≤ scaled v ≤ 144115188075855872.
Proof.
  intros (Hv & Hl & Hu). rewrite literal_3_10 in Hl. rewrite ofZ_1 in Hu.
  destruct v as [s | s | | s m e];
    try (unfold leb, SFleb in Hl, Hu; cbn [SFcompare] in Hl, Hu;
         first [done | by destruct s]).
  destruct s; [done |].
  assert (-54 ≤ e ≤ -52) as He.
  { unfold leb, SFleb in Hl, Hu. cbn [SFcompare] in Hl, Hu.
    destruct (Z.compare_spec (-54) e), (Z.compare_spec e (-52));
      (done || lia). }
  assert (2 ^ 52 ≤ Z.pos m < 2 ^ 53) as Hm.
  { unfold isNumber, valid_binary, bounded, canonical_mantissa in Hv.
    apply andb_true_iff in Hv as [Hc _]. apply Z.eqb_eq in Hc.
    pose proof (digits_bounds m) as Hd.
    replace (Z.pos (digits2_pos m)) with 53 in Hd
      by (unfold fexp, emin, prec, emax in Hc; lia).
    exact Hd. }
  exists m, e. split; [done |]. split; [done |]. split; [done |].
  assert (normal (S754_finite false m e)) as Hn by (split; [done | lia]).
  apply leb_normal in Hl; [| done | done].
  apply leb_normal in Hu; [| done | done].
  cbn [scaled] in Hl, Hu |- *.
  change (Z.pos 5404319552844595 * 2 ^ (-54 + 57))
    with 43234556422756760 in Hl.
  change (Z.pos 4503599627370496 * 2 ^ (-52 + 57))
    with 144115188075855872 in Hu.
  lia.
Qed.

Lemma normal_inRange v :
  normal v → 43234556422756760 ≤ scaled v ≤ 144115188075855872 →
  LearningSystem.inRange v.
Proof.
  intros Hn [Hl Hu]. split; [by apply normal_isNumber |].
  rewrite literal_3_10, ofZ_1.
  split; (apply leb_normal; [done | done |]); cbn [scaled].
  - change (Z.pos 5404319552844595 * 2 ^ (-54 + 57))
      with 43234556422756760. lia.
  - change (Z.pos 4503599627370496 * 2 ^ (-52 + 57))
      with 144115188075855872. lia.
Qed.

Lemma inRange_normal v : LearningSystem.inRange v → normal v.
Proof.
  intros H. apply inRange_finite in H as (m & e & -> & Hm & He & _).
  split; [done | lia].
Qed.

Lemma inRange_scaled v :
  LearningSystem.inRange v →
  43234556422756760 ≤ scaled v ≤ 144115188075855872.
Proof.
  intros H. by apply inRange_finite in H as (m & e & -> & _ & _ & H).
Qed.

(** What is left to do once an operation is reduced to the rounding of an
    integer [z] of [53 + k] or [54 + k] bits in units of [2 ^ e0]. *)
Ltac rounded z e0 k :=
  let Hz := fresh "Hz" in
  assert (2 ^ (52 + k) ≤ Z.pos z < 2 ^ (53 + k)
          ∨ 2 ^ (52 + (k + 1)) ≤ Z.pos z < 2 ^ (53 + (k + 1))) as Hz
    by (numerals; lia);
  let m' := fresh "m'" in
  let e' := fresh "e'" in
  let Hm' := fresh "Hm'" in
  let He' := fresh "He'" in
  let Hr := fresh "Hr" in
  let He'' := fresh "He''" in
  destruct Hz as [Hz | Hz];
    [destruct (normalize_pos z e0 k ltac:(lia) ltac:(lia) Hz)
       as (m' & e' & -> & Hm' & He' & Hr)
    | destruct (normalize_pos z e0 (k + 1) ltac:(lia) ltac:(lia) Hz)
       as (m' & e' & -> & Hm' & He' & Hr)];
    (split; [split; [done | lia] |]); cbn [scaled];
    (assert (e' = -55 ∨ e' = -54 ∨ e' = -53 ∨ e' = -52 ∨ e' = -51
             ∨ e' = -50) as He'' by lia;
     destruct He'' as [-> | [-> | [-> | [-> | [-> | ->]]]]]; try lia;
     numerals; lia).

(** Subtracting 0.1 from a number between 0.3 and 1.0: the result is a
    normal number within 8 units of 2^-57 of the exact difference. *)
Lemma sub_tenth v :
  LearningSystem.inRange v →
  normal (sub v (literal 1 10))
  ∧ Z.abs (scaled (sub v (literal 1 10))
           - (scaled v - 14411518807585588)) ≤ 8.
Proof.
  intros Hv. apply inRange_finite in Hv as (m & e & -> & Hm & He & Hl & Hu).
  rewrite literal_1_10. cbn [scaled] in *.
  assert (e = -54 ∨ e = -53 ∨ e = -52) as Hc by lia.
  destruct Hc as [-> | [-> | ->]].
  - change (sub (S754_finite false m (-54))
              (S754_finite false 7205759403792794 (-56)))
      with (binary_normalize prec emax
              (Z.pos m~0~0 - Z.pos 7205759403792794) (-56) false).
    numerals.
    destruct (Z.pos m~0~0 - Z.pos 7205759403792794) as [| z | z] eqn:Ez;
      [lia | | lia].
    rounded z (-56) 1.
  - change (sub (S754_finite false m (-53))
              (S754_finite false 7205759403792794 (-56)))
      with (binary_normalize prec emax
              (Z.pos m~0~0~0 - Z.pos 7205759403792794) (-56) false).
    numerals.
    destruct (Z.pos m~0~0~0 - Z.pos 7205759403792794) as [| z | z] eqn:Ez;
      [lia | | lia].
    rounded z (-56) 2.
  - numerals. assert (m = 4503599627370496%positive) as -> by lia.
    vm_compute. repeat split; intros H; discriminate H.
Qed.

(** Adding 0.05 to a number between 0.3 and 1.0: the result is a normal
    number within 16 units of 2^-57 of the exact sum. *)
Lemma add_twentieth v :
  LearningSystem.inRange v →
  normal (add v (literal 5 100))
  ∧ Z.abs (scaled (add v (literal 5 100))
           - (scaled v + 7205759403792794)) ≤ 16.
Proof.
  intros Hv. apply inRange_finite in Hv as (m & e & -> & Hm & He & Hl & Hu).
  rewrite literal_5_100. cbn [scaled] in *.
  assert (e = -54 ∨ e = -53 ∨ e = -52) as Hc by lia.
  destruct Hc as [-> | [-> | ->]].
  - change (add (S754_finite false m (-54))
              (S754_finite false 7205759403792794 (-57)))
      with (binary_normalize prec emax
              (Z.pos m~0~0~0 + Z.pos 7205759403792794) (-57) false).
    numerals.
    destruct (Z.pos m~0~0~0 + Z.pos 7205759403792794) as [| z | z] eqn:Ez;
      [lia | | lia].
    rounded z (-57) 3.
  - change (add (S754_finite false m (-53))
              (S754_finite false 7205759403792794 (-57)))
      with (binary_normalize prec emax
              (Z.pos m~0~0~0~0 + Z.pos 7205759403792794) (-57) false).
    numerals.
    destruct (Z.pos m~0~0~0~0 + Z.pos 7205759403792794) as [| z | z] eqn:Ez;
      [lia | | lia].
    rounded z (-57) 4.
  - numerals. assert (m = 4503599627370496%positive) as -> by lia.
    vm_compute. repeat split; intros H; discriminate H.
Qed.

Lemma normal_literal_3_10 : normal (literal 3 10).
Proof. rewrite literal_3_10. split; numerals; lia. Qed.

Lemma normal_one : normal (ofZ 1).
Proof. rewrite ofZ_1. split; numerals; lia. Qed.

Lemma scaled_literal_3_10 : scaled (literal 3 10) = 43234556422756760.
Proof. by rewrite literal_3_10. Qed.

Lemma scaled_one : scaled (ofZ 1) = 144115188075855872.
Proof. by rewrite ofZ_1. Qed.

(** The sensitivity after a dismissal: in range again, and its value is
    the larger of that of 0.3 and the rounded difference. *)
Lemma dismissal_step v :
  LearningSystem.inRange v →
  let v' := max (literal 3 10) (sub v (literal 1 10)) in
  LearningSystem.inRange v'
  ∧ scaled v' ≤ Z.max 43234556422756760 (scaled v - 14411518807585580).
Proof.
  intros Hv v'. pose proof (inRange_scaled v Hv) as Hs.
  destruct (sub_tenth v Hv) as [Hn Hr].
  destruct (max_normal _ _ normal_literal_3_10 Hn) as [Hn' Hs'].
  fold v' in Hn', Hs'. rewrite scaled_literal_3_10 in Hs'.
  split; [apply normal_inRange; [done |] |]; lia.
Qed.

(** The sensitivity after an acceptance: in range again, and its value is
    the smaller of 1 and the rounded sum. *)
Lemma acceptance_step v :
  LearningSystem.inRange v →
  let v' := min (ofZ 1) (add v (literal 5 100)) in
  LearningSystem.inRange v'
  ∧ Z.min 144115188075855872 (scaled v + 7205759403792778) ≤ scaled v'.
Proof.
  intros Hv v'. pose proof (inRange_scaled v Hv) as Hs.
  destruct (add_twentieth v Hv) as [Hn Hr].
  destruct (min_normal _ _ normal_one Hn) as [Hn' Hs'].
  fold v' in Hn', Hs'. rewrite scaled_one in Hs'.
  split; [apply normal_inRange; [done |] |]; lia.
Qed.

End Binary64Facts.

(** ** Sensitivities *)

Section SensitivityFacts.

Import Interventions LearningSystem.

Lemma inRange_one : inRange (JsNumber.ofZ 1).
Proof.
  apply normal_inRange; [apply normal_one |]. rewrite scaled_one. lia.
Qed.

Lemma inRange_truthy v : inRange v → JsNumber.falsy v = false.
Proof. intros H. by apply inRange_finite in H as (m & e & -> & _). Qed.

Lemma inRange_dismiss v :
  inRange v →
  inRange (JsNumber.max (JsNumber.literal 3 10)
             (JsNumber.sub v (JsNumber.literal 1 10))).
Proof. intros H. by apply dismissal_step. Qed.

Lemma inRange_accept v :
  inRange v →
  inRange (JsNumber.min (JsNumber.ofZ 1)
             (JsNumber.add v (JsNumber.literal 5 100))).
Proof. intros H. by apply acceptance_step. Qed.

(** After the initialisation the entry of the kind is [m[k] || 1.0]. *)
Lemma initSensitivity_lookup m k :
  initSensitivity m k !! k = Some (sensitivityOf m k).
Proof.
  unfold initSensitivity, sensitivityOf.
  destruct (falsy (m !! k)) eqn:Hf.
  - apply lookup_insert_eq.
  - destruct (m !! k); [done | discriminate].
Qed.

Lemma initSensitivity_other m k k' :
  k ≠ k' → initSensitivity m k !! k' = m !! k'.
Proof.
  intros Hk. unfold initSensitivity.
  destruct (falsy (m !! k)); [by apply lookup_insert_ne | done].
Qed.

Lemma initSensitivity_inRange m k :
  map_Forall (λ _, inRange) m → map_Forall (λ _, inRange) (initSensitivity m k).
Proof.
  intros H. unfold initSensitivity. destruct (falsy (m !! k)); [| done].
  apply map_Forall_insert_2; [apply inRange_one | done].
Qed.

Lemma sensitivityOf_inRange m k :
  map_Forall (λ _, inRange) m → inRange (sensitivityOf m k).
Proof.
  intros H. apply initSensitivity_inRange with (k := k) in H.
  exact (H k _ (initSensitivity_lookup m k)).
Qed.

(** In range, [m[k] || 1.0] is the entry of the kind, and 1.0 when it has
    none. *)
Lemma sensitivityOf_default m k :
  map_Forall (λ _, inRange) m →
  sensitivityOf m k = default (JsNumber.ofZ 1) (m !! k).
Proof.
  intros H. unfold sensitivityOf.
  destruct (m !! k) as [v |] eqn:Hv; [| done].
  cbn [falsy default]. by rewrite (inRange_truthy v (H k v Hv)).
Qed.

Lemma sensitivity_recordFeedback now i a fb st :
  issueTypeSensitivity (adaptationRules (recordFeedback now i a fb st))
  = let k := CodeAnalyzer.typeName (Personality.issueType (context i)) in
    let m := initSensitivity (issueTypeSensitivity (adaptationRules st)) k in
    let current := default (JsNumber.ofZ 1) (m !! k) in
    match a with
    | dismissed =>
        <[k := JsNumber.max (JsNumber.literal 3 10)
                 (JsNumber.sub current (JsNumber.literal 1 10))]> m
    | accepted =>
        <[k := JsNumber.min (JsNumber.ofZ 1)
                 (JsNumber.add current (JsNumber.literal 5 100))]> m
    | modified => m
    end.
Proof. destruct a; reflexivity. Qed.

Lemma sensitivity_recordFeedback_lookup now i a fb st :
  let k := CodeAnalyzer.typeName (Personality.issueType (context i)) in
  let current := sensitivityOf (issueTypeSensitivity (adaptationRules st)) k in
  issueTypeSensitivity (adaptationRules (recordFeedback now i a fb st)) !! k
  = Some match a with
         | dismissed =>
             JsNumber.max (JsNumber.literal 3 10)
               (JsNumber.sub current (JsNumber.literal 1 10))
         | accepted =>
             JsNumber.min (JsNumber.ofZ 1)
               (JsNumber.add current (JsNumber.literal 5 100))
         | modified => current
         end.
Proof.
  intros k current. rewrite sensitivity_recordFeedback. cbn zeta. fold k.
  destruct a; rewrite ?lookup_insert_eq, ?initSensitivity_lookup; done.
Qed.

Lemma sensitivity_recordFeedback_other now i a fb st k' :
  CodeAnalyzer.typeName (Personality.issueType (context i)) ≠ k' →
  issueTypeSensitivity (adaptationRules (recordFeedback now i a fb st)) !! k'
  = issueTypeSensitivity (adaptationRules st) !! k'.
Proof.
  intros Hk. rewrite sensitivity_recordFeedback. cbn zeta.
  destruct a; rewrite ?lookup_insert_ne by done;
    by apply initSensitivity_other.
Qed.

Lemma inRange_recordFeedback now i a fb st :
  sensitivityInRange st → sensitivityInRange (recordFeedback now i a fb st).
Proof.
  unfold sensitivityInRange. intros H.
  intros k' v Hv.
  destruct (decide (CodeAnalyzer.typeName (Personality.issueType (context i)) = k'))
    as [<- | Hk].
  - rewrite sensitivity_recordFeedback_lookup in Hv.
    injection Hv as <-.
    pose proof (sensitivityOf_inRange _
                  (CodeAnalyzer.typeName (Personality.issueType (context i)))
                  H) as Hc.
    destruct a; auto using inRange_dismiss, inRange_accept.
  - rewrite sensitivity_recordFeedback_other in Hv by done. by apply (H k').
Qed.

Lemma inRange_recordAll calls : ∀ st,
  sensitivityInRange st → sensitivityInRange (recordAll calls st).
Proof.
  induction calls as [| c calls IH]; intros st H; [done |].
  apply IH. by apply inRange_recordFeedback.
Qed.

End SensitivityFacts.

(** The literals are the binary64 numbers nearest to 0.3, 0.1, 0.05 and
    0.5: [0x3FD3333333333333], [0x3FB999999999999A], [0x3FA999999999999A]
    and [0x3FE0000000000000]. *)
Example sensitivity_literals :
  JsNumber.literal 3 10 = S754_finite false 5404319552844595 (-54)
  ∧ JsNumber.literal 1 10 = S754_finite false 7205759403792794 (-56)
  ∧ JsNumber.literal 5 100 = S754_finite false 7205759403792794 (-57)
  ∧ JsNumber.literal 5 10 = S754_finite false 4503599627370496 (-53)
  ∧ JsNumber.ofZ 1 = S754_finite false 4503599627370496 (-52).
Proof. by vm_compute. Qed.

(** C8. The sensitivity of every issue kind stays within [0.3, 1.0] through
    every sequence of [recordFeedback] calls: a fresh learning system is in
    range, and from a state in range every sequence of calls leads to a
    state in range. A call on an intervention of kind [k] takes the current
    value to be 1.0 when the kind has no entry yet, and writes
    [Math.max(0.3, current - 0.1)] on a dismissal and
    [Math.min(1.0, current + 0.05)] on an acceptance, in binary64
    arithmetic, leaving the entries of the other kinds as they are. *)
Theorem sensitivity_stays_in_range :
  LearningSystem.sensitivityInRange Examples.fresh
  ∧ ∀ st,
      LearningSystem.sensitivityInRange st →
      (∀ calls,
         LearningSystem.sensitivityInRange (LearningSystem.recordAll calls st))
      ∧ ∀ now i a fb,
          let k :=
            CodeAnalyzer.typeName
              (Personality.issueType (Interventions.context i)) in
          let m :=
            LearningSystem.issueTypeSensitivity
              (LearningSystem.adaptationRules st) in
          let m' :=
            LearningSystem.issueTypeSensitivity
              (LearningSystem.adaptationRules
                 (LearningSystem.recordFeedback now i a fb st)) in
          let current := default (JsNumber.ofZ 1) (m !! k) in
          let written :=
            match a with
            | LearningSystem.dismissed =>
                JsNumber.max (JsNumber.literal 3 10)
                  (JsNumber.sub current (JsNumber.literal 1 10))
            | LearningSystem.accepted =>
                JsNumber.min (JsNumber.ofZ 1)
                  (JsNumber.add current (JsNumber.literal 5 100))
            | LearningSystem.modified => current
            end in
          m' !! k = Some written
          ∧ JsNumber.isNumber written
          ∧ JsNumber.leb (JsNumber.literal 3 10) written = true
          ∧ JsNumber.leb written (JsNumber.ofZ 1) = true
          ∧ ∀ k', k ≠ k' → m' !! k' = m !! k'.
Proof.
  split.
  - apply map_Forall_empty.
  - intros st H. split.
    + intros calls. by apply inRange_recordAll.
    + intros now i a fb k m m' current written.
      assert (m' !! k = Some written) as Hw.
      { subst written current m' m k.
        rewrite sensitivity_recordFeedback_lookup.
        by rewrite sensitivityOf_default. }
      split; [exact Hw |].
      pose proof (inRange_recordFeedback now i a fb st H k written Hw)
        as (H1 & H2 & H3).
      split; [exact H1 |]. split; [exact H2 |]. split; [exact H3 |].
      intros k' Hk. by apply sensitivity_recordFeedback_other.
Qed.

Lemma sensitivity_stays_in_range_witness :
  LearningSystem.sensitivityInRange Examples.dismissedThrice
  ∧ LearningSystem.issueTypeSensitivity
      (LearningSystem.adaptationRules
         (LearningSystem.recordFeedback 100001 Examples.sqlIntervention
            LearningSystem.dismissed None Examples.fresh))
    !! js "security"
    = Some (S754_finite false 8106479329266893 (-53)).
Proof.
  destruct sensitivity_stays_in_range as [H0 H].
  destruct (H Examples.fresh H0) as [H1 H2].
  split.
  - exact (H1 [ {| LearningSystem.callNow := 100001;
                   LearningSystem.callIntervention := Examples.sqlIntervention;
                   LearningSystem.callAction := LearningSystem.dismissed;
                   LearningSystem.callFeedback := None |};
                {| LearningSystem.callNow := 100002;
                   LearningSystem.callIntervention := Examples.sqlIntervention;
                   LearningSystem.callAction := LearningSystem.dismissed;
                   LearningSystem.callFeedback := None |};
                {| LearningSystem.callNow := 100003;
                   LearningSystem.callIntervention := Examples.sqlIntervention;
                   LearningSystem.callAction := LearningSystem.dismissed;
                   LearningSystem.callFeedback := None |} ]).
  - exact (proj1 (H2 100001%Z Examples.sqlIntervention
                    LearningSystem.dismissed None)).
Defined.

(** ** The cooldown of the analyzer *)

(** C3, as the specification states it, fails: the cooldown is not scoped
    per document. A pass over [docB] five seconds after a pass over the
    different document [docA] yields nothing, although [docB] has an issue
    to report. *)
Lemma cooldown_per_document_counterexample :
  CodeAnalyzer.uri Examples.docA ≠ CodeAnalyzer.uri Examples.docB
  ∧ List.map CodeAnalyzer.summary (CodeAnalyzer.detect Examples.docB)
    = [(CodeAnalyzer.security, CodeAnalyzer.warning, 1%nat)]
  ∧ fst (CodeAnalyzer.analyzeDocument true 105000 Examples.docB
           Examples.analyzedA) = [].
Proof. split; [| split]; [discriminate | reflexivity | reflexivity]. Qed.

(** C3, amended. The cooldown is one window for the whole analyzer: after a
    pass that went through at [t1], a call less than 20 seconds later
    yields an empty result and leaves the window as it is, for the same
    document and for any other; a call 20 seconds or more after [t1] yields
    the issues of its document, however recent the calls in between. *)
Theorem cooldown_is_shared (st : CodeAnalyzer.State) (t1 t2 : Z)
    (doc1 doc2 : CodeAnalyzer.TextDocument) :
  CodeAnalyzer.scheme doc1 = js "file" →
  CodeAnalyzer.scheme doc2 = js "file" →
  (20000 ≤ t1 - CodeAnalyzer.lastSuggestionTime st)%Z →
  (t2 - t1 < 20000)%Z →
  let r1 := CodeAnalyzer.analyzeDocument true t1 doc1 st in
  let r2 := CodeAnalyzer.analyzeDocument true t2 doc2 (snd r1) in
  fst r1 = CodeAnalyzer.detect doc1
  ∧ CodeAnalyzer.lastSuggestionTime (snd r1) = t1
  ∧ fst r2 = []
  ∧ snd r2 = snd r1
  ∧ ∀ t3 doc3,
      CodeAnalyzer.scheme doc3 = js "file" →
      (20000 ≤ t3 - t1)%Z →
      fst (CodeAnalyzer.analyzeDocument true t3 doc3 (snd r2))
      = CodeAnalyzer.detect doc3.
Proof.
  intros Hs1 Hs2 H1 H2.
  assert (∀ doc t s, CodeAnalyzer.scheme doc = js "file" →
            CodeAnalyzer.analyzeDocument true t doc s
            = if (t - CodeAnalyzer.lastSuggestionTime s <? 20000)%Z
              then ([], s)
              else (CodeAnalyzer.detect doc,
                    {| CodeAnalyzer.lastAnalysisTime :=
                         CodeAnalyzer.lastAnalysisTime s;
                       CodeAnalyzer.suggestionsRateLimit :=
                         CodeAnalyzer.suggestionsRateLimit s;
                       CodeAnalyzer.lastSuggestionTime := t |})) as Hgate.
  { intros doc t s Hs. unfold CodeAnalyzer.analyzeDocument. by rewrite Hs. }
  cbn zeta. rewrite (Hgate doc1 t1 st Hs1).
  destruct (Z.ltb_spec (t1 - CodeAnalyzer.lastSuggestionTime st) 20000);
    [lia |].
  cbn [fst snd]. rewrite (Hgate doc2 t2 _ Hs2).
  cbn [CodeAnalyzer.lastSuggestionTime].
  destruct (Z.ltb_spec (t2 - t1) 20000); [| lia].
  cbn [fst snd]. repeat split.
  intros t3 doc3 Hs3 H3. rewrite (Hgate doc3 t3 _ Hs3).
  cbn [CodeAnalyzer.lastSuggestionTime].
  destruct (Z.ltb_spec (t3 - t1) 20000); [lia | done].
Qed.

Lemma cooldown_is_shared_witness :
  fst (CodeAnalyzer.analyzeDocument true 105000 Examples.docB
         Examples.analyzedA) = []
  ∧ snd (CodeAnalyzer.analyzeDocument true 105000 Examples.docB
           Examples.analyzedA) = Examples.analyzedA
  ∧ fst (CodeAnalyzer.analyzeDocument true 120000 Examples.docB
           (snd (CodeAnalyzer.analyzeDocument true 105000 Examples.docB
                   Examples.analyzedA)))
    = CodeAnalyzer.detect Examples.docB.
Proof.
  pose proof (cooldown_is_shared CodeAnalyzer.init 100000 105000
                Examples.docA Examples.docB eq_refl eq_refl) as H.
  destruct H as (_ & _ & H3 & H4 & H5).
  - vm_compute. discriminate.
  - reflexivity.
  - split; [exact H3 |]. split; [exact H4 |].
    apply (H5 120000%Z Examples.docB eq_refl). vm_compute. discriminate.
Defined.

(** ** The scheduling of change-triggered analyses *)

Section DebounceFacts.

Import CodeAnalyzer DMentorCore.

Variable config : Configuration.
Hypothesis proactive : proactiveInterruptions config = true.

(** A change less than a second after the tracked change of its document
    is dropped. *)
Lemma onDocumentChange_dropped now t0 document st :
  lastDocumentChange st !! uri document = Some t0 →
  (now - t0 < debounceDelay)%Z →
  onDocumentChange config now document st = st.
Proof.
  intros Hl Ht. unfold onDocumentChange. rewrite Hl.
  change (default 0%Z (Some t0)) with t0.
  destruct (negb (isActive st) || focusMode st); [done |].
  rewrite proactive. cbn [negb].
  destruct (Z.ltb_spec (now - t0) debounceDelay); [done | lia].
Qed.

Lemma changes_dropped times t0 document st :
  lastDocumentChange st !! uri document = Some t0 →
  Forall (λ now, (now - t0 < debounceDelay)%Z) times →
  changes config times document st = st.
Proof.
  intros Hl. induction 1 as [| now times Hn _ IH]; [done |].
  unfold changes. cbn [fold_left].
  rewrite (onDocumentChange_dropped now t0) by done. exact IH.
Qed.

(** A change a second or more after the tracked change of its document is
    tracked, and schedules an analysis a second later. *)
Lemma onDocumentChange_tracked now document st :
  isActive st = true →
  focusMode st = false →
  (debounceDelay ≤ now - default 0%Z (lastDocumentChange st !! uri document))%Z →
  onDocumentChange config now document st = withTimer now document st.
Proof.
  intros Ha Hf Ht. unfold onDocumentChange. rewrite Ha, Hf, proactive.
  cbn [negb orb].
  destruct (Z.ltb_spec
              (now - default 0%Z (lastDocumentChange st !! uri document))
              debounceDelay); [lia | done].
Qed.

End DebounceFacts.

(** C4, as the specification states it, fails: the debounce is not
    trailing. Three changes 600 ms apart schedule two analyses, not one;
    three changes 100 ms apart schedule one analysis, due a second after the
    first change (11000), not a second after the last (11200). *)
Lemma trailing_debounce_counterexample :
  List.map fst
    (DMentorCore.timers
       (DMentorCore.changes DMentorCore.defaultConfiguration
          [10000; 10600; 11200]%Z Examples.docA Examples.started))
  = [11000; 12200]%Z
  ∧ List.map fst
      (DMentorCore.timers
         (DMentorCore.changes DMentorCore.defaultConfiguration
            [10000; 10100; 10200]%Z Examples.docA Examples.started))
    = [11000]%Z
  ∧ (11000 ≠ 10200 + DMentorCore.debounceDelay)%Z.
Proof. split; [| split]; [reflexivity | reflexivity | discriminate]. Qed.

(** C4, amended. While interventions are active, a change that comes a
    second or more after the last tracked change of its document is tracked
    and schedules one analysis, due one second after that change; the
    changes of the same document that follow less than a second after it
    are dropped: they schedule nothing, and neither cancel nor postpone the
    pending analysis. *)
Theorem change_burst_schedules_once (config : DMentorCore.Configuration)
    (st : DMentorCore.State) (document : CodeAnalyzer.TextDocument)
    (t0 : Z) (rest : list Z) :
  DMentorCore.proactiveInterruptions config = true →
  DMentorCore.isActive st = true →
  DMentorCore.focusMode st = false →
  (DMentorCore.debounceDelay
   ≤ t0 - default 0%Z (DMentorCore.lastDocumentChange st
                        !! CodeAnalyzer.uri document))%Z →
  Forall (λ now, (now - t0 < DMentorCore.debounceDelay)%Z) rest →
  let st' := DMentorCore.changes config (t0 :: rest) document st in
  DMentorCore.timers st'
  = DMentorCore.timers st ++ [((t0 + DMentorCore.debounceDelay)%Z, document)]
  ∧ DMentorCore.lastDocumentChange st' !! CodeAnalyzer.uri document = Some t0.
Proof.
  intros Hp Ha Hf Ht Hrest st'. subst st'.
  unfold DMentorCore.changes. cbn [fold_left].
  rewrite (onDocumentChange_tracked config Hp) by done.
  fold (DMentorCore.changes config rest document
          (DMentorCore.withTimer t0 document st)).
  rewrite (changes_dropped config Hp rest t0).
  - split; [reflexivity |]. apply lookup_insert_eq.
  - apply lookup_insert_eq.
  - done.
Qed.

Lemma change_burst_schedules_once_witness :
  DMentorCore.timers
    (DMentorCore.changes DMentorCore.defaultConfiguration
       [10000; 10100; 10200]%Z Examples.docA Examples.started)
  = [(11000%Z, Examples.docA)].
Proof.
  refine (proj1 (change_burst_schedules_once DMentorCore.defaultConfiguration
                   Examples.started Examples.docA 10000 [10100; 10200]%Z
                   eq_refl eq_refl eq_refl _ _)).
  - vm_compute. discriminate.
  - repeat constructor.
Defined.

(** ** Reviews on demand *)

Section ReviewFacts.

Import CodeAnalyzer DMentorCore.

Lemma reviewInterventions_context personality random now issues : ∀ draws,
  List.map Interventions.context
    (reviewInterventions personality random now draws issues)
  = List.map Conversion.convertToSuggestionContext issues.
Proof.
  induction issues as [| issue issues IH]; intros draws; [done |].
  cbn [reviewInterventions List.map Interventions.context]. by rewrite IH.
Qed.

End ReviewFacts.

(** C5, as the specification states it, fails: [requestReview] does not
    apply the frequency policy. Under the [minimal] policy, which keeps
    nothing of the issues of [docA], a review of [docA] still creates an
    intervention, for an issue of severity info. *)
Lemma review_applies_frequency_counterexample :
  DMentorCore.frequencyFilter
    (DMentorCore.interventionFrequency Examples.minimalConfiguration)
    (CodeAnalyzer.detect Examples.docA) = []
  ∧ List.map (λ i, Personality.severity (Interventions.context i))
      (fst (DMentorCore.requestReview Examples.minimalConfiguration
              Personality.PerformanceOptimizer Examples.random 100000
              (Some Examples.docA) Examples.started))
    = [CodeAnalyzer.info].
Proof. split; reflexivity. Qed.

(** C5, amended. An on-demand review produces one intervention for every
    issue the analyzer returns for the document, in order: the
    suppressed-pattern check, the sensitivity check, the frequency policy
    and the limit on the number of suggestions are all left out. The new
    interventions are appended to the live collection and the learning
    system is not consulted or changed. *)
Theorem review_skips_every_filter (config : DMentorCore.Configuration)
    (personality : Personality.Personality) (random : nat → jsstring)
    (now : Z) (doc : CodeAnalyzer.TextDocument) (st : DMentorCore.State) :
  let issues :=
    fst (CodeAnalyzer.analyzeDocument
           (DMentorCore.proactiveInterruptions config) now doc
           (DMentorCore.codeAnalyzer st)) in
  let result :=
    DMentorCore.requestReview config personality random now (Some doc) st in
  List.map Interventions.context (fst result)
  = List.map Conversion.convertToSuggestionContext issues
  ∧ DMentorCore.interventions (snd result)
    = DMentorCore.interventions st ++ fst result
  ∧ DMentorCore.learningSystem (snd result) = DMentorCore.learningSystem st.
Proof.
  cbn zeta. unfold DMentorCore.requestReview.
  destruct (CodeAnalyzer.analyzeDocument _ now doc _) as [issues ca].
  cbn [fst snd DMentorCore.interventions DMentorCore.learningSystem].
  split; [apply reviewInterventions_context | done].
Qed.

(** ** Accepting and dismissing *)

Section ActionFacts.

Import Interventions DMentorCore.

Lemma updateFound_none ident f l :
  (∀ i, i ∈ l → id i ≠ ident) → updateFound ident f l = None.
Proof.
  induction l as [| i l IH]; intros H; [done |]. cbn [updateFound].
  unfold eqb. rewrite bool_decide_eq_false_2
    by (apply H, list_elem_of_here).
  rewrite IH; [done |]. intros j Hj. apply H. by apply list_elem_of_further.
Qed.

Lemma updateFound_first ident f pre i post :
  (∀ j, j ∈ pre → id j ≠ ident) →
  id i = ident →
  updateFound ident f (pre ++ i :: post) = Some (f i, pre ++ f i :: post).
Proof.
  intros Hpre Hi. induction pre as [| j pre IH]; cbn [updateFound app].
  - unfold eqb. by rewrite bool_decide_eq_true_2.
  - unfold eqb. rewrite bool_decide_eq_false_2
      by (apply Hpre, list_elem_of_here).
    rewrite IH; [done |]. intros k Hk. apply Hpre.
    by apply list_elem_of_further.
Qed.

End ActionFacts.

(** C2, as the specification states it, fails: an accept on an intervention
    that was dismissed is not a no-op. It sets the second flag, so both are
    set, and a second record reaches [recordFeedback]. *)
Lemma resolved_is_final_counterexample :
  List.map Interventions.flags (DMentorCore.interventions Examples.reviewedA)
  = [(None, None)]
  ∧ List.map Interventions.flags
      (DMentorCore.interventions Examples.dismissedThenAccepted)
    = [(Some true, Some true)]
  ∧ List.map LearningSystem.action
      (LearningSystem.feedbackHistory
         (DMentorCore.learningSystem Examples.dismissedThenAccepted))
    = [LearningSystem.dismissed; LearningSystem.accepted].
Proof. split; [| split]; reflexivity. Qed.

(** C2, amended. [dismissIntervention] and [acceptIntervention] on an id no
    intervention has are no-ops. On an id some intervention has, they act on
    the first intervention with that id, resolved or not: they set its
    [dismissed], respectively [accepted], flag to true, leave its other flag
    and the other interventions as they are, and forward the intervention
    to [recordFeedback] once. *)
Theorem actions_always_apply (st : DMentorCore.State) (now : Z)
    (ident : jsstring) (feedback : option jsstring) :
  ((∀ i, i ∈ DMentorCore.interventions st → Interventions.id i ≠ ident) →
   DMentorCore.dismissIntervention now ident feedback st = st
   ∧ DMentorCore.acceptIntervention now ident st = st)
  ∧ ∀ pre i post,
      DMentorCore.interventions st = pre ++ i :: post →
      (∀ j, j ∈ pre → Interventions.id j ≠ ident) →
      Interventions.id i = ident →
      let d := DMentorCore.dismissIntervention now ident feedback st in
      let a := DMentorCore.acceptIntervention now ident st in
      DMentorCore.interventions d = pre ++ Interventions.setDismissed i :: post
      ∧ Interventions.flags (Interventions.setDismissed i)
        = (Some true, Interventions.accepted i)
      ∧ DMentorCore.learningSystem d
        = LearningSystem.recordFeedback now (Interventions.setDismissed i)
            LearningSystem.dismissed feedback (DMentorCore.learningSystem st)
      ∧ DMentorCore.interventions a = pre ++ Interventions.setAccepted i :: post
      ∧ Interventions.flags (Interventions.setAccepted i)
        = (Interventions.dismissed i, Some true)
      ∧ DMentorCore.learningSystem a
        = LearningSystem.recordFeedback now (Interventions.setAccepted i)
            LearningSystem.accepted None (DMentorCore.learningSystem st).
Proof.
  split.
  - intros H. unfold DMentorCore.dismissIntervention,
      DMentorCore.acceptIntervention.
    by rewrite !updateFound_none.
  - intros pre i post Hl Hpre Hi d a. subst d a.
    unfold DMentorCore.dismissIntervention, DMentorCore.acceptIntervention.
    rewrite Hl, !updateFound_first by done.
    repeat split.
Qed.

Lemma actions_always_apply_witness :
  DMentorCore.dismissIntervention 100001 (js "unknown") None Examples.reviewedA
  = Examples.reviewedA
  ∧ List.map Interventions.flags
      (DMentorCore.interventions
         (DMentorCore.dismissIntervention 100001 Examples.idA None
            Examples.reviewedA))
    = [(Some true, None)].
Proof.
  destruct (actions_always_apply Examples.reviewedA 100001 Examples.idA None)
    as [_ H2].
  destruct (actions_always_apply Examples.reviewedA 100001 (js "unknown") None)
    as [H1 _].
  split.
  - apply H1. intros i Hi. vm_compute in Hi.
    apply list_elem_of_singleton in Hi. subst i. vm_compute. discriminate.
  - destruct (H2 [] (hd Examples.sqlIntervention
                       (DMentorCore.interventions Examples.reviewedA)) [])
      as (-> & _).
    + reflexivity.
    + intros j Hj. by apply elem_of_nil in Hj.
    + reflexivity.
    + reflexivity.
Defined.

(** * Further properties of the analyzer *)

Section LocationFacts.

Import CodeAnalyzer.

Lemma Forall_rule {A} (P : A → Prop) (c : bool) (x : A) :
  P x → Forall P (if c then [x] else []).
Proof. destruct c; by repeat constructor. Qed.

Lemma issue_locatedAt t sv index msg cd sg path :
  locatedAt path index (issue t sv (S index) msg cd sg path).
Proof. by repeat split. Qed.

Lemma javaScriptRules_located code path l index :
  Forall (locatedAt path index) (javaScriptRules code path l index).
Proof.
  unfold javaScriptRules.
  repeat apply Forall_app_2; apply Forall_rule, issue_locatedAt.
Qed.

Lemma pythonRules_located path l index :
  Forall (locatedAt path index) (pythonRules path l index).
Proof.
  unfold pythonRules.
  repeat apply Forall_app_2; apply Forall_rule, issue_locatedAt.
Qed.

Lemma htmlRules_located path l index :
  Forall (locatedAt path index) (htmlRules path l index).
Proof.
  unfold htmlRules.
  repeat apply Forall_app_2; apply Forall_rule, issue_locatedAt.
Qed.

Lemma genericRules_located path l index :
  Forall (locatedAt path index) (genericRules path l index).
Proof.
  unfold genericRules.
  repeat apply Forall_app_2; apply Forall_rule, issue_locatedAt.
Qed.

Lemma forEachLine_located rules path lines :
  (∀ l index, Forall (locatedAt path index) (rules l index)) →
  ∀ index,
    Forall (λ i, (index < line i ≤ index + length lines)%nat
                 ∧ filePath i = path ∧ column i = None)
      (forEachLine rules lines index).
Proof.
  intros Hr. induction lines as [| l ls IH]; intros index; cbn [forEachLine];
    [constructor |].
  apply Forall_app_2.
  - eapply Forall_impl; [| exact (Hr l index)]. intros i (Hl & Hp & Hc).
    cbn [length]. repeat split; try done; lia.
  - eapply Forall_impl; [| exact (IH (S index))]. intros i (Hl & Hp & Hc).
    cbn [length]. repeat split; try done; lia.
Qed.

Lemma forEachLine_sorted rules path lines :
  (∀ l index, Forall (locatedAt path index) (rules l index)) →
  ∀ index, StronglySorted le (line <$> forEachLine rules lines index).
Proof.
  intros Hr. induction lines as [| l ls IH]; intros index; cbn [forEachLine];
    [constructor |].
  rewrite fmap_app. apply StronglySorted_app_2.
  - intros x1 x2 H1 H2.
    apply list_elem_of_fmap in H1 as (i1 & -> & H1).
    apply list_elem_of_fmap in H2 as (i2 & -> & H2).
    pose proof (Hr l index) as Hl. rewrite list.Forall_forall in Hl.
    destruct (Hl i1 H1) as (-> & _).
    pose proof (forEachLine_located rules path ls Hr (S index)) as Hs.
    rewrite list.Forall_forall in Hs. destruct (Hs i2 H2) as (? & _). lia.
  - pose proof (Hr l index) as Hl.
    induction Hl as [| i rest (Hi & _) Hrest IHl]; cbn [fmap list_fmap];
      constructor; [done |].
    apply Forall_fmap. eapply Forall_impl; [| exact Hrest].
    intros j (Hj & _). cbn. lia.
  - apply IH.
Qed.

(** Whatever the language, [detect] runs [forEachLine] over the lines of
    the text with rules that locate their issues. *)
Lemma detect_forEachLine document :
  ∃ rules,
    detect document = forEachLine rules (split_lines (getText document)) 0
    ∧ ∀ l index, Forall (locatedAt (fileName document) index) (rules l index).
Proof.
  unfold detect.
  destruct (eqb _ (js "javascript") || eqb _ (js "typescript")).
  { eexists. split; [reflexivity |]. apply javaScriptRules_located. }
  destruct (eqb _ (js "python")).
  { eexists. split; [reflexivity |]. apply pythonRules_located. }
  destruct (eqb _ (js "html") || eqb _ (js "vue") || eqb _ (js "svelte")).
  { eexists. split; [reflexivity |]. apply htmlRules_located. }
  eexists. split; [reflexivity |]. apply genericRules_located.
Qed.

End LocationFacts.

(** X1. Every issue the detector reports for a document is located in it:
    its line number is between 1 and the number of lines of the text, its
    file path is the file name of the document, and it has no column. *)
Theorem detect_issues_are_located (document : CodeAnalyzer.TextDocument) :
  Forall (λ i, (1 ≤ CodeAnalyzer.line i
                ≤ length (split_lines (CodeAnalyzer.getText document)))%nat
               ∧ CodeAnalyzer.filePath i = CodeAnalyzer.fileName document
               ∧ CodeAnalyzer.column i = None)
    (CodeAnalyzer.detect document).
Proof.
  destruct (detect_forEachLine document) as (rules & -> & Hr).
  eapply Forall_impl; [| exact (forEachLine_located _ _ _ Hr 0)].
  intros i (Hl & Hp & Hc). cbn in Hl. repeat split; try done; lia.
Qed.

(** X2. The detector reports its issues in ascending order of line. *)
Theorem detect_lines_ascend (document : CodeAnalyzer.TextDocument) :
  StronglySorted le (CodeAnalyzer.line <$> CodeAnalyzer.detect document).
Proof.
  destruct (detect_forEachLine document) as (rules & -> & Hr).
  by apply (forEachLine_sorted _ _ _ Hr).
Qed.

Section RuleFacts.

Import CodeAnalyzer.

Lemma forEachLine_Forall (P : CodeIssue → Prop) rules lines :
  (∀ l index, Forall P (rules l index)) →
  ∀ index, Forall P (forEachLine rules lines index).
Proof.
  intros Hr. induction lines as [| l ls IH]; intros index; cbn [forEachLine];
    [constructor |].
  apply Forall_app_2; [apply Hr | apply IH].
Qed.

Lemma filter_rule_false (p : CodeIssue → bool) (c : bool) (x : CodeIssue) :
  p x = false → List.filter p (if c then [x] else []) = [].
Proof. intros H. destruct c; [| done]. cbn. by rewrite H. Qed.

Lemma forEachLine_filter_length (p : CodeIssue → bool) (q : jsstring → bool)
    rules lines :
  (∀ l index,
     length (List.filter p (rules l index)) = if q l then 1%nat else 0%nat) →
  ∀ index,
    length (List.filter p (forEachLine rules lines index))
    = length (List.filter q lines).
Proof.
  intros Hr. induction lines as [| l ls IH]; intros index; cbn [forEachLine];
    [done |].
  rewrite List.filter_app, length_app, Hr, IH. cbn [List.filter].
  by destruct (q l).
Qed.

Lemma genericRules_style_length path l index :
  length (List.filter isStyle (genericRules path l index))
  = if isLong l then 1%nat else 0%nat.
Proof.
  unfold genericRules, isLong. rewrite List.filter_app.
  rewrite filter_rule_false by reflexivity.
  by destruct (bool_decide (120 < length l)%nat).
Qed.

Lemma genericRules_snippet path l index :
  Forall (λ i, isStyle i = true → (length (code i) ≤ 103)%nat)
    (genericRules path l index).
Proof.
  unfold genericRules. apply Forall_app_2; apply Forall_rule.
  - discriminate.
  - intros _. cbn [code issue]. unfold substring0.
    rewrite length_app, length_take.
    change (length (js "...")) with 3%nat. lia.
Qed.

End RuleFacts.

(** X3. For a language without a dedicated analyzer, the style issues are
    exactly one per line longer than 120 code units, and the snippet of
    such an issue is at most 103 code units long (100 of the trimmed line
    and the ellipsis). *)
Theorem generic_long_lines (code path languageId : jsstring) :
  length (List.filter CodeAnalyzer.isStyle
            (CodeAnalyzer.analyzeGeneric code path languageId))
  = length (List.filter CodeAnalyzer.isLong (split_lines code))
  ∧ Forall (λ i, CodeAnalyzer.isStyle i = true →
                 (length (CodeAnalyzer.code i) ≤ 103)%nat)
      (CodeAnalyzer.analyzeGeneric code path languageId).
Proof.
  unfold CodeAnalyzer.analyzeGeneric. split.
  - apply forEachLine_filter_length. intros l index.
    apply genericRules_style_length.
  - apply forEachLine_Forall. intros l index. apply genericRules_snippet.
Qed.

Lemma generic_long_lines_witness :
  Forall (λ i, CodeAnalyzer.isStyle i = true →
               (length (CodeAnalyzer.code i) ≤ 103)%nat)
    (CodeAnalyzer.analyzeGeneric (js "x := 1 // TODO") (js "a.go") (js "go")).
Proof.
  exact (proj2 (generic_long_lines (js "x := 1 // TODO") (js "a.go") (js "go"))).
Defined.

Section ScanFacts.

Import CodeAnalyzer.


End ScanFacts.



Section GuardFacts.

Import CodeAnalyzer.

Lemma javaScriptRules_no_console code path l index :
  includes path (js "test") = true →
  List.filter (hasMessage consoleMessage) (javaScriptRules code path l index)
  = [].
Proof.
  intros H. unfold javaScriptRules. rewrite H. cbn [negb].
  rewrite andb_false_r, !List.filter_app.
  by rewrite !filter_rule_false by reflexivity.
Qed.

Lemma javaScriptRules_no_promise code path l index :
  includes code (js "async") = true →
  List.filter (hasMessage promiseMessage) (javaScriptRules code path l index)
  = [].
Proof.
  intros H. unfold javaScriptRules. rewrite H. cbn [negb].
  rewrite andb_false_r, !List.filter_app.
  by rewrite !filter_rule_false by reflexivity.
Qed.

End GuardFacts.

(** X5. Two guards of the JavaScript rules are global rather than per line:
    in a file whose path contains [test] no logging call is ever reported,
    and in a text that contains [async] anywhere no promise chain is ever
    reported. *)
Theorem javascript_global_guards (code path : jsstring) :
  (includes path (js "test") = true →
   List.filter (CodeAnalyzer.hasMessage CodeAnalyzer.consoleMessage)
     (CodeAnalyzer.analyzeJavaScript code path) = [])
  ∧ (includes code (js "async") = true →
     List.filter (CodeAnalyzer.hasMessage CodeAnalyzer.promiseMessage)
       (CodeAnalyzer.analyzeJavaScript code path) = []).
Proof.
  unfold CodeAnalyzer.analyzeJavaScript.
  split; intros H; apply forEachLine_filter; intros l index.
  - by apply javaScriptRules_no_console.
  - by apply javaScriptRules_no_promise.
Qed.

Lemma javascript_global_guards_witness :
  List.filter (CodeAnalyzer.hasMessage CodeAnalyzer.consoleMessage)
    (CodeAnalyzer.analyzeJavaScript (js "console.log(x);") (js "a.test.js"))
  = []
  ∧ List.filter (CodeAnalyzer.hasMessage CodeAnalyzer.promiseMessage)
      (CodeAnalyzer.analyzeJavaScript (js "async f(); p.then(g);") (js "a.js"))
    = [].
Proof.
  split.
  - apply (proj1 (javascript_global_guards (js "console.log(x);")
                    (js "a.test.js"))). reflexivity.
  - apply (proj2 (javascript_global_guards (js "async f(); p.then(g);")
                    (js "a.js"))). reflexivity.
Defined.

(** * Further properties of the learning system *)

Section HistoryFacts.

Import Interventions LearningSystem.

Lemma trimHistory_length h :
  length (trimHistory h) = min 1000 (length h).
Proof.
  unfold trimHistory. case_bool_decide; [| lia].
  rewrite length_drop. lia.
Qed.

Lemma trimHistory_suffix h : trimHistory h `suffix_of` h.
Proof.
  unfold trimHistory. case_bool_decide; [apply suffix_drop | done].
Qed.

Lemma trimHistory_last h f :
  list.last (trimHistory (h ++ [f])) = Some f.
Proof.
  unfold trimHistory. case_bool_decide; [| apply last_snoc].
  rewrite length_app in *. cbn [length] in *.
  rewrite drop_app_le by lia. apply last_snoc.
Qed.


End HistoryFacts.

(** X7. Each [recordFeedback] call appends one record, carrying the id of
    the intervention, the action, the feedback text and the time, and then
    keeps the last 1000 records: whatever the history held before, it holds
    [min 1000 (n + 1)] records afterwards and the new record is the last.
    The copy persisted in [globalState] is written before the trimming, so
    it holds all [n + 1] records. *)
Theorem history_is_bounded (now : Z) (i : Interventions.Intervention)
    (a : LearningSystem.Action) (fb : option jsstring)
    (st : LearningSystem.State) :
  let st' := LearningSystem.recordFeedback now i a fb st in
  ∃ f,
    LearningSystem.interventionId f = Interventions.id i
    ∧ LearningSystem.action f = a
    ∧ LearningSystem.feedback f = fb
    ∧ LearningSystem.timestamp f = now
    ∧ list.last (LearningSystem.feedbackHistory st') = Some f
    ∧ LearningSystem.feedbackHistory st'
      `suffix_of` (LearningSystem.feedbackHistory st ++ [f])
    ∧ length (LearningSystem.feedbackHistory st')
      = min 1000 (S (length (LearningSystem.feedbackHistory st)))
    ∧ LearningSystem.stored_feedback (LearningSystem.globalState st')
      = Some (LearningSystem.feedbackHistory st ++ [f]).
Proof.
  cbn zeta.
  set (f := {| LearningSystem.interventionId := Interventions.id i;
               LearningSystem.action := a;
               LearningSystem.feedback := fb;
               LearningSystem.timestamp := now;
               LearningSystem.issueType :=
                 CodeAnalyzer.typeName
                   (Personality.issueType (Interventions.context i));
               LearningSystem.personality :=
                 substring0 50
                   (Personality.message (Interventions.response i)) |}).
  exists f. do 4 (split; [reflexivity |]).
  change (LearningSystem.feedbackHistory
            (LearningSystem.recordFeedback now i a fb st))
    with (LearningSystem.trimHistory
            (LearningSystem.feedbackHistory st ++ [f])).
  split; [apply trimHistory_last |].
  split; [apply trimHistory_suffix |].
  split; [| reflexivity].
  rewrite trimHistory_length, length_app. cbn [length]. lia.
Qed.



Section PatternFacts.

Import Interventions LearningSystem.

Implicit Types (st : State) (i : Intervention) (a : Action) (c : Call).

Lemma recordAll_cons c calls st :
  recordAll (c :: calls) st
  = recordAll calls
      (recordFeedback (callNow c) (callIntervention c) (callAction c)
         (callFeedback c) st).
Proof. reflexivity. Qed.

Lemma recordAll_snoc calls c st :
  recordAll (calls ++ [c]) st
  = recordFeedback (callNow c) (callIntervention c) (callAction c)
      (callFeedback c) (recordAll calls st).
Proof. unfold recordAll. by rewrite fold_left_app. Qed.

Lemma patternCount_recordFeedback_other now i a fb st K :
  extractPattern i ≠ K →
  patternCount (recordFeedback now i a fb st) K = patternCount st K.
Proof.
  intros HK. unfold patternCount. rewrite patterns_recordFeedback.
  unfold updateLearningPatterns. cbn [learningPatterns].
  by rewrite lookup_insert_ne.
Qed.

Lemma occurrences_cons K c calls :
  occurrences K (c :: calls)
  = ((if decide (callPattern c = K) then 1 else 0) + occurrences K calls)%nat.
Proof.
  unfold occurrences. rewrite filter_cons. by case_decide.
Qed.

Lemma occurrences_snoc K calls c :
  occurrences K (calls ++ [c])
  = (occurrences K calls + if decide (callPattern c = K) then 1 else 0)%nat.
Proof.
  unfold occurrences. rewrite list.filter_app, length_app, filter_cons, filter_nil.
  by case_decide.
Qed.

Lemma patternCount_recordAll calls : ∀ st K,
  patternCount (recordAll calls st) K
  = (patternCount st K + occurrences K calls)%nat.
Proof.
  induction calls as [| c calls IH]; intros st K.
  - unfold occurrences. cbn. lia.
  - rewrite recordAll_cons, IH, occurrences_cons. unfold callPattern.
    case_decide as HK.
    + rewrite <- HK, patternCount_recordFeedback. lia.
    + rewrite patternCount_recordFeedback_other by done. lia.
Qed.

Lemma reaction_recordFeedback now i a fb st :
  userReaction
    <$> (learningPatterns (recordFeedback now i a fb st) !! extractPattern i)
  = Some (reactionOf a).
Proof.
  rewrite patterns_recordFeedback. unfold updateLearningPatterns.
  cbn [learningPatterns]. by rewrite lookup_insert_eq.
Qed.

(** A call leaves the patterns of the other keys as they are. *)
Lemma patterns_recordFeedback_other now i a fb st K :
  extractPattern i ≠ K →
  learningPatterns (recordFeedback now i a fb st) !! K
  = learningPatterns st !! K.
Proof.
  intros HK. rewrite patterns_recordFeedback.
  unfold updateLearningPatterns. cbn [learningPatterns].
  by rewrite lookup_insert_ne.
Qed.

(** What one call does to [skipPatterns] and to [preferredPatterns]. *)
Lemma skipPatterns_step now i a fb st :
  let st' := recordFeedback now i a fb st in
  skipPatterns (adaptationRules st') = skipPatterns (adaptationRules st)
  ∨ (a = dismissed
     ∧ (3 ≤ patternCount st' (extractPattern i))%nat
     ∧ (extractPattern i ∉ skipPatterns (adaptationRules st))
     ∧ skipPatterns (adaptationRules st')
       = skipPatterns (adaptationRules st) ++ [extractPattern i]).
Proof.
  cbn zeta. rewrite rules_recordFeedback.
  change (patternCount (recordFeedback now i a fb st) (extractPattern i))
    with (patternCount (updateLearningPatterns now i a st) (extractPattern i)).
  unfold updateAdaptationRules. cbn [adaptationRules skipPatterns].
  fold (patternCount (updateLearningPatterns now i a st) (extractPattern i)).
  change (adaptationRules (updateLearningPatterns now i a st))
    with (adaptationRules st).
  destruct (bool_decide (a = dismissed)) eqn:Ha; [| by left].
  destruct (bool_decide (3 ≤ _)%nat) eqn:Hc; [| by left].
  destruct (bool_decide (extractPattern i ∈ _)) eqn:Hs; [by left |].
  right. apply bool_decide_eq_true_1 in Ha, Hc.
  apply bool_decide_eq_false_1 in Hs. done.
Qed.

Lemma preferredPatterns_step now i a fb st :
  let st' := recordFeedback now i a fb st in
  preferredPatterns (adaptationRules st') = preferredPatterns (adaptationRules st)
  ∨ (a = accepted
     ∧ (extractPattern i ∉ preferredPatterns (adaptationRules st))
     ∧ preferredPatterns (adaptationRules st')
       = preferredPatterns (adaptationRules st) ++ [extractPattern i]).
Proof.
  cbn zeta. rewrite rules_recordFeedback.
  unfold updateAdaptationRules. cbn [adaptationRules preferredPatterns].
  change (adaptationRules (updateLearningPatterns now i a st))
    with (adaptationRules st).
  destruct (bool_decide (a = accepted)) eqn:Ha; [| by left].
  destruct (bool_decide (extractPattern i ∈ _)) eqn:Hs; [by left |].
  right. apply bool_decide_eq_true_1 in Ha.
  apply bool_decide_eq_false_1 in Hs. done.
Qed.

Lemma NoDup_snoc_fresh (l : list jsstring) (x : jsstring) :
  NoDup l → x ∉ l → NoDup (l ++ [x]).
Proof.
  intros Hl Hx. apply list.NoDup_app. split; [done |]. split.
  - intros y Hy Hin. apply list_elem_of_singleton in Hin. by subst.
  - apply list.NoDup_singleton.
Qed.

Lemma keysAgree_recordFeedback now i a fb st :
  keysAgree st → keysAgree (recordFeedback now i a fb st).
Proof.
  unfold keysAgree. rewrite patterns_recordFeedback.
  unfold updateLearningPatterns. cbn [learningPatterns]. intros H.
  apply map_Forall_insert_2; [| done]. cbn [pattern].
  destruct (learningPatterns st !! extractPattern i) as [p |] eqn:Hp;
    cbn [default]; [| done].
  by apply (H _ _ Hp).
Qed.

End PatternFacts.

(** X9. The count of a learning pattern counts the calls on it: after any
    sequence of [recordFeedback] calls it is the count before plus the
    number of calls whose intervention has that pattern key, so it never
    decreases. The reaction of a pattern is that of the latest call on it
    alone: calls on other patterns leave it as it is, and without any call
    on the pattern it is what it was. *)
Theorem pattern_count_and_reaction (st : LearningSystem.State)
    (calls : list LearningSystem.Call) (K : jsstring) :
  LearningSystem.patternCount (LearningSystem.recordAll calls st) K
  = (LearningSystem.patternCount st K + LearningSystem.occurrences K calls)%nat
  ∧ LearningSystem.userReaction
      <$> (LearningSystem.learningPatterns
             (LearningSystem.recordAll calls st) !! K)
    = match list.last
              (filter (λ c, LearningSystem.callPattern c = K) calls) with
      | Some c => Some (LearningSystem.reactionOf (LearningSystem.callAction c))
      | None =>
          LearningSystem.userReaction
            <$> (LearningSystem.learningPatterns st !! K)
      end.
Proof.
  split; [apply patternCount_recordAll |].
  induction calls as [| c calls IH] using rev_ind; [done |].
  rewrite recordAll_snoc, list.filter_app, filter_cons, filter_nil.
  case_decide as HK.
  - rewrite last_snoc. unfold LearningSystem.callPattern in HK.
    rewrite <- HK. apply reaction_recordFeedback.
  - rewrite app_nil_r, <- IH.
    by rewrite patterns_recordFeedback_other.
Qed.

(** X10. Every learning pattern is stored under the key that its own
    [pattern] field holds, through every sequence of calls; this is what
    makes the persisted array of values enough to rebuild the map. *)
Theorem pattern_keys_agree (st : LearningSystem.State)
    (calls : list LearningSystem.Call) :
  LearningSystem.keysAgree st →
  LearningSystem.keysAgree (LearningSystem.recordAll calls st).
Proof.
  revert st. induction calls as [| c calls IH]; intros st H; [done |].
  rewrite recordAll_cons. by apply IH, keysAgree_recordFeedback.
Qed.

Lemma pattern_keys_agree_witness :
  LearningSystem.keysAgree Examples.dismissedThrice.
Proof.
  refine (pattern_keys_agree Examples.fresh
            [ {| LearningSystem.callNow := 100001;
                 LearningSystem.callIntervention := Examples.sqlIntervention;
                 LearningSystem.callAction := LearningSystem.dismissed;
                 LearningSystem.callFeedback := None |};
              {| LearningSystem.callNow := 100002;
                 LearningSystem.callIntervention := Examples.sqlIntervention;
                 LearningSystem.callAction := LearningSystem.dismissed;
                 LearningSystem.callFeedback := None |};
              {| LearningSystem.callNow := 100003;
                 LearningSystem.callIntervention := Examples.sqlIntervention;
                 LearningSystem.callAction := LearningSystem.dismissed;
                 LearningSystem.callFeedback := None |} ] _).
  apply map_Forall_empty.
Defined.

(** X11. [skipPatterns] and [preferredPatterns] never hold a key twice:
    if they are free of duplicates, they stay so through every sequence of
    calls. *)
Theorem pattern_lists_have_no_duplicates (st : LearningSystem.State)
    (calls : list LearningSystem.Call) :
  NoDup (LearningSystem.skipPatterns (LearningSystem.adaptationRules st)) →
  NoDup (LearningSystem.preferredPatterns (LearningSystem.adaptationRules st)) →
  NoDup (LearningSystem.skipPatterns
           (LearningSystem.adaptationRules (LearningSystem.recordAll calls st)))
  ∧ NoDup (LearningSystem.preferredPatterns
             (LearningSystem.adaptationRules
                (LearningSystem.recordAll calls st))).
Proof.
  revert st. induction calls as [| c calls IH]; intros st Hs Hp; [done |].
  rewrite recordAll_cons. apply IH.
  - destruct (skipPatterns_step (LearningSystem.callNow c)
                (LearningSystem.callIntervention c) (LearningSystem.callAction c)
                (LearningSystem.callFeedback c) st)
      as [-> | (_ & _ & Hn & ->)]; [done | by apply NoDup_snoc_fresh].
  - destruct (preferredPatterns_step (LearningSystem.callNow c)
                (LearningSystem.callIntervention c) (LearningSystem.callAction c)
                (LearningSystem.callFeedback c) st)
      as [-> | (_ & Hn & ->)]; [done | by apply NoDup_snoc_fresh].
Qed.

Lemma pattern_lists_have_no_duplicates_witness :
  NoDup (LearningSystem.skipPatterns
           (LearningSystem.adaptationRules Examples.thenAccepted)).
Proof.
  refine (proj1 (pattern_lists_have_no_duplicates Examples.dismissedThrice
                   [ {| LearningSystem.callNow := 100004;
                        LearningSystem.callIntervention := Examples.sqlIntervention;
                        LearningSystem.callAction := LearningSystem.accepted;
                        LearningSystem.callFeedback := None |} ] _ _)).
  - vm_compute. apply list.NoDup_singleton.
  - vm_compute. apply base.NoDup_nil_2.
Defined.

(** X12. In a learning system that starts empty, a pattern key is in
    [skipPatterns] only if at least three calls were on that pattern and at
    least one of them was a dismissal. *)
Theorem suppressed_only_after_three (calls : list LearningSystem.Call)
    (K : jsstring) :
  K ∈ LearningSystem.skipPatterns
        (LearningSystem.adaptationRules
           (LearningSystem.recordAll calls Examples.fresh)) →
  (3 ≤ LearningSystem.occurrences K calls)%nat
  ∧ ∃ c, c ∈ calls
         ∧ LearningSystem.callPattern c = K
         ∧ LearningSystem.callAction c = LearningSystem.dismissed.
Proof.
  induction calls as [| c calls IH] using rev_ind; intros H.
  - by apply elem_of_nil in H.
  - rewrite recordAll_snoc in H. rewrite occurrences_snoc.
    destruct (skipPatterns_step (LearningSystem.callNow c)
                (LearningSystem.callIntervention c) (LearningSystem.callAction c)
                (LearningSystem.callFeedback c)
                (LearningSystem.recordAll calls Examples.fresh))
      as [Heq | (Ha & Hc & _ & Heq)]; cbn zeta in *; rewrite Heq in H.
    + destruct (IH H) as (Hn & c' & Hc' & Hk & Hd). split; [lia |].
      exists c'. split; [| done]. apply elem_of_app. by left.
    + apply elem_of_app in H as [H | H].
      * destruct (IH H) as (Hn & c' & Hc' & Hk & Hd). split; [lia |].
        exists c'. split; [| done]. apply elem_of_app. by left.
      * apply list_elem_of_singleton in H. subst K.
        rewrite <- recordAll_snoc, patternCount_recordAll in Hc.
        rewrite occurrences_snoc in Hc. split; [exact Hc |].
        exists c. split; [| done]. apply elem_of_app. right.
        apply list_elem_of_here.
Qed.

Lemma suppressed_only_after_three_witness :
  (3 ≤ LearningSystem.occurrences Examples.sqlKey
         [ {| LearningSystem.callNow := 100001;
              LearningSystem.callIntervention := Examples.sqlIntervention;
              LearningSystem.callAction := LearningSystem.dismissed;
              LearningSystem.callFeedback := None |};
           {| LearningSystem.callNow := 100002;
              LearningSystem.callIntervention := Examples.sqlIntervention;
              LearningSystem.callAction := LearningSystem.dismissed;
              LearningSystem.callFeedback := None |};
           {| LearningSystem.callNow := 100003;
              LearningSystem.callIntervention := Examples.sqlIntervention;
              LearningSystem.callAction := LearningSystem.dismissed;
              LearningSystem.callFeedback := None |} ])%nat.
Proof.
  refine (proj1 (suppressed_only_after_three _ Examples.sqlKey _)).
  vm_compute. apply list_elem_of_here.
Defined.

(** X13. Suppression counts occurrences, not dismissals: after two calls
    of any action on a pattern, a dismissal on that pattern puts its key in
    [skipPatterns]; two acceptances and one dismissal are enough. *)
Theorem third_occurrence_dismissed_suppresses
    (st : LearningSystem.State) (K : jsstring)
    (n1 n2 n3 : Z) (i1 i2 i3 : Interventions.Intervention)
    (a1 a2 : LearningSystem.Action) (f1 f2 f3 : option jsstring) :
  LearningSystem.extractPattern i1 = K →
  LearningSystem.extractPattern i2 = K →
  LearningSystem.extractPattern i3 = K →
  K ∈ LearningSystem.skipPatterns
        (LearningSystem.adaptationRules
           (LearningSystem.recordFeedback n3 i3 LearningSystem.dismissed f3
              (LearningSystem.recordFeedback n2 i2 a2 f2
                 (LearningSystem.recordFeedback n1 i1 a1 f1 st)))).
Proof.
  intros H1 H2 H3. rewrite <- H3. apply dismissal_learns.
  rewrite H3, <- H2, patternCount_recordFeedback.
  rewrite H2, <- H1, patternCount_recordFeedback. lia.
Qed.

Lemma third_occurrence_dismissed_suppresses_witness :
  Examples.sqlKey
    ∈ LearningSystem.skipPatterns
        (LearningSystem.adaptationRules
           (LearningSystem.recordFeedback 100003 Examples.sqlIntervention
              LearningSystem.dismissed None
              (LearningSystem.recordFeedback 100002 Examples.sqlIntervention
                 LearningSystem.accepted None
                 (LearningSystem.recordFeedback 100001 Examples.sqlIntervention
                    LearningSystem.accepted None Examples.fresh)))).
Proof.
  exact (third_occurrence_dismissed_suppresses Examples.fresh Examples.sqlKey
           100001 100002 100003 Examples.sqlIntervention
           Examples.sqlIntervention Examples.sqlIntervention
           LearningSystem.accepted LearningSystem.accepted None None None
           eq_refl eq_refl eq_refl).
Defined.

(** X14. A call changes [skipPatterns] only if it is a dismissal, and then
    only by appending the key of its own intervention, which was not there
    and whose pattern has now occurred three times or more; it changes
    [preferredPatterns] only if it is an acceptance, and then only by
    appending the key of its own intervention. *)
Theorem pattern_lists_change_by_one (now : Z) (i : Interventions.Intervention)
    (a : LearningSystem.Action) (fb : option jsstring)
    (st : LearningSystem.State) :
  let st' := LearningSystem.recordFeedback now i a fb st in
  let K := LearningSystem.extractPattern i in
  let skip s := LearningSystem.skipPatterns (LearningSystem.adaptationRules s) in
  let preferred s :=
    LearningSystem.preferredPatterns (LearningSystem.adaptationRules s) in
  (skip st' = skip st
   ∨ (a = LearningSystem.dismissed
      ∧ (3 ≤ LearningSystem.patternCount st' K)%nat
      ∧ (K ∉ skip st)
      ∧ skip st' = skip st ++ [K]))
  ∧ (preferred st' = preferred st
     ∨ (a = LearningSystem.accepted
        ∧ (K ∉ preferred st)
        ∧ preferred st' = preferred st ++ [K])).
Proof.
  cbn zeta. split; [apply skipPatterns_step | apply preferredPatterns_step].
Qed.


Section KindFacts.

Import Interventions LearningSystem.

Lemma kindSensitivity_inRange st k :
  sensitivityInRange st → inRange (kindSensitivity st k).
Proof. apply sensitivityOf_inRange. Qed.

(** In range, a dismissal of an intervention of a kind takes the
    sensitivity of the kind to [Math.max(0.3, current - 0.1)]. *)
Lemma kindSensitivity_dismissed now i fb st :
  sensitivityInRange st →
  let k := CodeAnalyzer.typeName (Personality.issueType (context i)) in
  kindSensitivity (recordFeedback now i dismissed fb st) k
  = JsNumber.max (JsNumber.literal 3 10)
      (JsNumber.sub (kindSensitivity st k) (JsNumber.literal 1 10)).
Proof.
  intros H k. unfold kindSensitivity at 1. unfold sensitivityOf.
  subst k. rewrite sensitivity_recordFeedback_lookup. cbn [falsy default].
  rewrite inRange_truthy; [done |].
  by apply inRange_dismiss, sensitivityOf_inRange.
Qed.

(** The value of the sensitivity of a kind after dismissals of that kind,
    in units of 2^-57: that of 0.3, or at least 0.1 less 8 units per
    dismissal. *)
Lemma dismissals_level calls : ∀ st k,
  sensitivityInRange st →
  Forall (λ c, callAction c = dismissed ∧ callKind c = k) calls →
  (JsNumber.scaled (kindSensitivity (recordAll calls st) k)
   ≤ Z.max 43234556422756760
       (JsNumber.scaled (kindSensitivity st k)
        - Z.of_nat (length calls) * 14411518807585580))%Z.
Proof.
  induction calls as [| c calls IH] using rev_ind; intros st k Hr Hc.
  - cbn [length recordAll fold_left]. lia.
  - apply list.Forall_app in Hc as [Hc Hlast].
    apply list.Forall_singleton in Hlast as [Ha Hk].
    specialize (IH st k Hr Hc).
    rewrite recordAll_snoc, length_app. cbn [length].
    rewrite Ha. unfold callKind in Hk. rewrite <- Hk in IH |- *.
    rewrite kindSensitivity_dismissed by by apply inRange_recordAll.
    pose proof (inRange_recordAll calls st Hr) as Hr'.
    pose proof (kindSensitivity_inRange _
                  (CodeAnalyzer.typeName
                     (Personality.issueType (context (callIntervention c))))
                  Hr') as Hv.
    destruct (dismissal_step _ Hv) as [_ Hs]. cbn zeta in Hs. lia.
Qed.

End KindFacts.

(** A kind seen for the first time is at 0.40000000000000013 after six
    dismissals, above the number 0.4: in binary64 the six subtractions do
    not add up to 0.6. *)
Example six_dismissals_of_a_new_kind :
  let v :=
    LearningSystem.kindSensitivity
      (LearningSystem.recordAll
         (replicate 6
            {| LearningSystem.callNow := 100001;
               LearningSystem.callIntervention := Examples.sqlIntervention;
               LearningSystem.callAction := LearningSystem.dismissed;
               LearningSystem.callFeedback := None |})
         Examples.fresh)
      (js "security") in
  v = S754_finite false 7205759403792796 (-54)
  ∧ JsNumber.ltb (JsNumber.literal 4 10) v = true.
Proof. by vm_compute. Qed.

(** X15. Six or more consecutive dismissals of interventions of one issue
    kind, whatever their patterns, bring the sensitivity of the kind below
    0.5, so every issue of that kind that is not critical is hidden; a
    critical issue of the kind is still shown unless its own pattern is
    suppressed. Eight or more bring it to 0.3 exactly. *)
Theorem six_dismissals_hide_kind (st : LearningSystem.State)
    (calls : list LearningSystem.Call) (k : jsstring) :
  LearningSystem.sensitivityInRange st →
  Forall (λ c, LearningSystem.callAction c = LearningSystem.dismissed
               ∧ LearningSystem.callKind c = k) calls →
  (6 ≤ length calls)%nat →
  let st' := LearningSystem.recordAll calls st in
  JsNumber.ltb (LearningSystem.kindSensitivity st' k) (JsNumber.literal 5 10)
  = true
  ∧ ((8 ≤ length calls)%nat →
     LearningSystem.kindSensitivity st' k = JsNumber.literal 3 10)
  ∧ ∀ issue,
      CodeAnalyzer.typeName (CodeAnalyzer.type issue) = k →
      (CodeAnalyzer.severity issue ≠ CodeAnalyzer.critical →
       LearningSystem.shouldShowIssue st' issue = false)
      ∧ (CodeAnalyzer.severity issue = CodeAnalyzer.critical →
         LearningSystem.issuePattern issue
           ∉ LearningSystem.skipPatterns (LearningSystem.adaptationRules st') →
         LearningSystem.shouldShowIssue st' issue = true).
Proof.
  intros Hr Hc Hn st'.
  pose proof (dismissals_level calls st k Hr Hc) as Hlevel. fold st' in Hlevel.
  pose proof (kindSensitivity_inRange st k Hr) as Hv.
  pose proof (kindSensitivity_inRange st' k (inRange_recordAll calls st Hr))
    as Hv'.
  apply inRange_scaled in Hv.
  pose proof (inRange_normal _ Hv') as Hn'. apply inRange_scaled in Hv'.
  assert (JsNumber.ltb (LearningSystem.kindSensitivity st' k)
            (JsNumber.literal 5 10) = true) as Hlt.
  { apply ltb_normal; [done | by rewrite literal_5_10 |].
    rewrite literal_5_10. cbn [JsNumber.scaled].
    change (Z.pos 4503599627370496 * 2 ^ (-53 + 57))%Z
      with 72057594037927936%Z. lia. }
  split; [exact Hlt |]. split.
  - intros Hn8. apply scaled_inj; [done | apply normal_literal_3_10 |].
    rewrite scaled_literal_3_10. lia.
  - intros issue Hk. unfold LearningSystem.shouldShowIssue.
    rewrite Hk. fold (LearningSystem.kindSensitivity st' k). split.
    + intros Hs. case_bool_decide; [done |].
      rewrite Hlt. by rewrite bool_decide_eq_false_2.
    + intros Hs Hp. rewrite bool_decide_eq_false_2 by done.
      rewrite (bool_decide_eq_true_2 (CodeAnalyzer.severity issue = _)) by done.
      by rewrite andb_false_r.
Qed.

Lemma six_dismissals_hide_kind_witness :
  JsNumber.ltb
    (LearningSystem.kindSensitivity
       (LearningSystem.recordAll
          (replicate 6
             {| LearningSystem.callNow := 100001;
                LearningSystem.callIntervention := Examples.sqlIntervention;
                LearningSystem.callAction := LearningSystem.dismissed;
                LearningSystem.callFeedback := None |})
          Examples.fresh)
       (js "security"))
    (JsNumber.literal 5 10)
  = true.
Proof.
  refine (proj1 (six_dismissals_hide_kind Examples.fresh _ (js "security")
                   _ _ _)).
  - apply map_Forall_empty.
  - repeat constructor.
  - vm_compute. lia.
Defined.

(** X16. [resetLearningData] forgets everything: afterwards every issue is
    shown, the statistics are all zero, no pattern has a count, and a new
    session over the persisted data starts as empty as a first one. *)
Theorem reset_forgets_everything (st : LearningSystem.State) :
  let st' := LearningSystem.resetLearningData st in
  (∀ issue, LearningSystem.shouldShowIssue st' issue = true)
  ∧ LearningSystem.getLearningStats st' = LearningSystem.noStats
  ∧ (∀ K, LearningSystem.patternCount st' K = 0%nat)
  ∧ LearningSystem.feedbackHistory (LearningSystem.restart st') = []
  ∧ LearningSystem.learningPatterns (LearningSystem.restart st') = ∅
  ∧ LearningSystem.adaptationRules (LearningSystem.restart st')
    = LearningSystem.noRules.
Proof.
  cbn zeta. split; [| repeat split].
  intros issue. unfold LearningSystem.shouldShowIssue.
  change (LearningSystem.adaptationRules (LearningSystem.resetLearningData st))
    with LearningSystem.noRules.
  cbn [LearningSystem.skipPatterns LearningSystem.issueTypeSensitivity
       LearningSystem.noRules].
  rewrite bool_decide_eq_false_2 by apply not_elem_of_nil.
  unfold LearningSystem.sensitivityOf. rewrite lookup_empty.
  by cbn [LearningSystem.falsy].
Qed.

(** X17. What a session learned survives a restart: a new session over the
    data [recordFeedback] persisted has the same adaptation rules and
    learning patterns, so it shows and hides the same issues. Its history is
    the untrimmed one, one record longer than the history before the call,
    even when the old session had trimmed it to 1000. *)
Theorem restart_keeps_what_was_learned (now : Z)
    (i : Interventions.Intervention) (a : LearningSystem.Action)
    (fb : option jsstring) (st : LearningSystem.State) :
  let st' := LearningSystem.recordFeedback now i a fb st in
  let st'' := LearningSystem.restart st' in
  LearningSystem.adaptationRules st'' = LearningSystem.adaptationRules st'
  ∧ LearningSystem.learningPatterns st'' = LearningSystem.learningPatterns st'
  ∧ (∀ issue,
       LearningSystem.shouldShowIssue st'' issue
       = LearningSystem.shouldShowIssue st' issue)
  ∧ LearningSystem.feedbackHistory st'
    `suffix_of` LearningSystem.feedbackHistory st''
  ∧ length (LearningSystem.feedbackHistory st'')
    = S (length (LearningSystem.feedbackHistory st)).
Proof.
  cbn zeta. split; [reflexivity |]. split; [reflexivity |].
  split; [reflexivity |].
  change (LearningSystem.feedbackHistory
            (LearningSystem.restart
               (LearningSystem.recordFeedback now i a fb st)))
    with (LearningSystem.feedbackHistory st
          ++ [LearningSystem.feedbackOf now i a fb]).
  change (LearningSystem.feedbackHistory
            (LearningSystem.recordFeedback now i a fb st))
    with (LearningSystem.trimHistory
            (LearningSystem.feedbackHistory st
             ++ [LearningSystem.feedbackOf now i a fb])).
  split; [apply trimHistory_suffix |].
  rewrite length_app. cbn [length]. lia.
Qed.

(** * Further properties of the orchestrator *)

Section FrequencyFacts.

Import CodeAnalyzer DMentorCore.

Lemma frequencyFilter_minimal issues :
  frequencyFilter (js "minimal") issues = List.filter isCritical issues.
Proof. reflexivity. Qed.

Lemma frequencyFilter_balanced issues :
  frequencyFilter (js "balanced") issues
  = List.filter (λ i, negb (bool_decide (severity i = info))
                      || bool_decide (type i = security)) issues.
Proof. reflexivity. Qed.

Lemma frequencyFilter_elem frequency issues i :
  i ∈ frequencyFilter frequency issues → i ∈ issues.
Proof.
  unfold frequencyFilter. rewrite !list_elem_of_In.
  destruct (eqb frequency (js "minimal"));
    [| destruct (eqb frequency (js "balanced"))]; try done;
    intros Hin; by apply List.filter_In in Hin as [Hin _].
Qed.

Lemma frequencyFilter_critical frequency issues i :
  i ∈ issues → severity i = critical → i ∈ frequencyFilter frequency issues.
Proof.
  unfold frequencyFilter. rewrite !list_elem_of_In. intros Hi Hs.
  destruct (eqb frequency (js "minimal"));
    [| destruct (eqb frequency (js "balanced"))]; try done;
    apply List.filter_In; (split; [done |]); rewrite Hs; reflexivity.
Qed.

Lemma filter_none {A} (p : A → bool) (l : list A) :
  Forall (λ x, p x = false) l → List.filter p l = [].
Proof.
  induction 1 as [| x l Hx _ IH]; [done |]. cbn. by rewrite Hx.
Qed.

End FrequencyFacts.

(** X20. The frequency policies are nested: whatever [minimal] keeps,
    [balanced] keeps too; every policy keeps only issues it was given and
    keeps every critical one; and any setting other than [minimal] and
    [balanced] keeps all issues. *)
Theorem frequency_policies_are_nested (frequency : jsstring)
    (issues : list CodeAnalyzer.CodeIssue) :
  (∀ i, i ∈ DMentorCore.frequencyFilter (js "minimal") issues →
        i ∈ DMentorCore.frequencyFilter (js "balanced") issues)
  ∧ (∀ i, i ∈ DMentorCore.frequencyFilter frequency issues → i ∈ issues)
  ∧ (∀ i, i ∈ issues → CodeAnalyzer.severity i = CodeAnalyzer.critical →
          i ∈ DMentorCore.frequencyFilter frequency issues)
  ∧ (frequency ≠ js "minimal" → frequency ≠ js "balanced" →
     DMentorCore.frequencyFilter frequency issues = issues).
Proof.
  split; [| split; [| split]].
  - intros i H. apply frequencyFilter_critical.
    + by apply frequencyFilter_elem in H.
    + rewrite frequencyFilter_minimal, list_elem_of_In in H.
      apply List.filter_In in H as [_ H]. by apply bool_decide_eq_true_1 in H.
  - intros i. apply frequencyFilter_elem.
  - intros i. apply frequencyFilter_critical.
  - intros H1 H2. unfold DMentorCore.frequencyFilter, eqb.
    by rewrite !bool_decide_eq_false_2.
Qed.

Lemma frequency_policies_are_nested_witness :
  DMentorCore.frequencyFilter (js "aggressive")
    (CodeAnalyzer.detect Examples.docA)
  = CodeAnalyzer.detect Examples.docA.
Proof.
  apply (proj2 (proj2 (proj2 (frequency_policies_are_nested (js "aggressive")
                               (CodeAnalyzer.detect Examples.docA)))));
    vm_compute; discriminate.
Defined.

Section SilentFacts.

Import CodeAnalyzer DMentorCore.

Lemma genericRules_info path l index :
  Forall (λ i, severity i = info ∧ type i ≠ security)
    (genericRules path l index).
Proof.
  unfold genericRules. repeat apply Forall_app_2; by apply Forall_rule.
Qed.

Lemma htmlRules_not_critical path l index :
  Forall (λ i, severity i ≠ critical) (htmlRules path l index).
Proof.
  unfold htmlRules. repeat apply Forall_app_2; by apply Forall_rule.
Qed.

Lemma detect_generic document :
  languageId document ∉ knownLanguages →
  detect document
  = analyzeGeneric (getText document) (fileName document) (languageId document).
Proof.
  unfold knownLanguages. rewrite !not_elem_of_cons.
  intros (H1 & H2 & H3 & H4 & H5 & H6 & _).
  unfold detect, eqb. by rewrite !bool_decide_eq_false_2.
Qed.

Lemma detect_generic_info document :
  languageId document ∉ knownLanguages →
  Forall (λ i, severity i = info ∧ type i ≠ security) (detect document).
Proof.
  intros H. rewrite detect_generic by done.
  apply forEachLine_Forall. intros l index. apply genericRules_info.
Qed.

(** Nothing selected, nothing created. *)
Lemma analyzeDocument_nothing_selected config personality ai random now
    document st :
  (∀ ca, selectIssues config (withAnalyzer ca st)
           (fst (CodeAnalyzer.analyzeDocument (proactiveInterruptions config)
                   now document (codeAnalyzer st))) = []) →
  let st' := analyzeDocument config personality ai random now document st in
  interventions st' = interventions st ∧ emitted st' = emitted st.
Proof.
  intros H. cbn zeta. unfold analyzeDocument.
  destruct (CodeAnalyzer.analyzeDocument _ now document _) as [issues ca].
  specialize (H ca). cbn [fst] in H.
  destruct issues; [done |]. by rewrite H.
Qed.

Lemma analyzer_issues_from_detect p now document st :
  fst (CodeAnalyzer.analyzeDocument p now document st) = []
  ∨ fst (CodeAnalyzer.analyzeDocument p now document st) = detect document.
Proof.
  unfold CodeAnalyzer.analyzeDocument.
  repeat case_match; cbn [fst]; auto.
Qed.

Lemma slice0_nil {A} n : @slice0 A n [] = [].
Proof. unfold slice0. case_match; apply take_nil. Qed.

Lemma selectIssues_nil config st : selectIssues config st [] = [].
Proof.
  unfold selectIssues. cbn [List.filter]. unfold frequencyFilter.
  repeat case_match; apply slice0_nil.
Qed.

Lemma selectIssues_none config st issues (p : CodeIssue → bool) :
  (∀ l, frequencyFilter (interventionFrequency config) l = List.filter p l) →
  Forall (λ i, p i = false) issues →
  selectIssues config st issues = [].
Proof.
  intros Hf Hp. unfold selectIssues. rewrite Hf.
  rewrite filter_none; [apply slice0_nil |].
  apply list.Forall_forall. intros i Hi.
  rewrite list_elem_of_In in Hi. apply List.filter_In in Hi as [Hi _].
  rewrite list.Forall_forall in Hp. apply Hp. by apply list_elem_of_In.
Qed.

End SilentFacts.

(** X6. With the default [balanced] policy, or with [minimal], a pass over
    a document whose language has no dedicated analyzer never creates an
    intervention: the two generic rules only report issues of severity
    info that are not security issues, and both policies drop those. *)
Theorem generic_languages_stay_silent (config : DMentorCore.Configuration)
    (personality : Personality.Personality) (ai : DMentorCore.AIService)
    (random : nat → jsstring) (now : Z)
    (document : CodeAnalyzer.TextDocument) (st : DMentorCore.State) :
  CodeAnalyzer.languageId document ∉ CodeAnalyzer.knownLanguages →
  DMentorCore.interventionFrequency config = js "balanced"
  ∨ DMentorCore.interventionFrequency config = js "minimal" →
  let st' :=
    DMentorCore.analyzeDocument config personality ai random now document st in
  DMentorCore.interventions st' = DMentorCore.interventions st
  ∧ DMentorCore.emitted st' = DMentorCore.emitted st.
Proof.
  intros Hl Hf. apply analyzeDocument_nothing_selected. intros ca.
  destruct (analyzer_issues_from_detect
              (DMentorCore.proactiveInterruptions config) now document
              (DMentorCore.codeAnalyzer st)) as [-> | ->].
  { apply selectIssues_nil. }
  pose proof (detect_generic_info document Hl) as Hi.
  destruct Hf as [Hf | Hf].
  - eapply selectIssues_none.
    + intros l. rewrite Hf. apply frequencyFilter_balanced.
    + eapply Forall_impl; [| exact Hi]. intros i [Hs Ht]. cbn beta.
      rewrite (bool_decide_eq_false_2 (CodeAnalyzer.type i = _)) by done.
      by rewrite (bool_decide_eq_true_2 (CodeAnalyzer.severity i = _)).
  - eapply selectIssues_none.
    + intros l. rewrite Hf. apply frequencyFilter_minimal.
    + eapply Forall_impl; [| exact Hi]. intros i [Hs Ht].
      unfold CodeAnalyzer.isCritical. by rewrite Hs.
Qed.

Lemma generic_languages_stay_silent_witness :
  DMentorCore.interventions
    (DMentorCore.analyzeDocument DMentorCore.defaultConfiguration
       Personality.PerformanceOptimizer
       {| DMentorCore.isConfigured := false;
          DMentorCore.analyzeCodeWithAI := λ _ _ _, None |}
       Examples.random 100000
       {| CodeAnalyzer.uri := js "file:///a.go";
          CodeAnalyzer.scheme := js "file";
          CodeAnalyzer.fileName := js "/a.go";
          CodeAnalyzer.languageId := js "go";
          CodeAnalyzer.getText := js "x := 1 // TODO" |}
       Examples.started)
  = [].
Proof.
  refine (proj1 (generic_languages_stay_silent DMentorCore.defaultConfiguration
                   _ _ _ 100000 _ Examples.started _ _)).
  - unfold CodeAnalyzer.knownLanguages. cbn [CodeAnalyzer.languageId].
    rewrite !not_elem_of_cons.
    repeat split; try (intros H; vm_compute in H; discriminate H).
    apply not_elem_of_nil.
  - left. reflexivity.
Defined.

Section PassFacts.

Import CodeAnalyzer Interventions DMentorCore.

Variable config : Configuration.
Variable personality : Personality.Personality.
Variable ai : AIService.
Variable random : nat → jsstring.

Lemma analyzer_in_cooldown p now document s :
  (now - lastSuggestionTime s < 20000)%Z →
  CodeAnalyzer.analyzeDocument p now document s = ([], s).
Proof.
  intros H. unfold CodeAnalyzer.analyzeDocument.
  destruct (negb p || negb (eqb (scheme document) (js "file"))); [done |].
  destruct (Z.ltb_spec (now - lastSuggestionTime s) 20000); [done | lia].
Qed.

Lemma withAnalyzer_same st : withAnalyzer (codeAnalyzer st) st = st.
Proof. by destruct st. Qed.

(** One intervention is made of the issue, appended and announced. *)
Lemma createIntervention_appends now issue document st :
  let st' := createIntervention config personality ai random now issue document st in
  ∃ n,
    interventions st' = interventions st ++ [n]
    ∧ emitted st' = emitted st ++ [n]
    ∧ madeFrom n issue
    ∧ learningSystem st' = learningSystem st
    ∧ codeAnalyzer st' = codeAnalyzer st.
Proof.
  cbn zeta. unfold createIntervention.
  set (enhanced := if useAIEnhancement config && isConfigured ai then _ else _).
  destruct enhanced as [[| c s] |]; eexists;
    (split; [reflexivity |]); (split; [reflexivity |]); by repeat split.
Qed.

Lemma createInterventions_append now document issues : ∀ st,
  let st' :=
    fold_left (λ st issue, createIntervention config personality ai random
                             now issue document st) issues st in
  ∃ new,
    interventions st' = interventions st ++ new
    ∧ emitted st' = emitted st ++ new
    ∧ Forall2 madeFrom new issues
    ∧ learningSystem st' = learningSystem st
    ∧ codeAnalyzer st' = codeAnalyzer st.
Proof.
  induction issues as [| issue issues IH]; intros st; cbn zeta.
  - exists []. by rewrite !app_nil_r.
  - cbn [fold_left].
    destruct (createIntervention_appends now issue document st)
      as (n & Hi & He & Hm & Hl & Hc).
    destruct (IH (createIntervention config personality ai random now issue
                    document st)) as (new & Hi' & He' & Hm' & Hl' & Hc').
    exists (n :: new). rewrite Hi', He', Hl', Hc', Hi, He, <- !app_assoc.
    repeat split; try done. by constructor.
Qed.

Lemma slice0_bound {A} (n : Z) (l : list A) :
  (0 ≤ n)%Z → (length (slice0 n l) ≤ Z.to_nat n)%nat.
Proof.
  intros H. unfold slice0. destruct (Z.ltb_spec n 0); [lia |].
  rewrite length_take. lia.
Qed.

Lemma slice0_elem {A} (n : Z) (l : list A) x : x ∈ slice0 n l → x ∈ l.
Proof.
  unfold slice0. case_match; apply subseteq_take.
Qed.

Lemma selectIssues_elem st issues i :
  i ∈ selectIssues config st issues →
  i ∈ issues
  ∧ LearningSystem.shouldShowIssue (learningSystem st) i = true
  ∧ i ∈ frequencyFilter (interventionFrequency config) issues.
Proof.
  unfold selectIssues. intros H. apply slice0_elem in H.
  assert (i ∈ List.filter (LearningSystem.shouldShowIssue (learningSystem st))
                  issues) as Hs.
  { by apply frequencyFilter_elem in H. }
  rewrite list_elem_of_In in Hs. apply List.filter_In in Hs as [Hi Hs].
  rewrite <- list_elem_of_In in Hi. split; [done |]. split; [done |].
  revert H. unfold frequencyFilter.
  destruct (eqb _ (js "minimal")); [| destruct (eqb _ (js "balanced"))];
    rewrite ?list_elem_of_In, ?List.filter_In; rewrite <- ?list_elem_of_In;
    try done; intros [_ Hp]; by split.
Qed.

End PassFacts.

(** X18. While the 20-second window of the analyzer is open, no trigger
    does anything: a change-triggered or save-triggered pass leaves the
    orchestrator exactly as it is, and a review on demand returns no
    intervention and changes nothing either. *)
Theorem pass_in_cooldown_is_noop (config : DMentorCore.Configuration)
    (personality : Personality.Personality) (ai : DMentorCore.AIService)
    (random : nat → jsstring) (now : Z)
    (document : CodeAnalyzer.TextDocument) (st : DMentorCore.State) :
  (now - CodeAnalyzer.lastSuggestionTime (DMentorCore.codeAnalyzer st)
   < 20000)%Z →
  DMentorCore.analyzeDocument config personality ai random now document st = st
  ∧ DMentorCore.onDocumentSave config personality ai random now document st
    = st
  ∧ DMentorCore.requestReview config personality random now (Some document) st
    = ([], st).
Proof.
  intros H.
  assert (DMentorCore.analyzeDocument config personality ai random now
            document st = st) as Ha.
  { unfold DMentorCore.analyzeDocument.
    rewrite analyzer_in_cooldown by done. apply withAnalyzer_same. }
  split; [done |]. split.
  - unfold DMentorCore.onDocumentSave. by case_match.
  - unfold DMentorCore.requestReview. rewrite analyzer_in_cooldown by done.
    cbn [DMentorCore.reviewInterventions length].
    rewrite app_nil_r, Nat.add_0_r. by destruct st.
Qed.

Lemma pass_in_cooldown_is_noop_witness :
  DMentorCore.requestReview DMentorCore.defaultConfiguration
    Personality.PerformanceOptimizer Examples.random 105000
    (Some Examples.docB) Examples.reviewedA
  = ([], Examples.reviewedA).
Proof.
  refine (proj2 (proj2 (pass_in_cooldown_is_noop DMentorCore.defaultConfiguration
                          Personality.PerformanceOptimizer
                          {| DMentorCore.isConfigured := false;
                             DMentorCore.analyzeCodeWithAI := λ _ _ _, None |}
                          Examples.random 105000 Examples.docB
                          Examples.reviewedA _))).
  vm_compute. reflexivity.
Defined.

(** X19. A proactive pass only appends: the interventions it creates come
    after the existing ones, each is announced once, there are at most
    [maxSuggestionsPerMinute] of them, and each is made of an issue the
    detector reported for the document, that the learning system agrees to
    show and that the frequency policy keeps. The learning system itself is
    not changed by a pass. *)
Theorem proactive_pass_is_bounded (config : DMentorCore.Configuration)
    (personality : Personality.Personality) (ai : DMentorCore.AIService)
    (random : nat → jsstring) (now : Z)
    (document : CodeAnalyzer.TextDocument) (st : DMentorCore.State) :
  (0 ≤ DMentorCore.maxSuggestionsPerMinute config)%Z →
  let st' :=
    DMentorCore.analyzeDocument config personality ai random now document st in
  ∃ new selected,
    DMentorCore.interventions st' = DMentorCore.interventions st ++ new
    ∧ DMentorCore.emitted st' = DMentorCore.emitted st ++ new
    ∧ DMentorCore.learningSystem st' = DMentorCore.learningSystem st
    ∧ Forall2 DMentorCore.madeFrom new selected
    ∧ (length new ≤ Z.to_nat (DMentorCore.maxSuggestionsPerMinute config))%nat
    ∧ Forall (λ i,
        i ∈ CodeAnalyzer.detect document
        ∧ LearningSystem.shouldShowIssue (DMentorCore.learningSystem st) i
          = true
        ∧ i ∈ DMentorCore.frequencyFilter
                (DMentorCore.interventionFrequency config)
                (CodeAnalyzer.detect document)) selected.
Proof.
  intros Hmax. cbn zeta. unfold DMentorCore.analyzeDocument.
  destruct (analyzer_issues_from_detect
              (DMentorCore.proactiveInterruptions config) now document
              (DMentorCore.codeAnalyzer st)) as [He | He];
    destruct (CodeAnalyzer.analyzeDocument _ now document _) as [issues ca];
    cbn [fst] in He; subst issues.
  { exists [], []. rewrite !app_nil_r.
    do 3 (split; [reflexivity |]). split; [constructor |].
    split; [cbn; lia | constructor]. }
  set (st1 := DMentorCore.withAnalyzer ca st).
  destruct (createInterventions_append config personality ai random now document
              (DMentorCore.selectIssues config st1
                 (CodeAnalyzer.detect document)) st1)
    as (new & Hi & Hem & Hm & Hl & _).
  destruct (CodeAnalyzer.detect document) as [| i0 rest] eqn:Hd.
  { exists [], []. rewrite !app_nil_r.
    do 3 (split; [reflexivity |]). split; [constructor |].
    split; [cbn; lia | constructor]. }
  exists new, (DMentorCore.selectIssues config st1 (i0 :: rest)).
  split; [exact Hi |]. split; [exact Hem |]. split; [exact Hl |].
  split; [exact Hm |]. split.
  - apply Forall2_length in Hm. rewrite Hm.
    unfold DMentorCore.selectIssues.
    by apply slice0_bound.
  - apply list.Forall_forall. intros i Hin.
    by apply selectIssues_elem in Hin.
Qed.

Lemma proactive_pass_is_bounded_witness :
  ∃ new selected,
    DMentorCore.interventions
      (DMentorCore.analyzeDocument DMentorCore.defaultConfiguration
         Personality.PerformanceOptimizer
         {| DMentorCore.isConfigured := false;
            DMentorCore.analyzeCodeWithAI := λ _ _ _, None |}
         Examples.random 100000 Examples.docB Examples.started)
    = DMentorCore.interventions Examples.started ++ new
    ∧ Forall2 DMentorCore.madeFrom new selected
    ∧ (length new ≤ 3)%nat.
Proof.
  destruct (proactive_pass_is_bounded DMentorCore.defaultConfiguration
              Personality.PerformanceOptimizer
              {| DMentorCore.isConfigured := false;
                 DMentorCore.analyzeCodeWithAI := λ _ _ _, None |}
              Examples.random 100000 Examples.docB Examples.started)
    as (new & selected & H1 & _ & _ & H2 & H3 & _).
  - vm_compute. discriminate.
  - exists new, selected. split; [exact H1 |]. split; [exact H2 | exact H3].
Defined.

(** X21. Dismissing removes an intervention from the list
    [getInterventions] returns and accepting does not: after a dismissal of
    the first intervention with the id, the active list is that of the
    others, in their order; after an acceptance the intervention is still
    listed, unless it had been dismissed before. Neither removes anything
    from the collection itself. *)
Theorem dismissed_leave_the_active_list (st : DMentorCore.State) (now : Z)
    (ident : jsstring) (feedback : option jsstring)
    (pre post : list Interventions.Intervention)
    (i : Interventions.Intervention) :
  DMentorCore.interventions st = pre ++ i :: post →
  (∀ j, j ∈ pre → Interventions.id j ≠ ident) →
  Interventions.id i = ident →
  let d := DMentorCore.dismissIntervention now ident feedback st in
  let a := DMentorCore.acceptIntervention now ident st in
  DMentorCore.getInterventions d
  = List.filter DMentorCore.active pre ++ List.filter DMentorCore.active post
  ∧ DMentorCore.getInterventions a
    = List.filter DMentorCore.active pre
      ++ (if DMentorCore.active i then [Interventions.setAccepted i] else [])
      ++ List.filter DMentorCore.active post
  ∧ length (DMentorCore.interventions d) = length (DMentorCore.interventions st)
  ∧ length (DMentorCore.interventions a) = length (DMentorCore.interventions st).
Proof.
  intros Hl Hpre Hi d a. subst d a.
  unfold DMentorCore.getInterventions, DMentorCore.dismissIntervention,
    DMentorCore.acceptIntervention.
  rewrite Hl, !updateFound_first by done.
  cbn [DMentorCore.interventions DMentorCore.withFeedback].
  fold DMentorCore.active. rewrite !List.filter_app. cbn [List.filter].
  change (DMentorCore.active (Interventions.setDismissed i)) with false.
  change (DMentorCore.active (Interventions.setAccepted i))
    with (DMentorCore.active i).
  repeat split.
  - by destruct (DMentorCore.active i).
  - rewrite !length_app. reflexivity.
  - rewrite !length_app. reflexivity.
Qed.

Lemma dismissed_leave_the_active_list_witness :
  DMentorCore.getInterventions
    (DMentorCore.dismissIntervention 100001 Examples.idA None Examples.reviewedA)
  = [].
Proof.
  refine (proj1 (dismissed_leave_the_active_list Examples.reviewedA 100001
                   Examples.idA None [] []
                   (hd Examples.sqlIntervention
                      (DMentorCore.interventions Examples.reviewedA))
                   _ _ _)).
  - reflexivity.
  - intros j Hj. by apply elem_of_nil in Hj.
  - reflexivity.
Defined.

Section PauseFacts.

Import CodeAnalyzer DMentorCore.

Variable config : Configuration.
Variable personality : Personality.Personality.
Variable ai : AIService.
Variable random : nat → jsstring.

Lemma createInterventions_setActive b now document issues : ∀ st,
  fold_left (λ st issue, createIntervention config personality ai random now
                           issue document st) issues (setActive b st)
  = setActive b
      (fold_left (λ st issue, createIntervention config personality ai random
                                now issue document st) issues st).
Proof.
  induction issues as [| issue issues IH]; intros st; [done |].
  cbn [fold_left]. rewrite <- IH. reflexivity.
Qed.

Lemma analyzeDocument_setActive b now document st :
  analyzeDocument config personality ai random now document (setActive b st)
  = setActive b (analyzeDocument config personality ai random now document st).
Proof.
  unfold analyzeDocument. cbn [codeAnalyzer setActive].
  destruct (CodeAnalyzer.analyzeDocument _ now document _) as [issues ca].
  destruct issues as [| i0 rest]; [done |].
  change (withAnalyzer ca (setActive b st))
    with (setActive b (withAnalyzer ca st)).
  rewrite <- createInterventions_setActive. reflexivity.
Qed.

End PauseFacts.

(** X23. Focus mode silences both triggers, pausing only one of them: in
    focus mode neither a change nor a save does anything; while
    interventions are paused a change does nothing, but a save is analysed
    exactly as if they were not paused. *)
Theorem pause_does_not_stop_saves (config : DMentorCore.Configuration)
    (personality : Personality.Personality) (ai : DMentorCore.AIService)
    (random : nat → jsstring) (now : Z)
    (document : CodeAnalyzer.TextDocument) (st : DMentorCore.State) :
  (DMentorCore.focusMode st = true →
   DMentorCore.onDocumentChange config now document st = st
   ∧ DMentorCore.onDocumentSave config personality ai random now document st
     = st)
  ∧ DMentorCore.onDocumentChange config now document
      (DMentorCore.stopProactiveAnalysis st)
    = DMentorCore.stopProactiveAnalysis st
  ∧ DMentorCore.onDocumentSave config personality ai random now document
      (DMentorCore.stopProactiveAnalysis st)
    = DMentorCore.stopProactiveAnalysis
        (DMentorCore.onDocumentSave config personality ai random now document
           st).
Proof.
  split; [| split].
  - intros Hf. unfold DMentorCore.onDocumentChange, DMentorCore.onDocumentSave.
    rewrite Hf. by rewrite orb_true_r, andb_false_r.
  - reflexivity.
  - unfold DMentorCore.onDocumentSave, DMentorCore.stopProactiveAnalysis.
    cbn [DMentorCore.focusMode DMentorCore.setActive].
    destruct (DMentorCore.autoReviewOnSave config
              && negb (DMentorCore.focusMode st)); [| done].
    apply analyzeDocument_setActive.
Qed.

Lemma pause_does_not_stop_saves_witness :
  DMentorCore.onDocumentChange DMentorCore.defaultConfiguration 100000
    Examples.docA (DMentorCore.setFocusMode true Examples.started)
  = DMentorCore.setFocusMode true Examples.started.
Proof.
  refine (proj1 (proj1 (pause_does_not_stop_saves
                          DMentorCore.defaultConfiguration
                          Personality.PerformanceOptimizer
                          {| DMentorCore.isConfigured := false;
                             DMentorCore.analyzeCodeWithAI := λ _ _ _, None |}
                          Examples.random 100000 Examples.docA
                          (DMentorCore.setFocusMode true Examples.started)) _)).
  reflexivity.
Defined.

(** * The dashboard *)

Section DashboardFacts.

Import CodeAnalyzer Interventions InsightsDashboard.

Lemma typeName_inj t1 t2 : typeName t1 = typeName t2 → t1 = t2.
Proof.
  destruct t1, t2; try reflexivity; intros H; vm_compute in H; discriminate H.
Qed.

(** Counting by key: each entry is the number of elements with that key. *)
Lemma bump_count {A} (key : A → jsstring) (l : list A) : ∀ m k,
  default 0%nat (fold_left (λ m x, bump (key x) m) l m !! k)
  = (default 0%nat (m !! k)
     + length (List.filter (λ x, bool_decide (key x = k)) l))%nat.
Proof.
  induction l as [| x l IH]; intros m k; cbn [fold_left List.filter length].
  - lia.
  - rewrite IH. unfold bump. rewrite lookup_insert.
    case_decide as Hk; subst.
    + rewrite bool_decide_eq_true_2 by done.
      change (default 0%nat (Some (S (default 0%nat (m !! key x)))))
        with (S (default 0%nat (m !! key x))).
      cbn [length]. lia.
    + rewrite bool_decide_eq_false_2 by done. lia.
Qed.

Lemma filter_dismissed_active l :
  List.filter (λ i, truthy (Interventions.dismissed i))
    (List.filter DMentorCore.active l) = [].
Proof.
  induction l as [| i l IH]; [done |]. cbn [List.filter].
  unfold DMentorCore.active at 1.
  destruct (truthy (Interventions.dismissed i)) eqn:Hd; cbn [negb];
    [done |]. cbn [List.filter]. by rewrite Hd.
Qed.

Lemma ofKind_cons t i l :
  ofKind t (i :: l)
  = ((if bool_decide (Personality.issueType (context i) = t) then 1 else 0)
     + ofKind t l)%nat.
Proof. unfold ofKind. cbn [List.filter]. by case_bool_decide. Qed.

Lemma ofKind_sum l :
  length l = foldr (λ t n, (ofKind t l + n)%nat) 0%nat kinds.
Proof.
  induction l as [| i l IH]; [done |].
  cbn [length foldr kinds] in *. rewrite !ofKind_cons, IH.
  destruct (Personality.issueType (context i)); simpl; lia.
Qed.

End DashboardFacts.

(** X22. The dashboard computes its statistics over the interventions
    [getInterventions] returns, so its count of dismissed interventions is
    always zero; its total is the number of active interventions, the entry
    of each kind in [byType] is the number of active interventions of that
    kind, these entries add up to the total, and the accepted ones are
    among them. *)
Theorem dashboard_never_counts_dismissals (personalityType : jsstring)
    (st : DMentorCore.State) :
  let shown := DMentorCore.getInterventions st in
  let stats := InsightsDashboard.calculateStats personalityType shown in
  InsightsDashboard.dismissed stats = 0%nat
  ∧ (InsightsDashboard.accepted stats ≤ InsightsDashboard.total stats)%nat
  ∧ (∀ t, default 0%nat
            (InsightsDashboard.byType stats !! CodeAnalyzer.typeName t)
          = InsightsDashboard.ofKind t shown)
  ∧ InsightsDashboard.total stats
    = foldr (λ t n, (InsightsDashboard.ofKind t shown + n)%nat) 0%nat
        InsightsDashboard.kinds.
Proof.
  cbn zeta. unfold InsightsDashboard.calculateStats.
  cbn [InsightsDashboard.dismissed InsightsDashboard.accepted
       InsightsDashboard.total InsightsDashboard.byType].
  split; [| split; [| split]].
  - unfold DMentorCore.getInterventions. fold DMentorCore.active.
    by rewrite filter_dismissed_active.
  - apply List.filter_length_le.
  - intros t. rewrite bump_count, lookup_empty. cbn [default].
    unfold InsightsDashboard.ofKind. rewrite Nat.add_0_l. f_equal.
    apply List.filter_ext. intros i.
    apply bool_decide_ext. split; [apply typeName_inj | by intros ->].
  - apply ofKind_sum.
Qed.

(** * The AI enrichment *)

Section EnrichmentFacts.

Import CodeAnalyzer Interventions DMentorCore.

Variable config : Configuration.
Variable personality : Personality.Personality.
Variable random : nat → jsstring.




(** ... and when it is not asked, or answers nothing. *)
Lemma createIntervention_plain ai now issue document st :
  useAIEnhancement config = false
  ∨ isConfigured ai = false
  ∨ analyzeCodeWithAI ai (getText document) (languageId document)
      (typeName (CodeAnalyzer.type issue)) = None
  ∨ analyzeCodeWithAI ai (getText document) (languageId document)
      (typeName (CodeAnalyzer.type issue)) = Some [] →
  let st' := createIntervention config personality ai random now issue document st in
  ∃ n,
    interventions st' = interventions st ++ [n]
    ∧ context n = Conversion.convertToSuggestionContext issue.
Proof.
  intros H. cbn zeta. unfold createIntervention.
  set (enhanced := if useAIEnhancement config && isConfigured ai then _ else _).
  assert (enhanced
          = Personality.suggestion (Conversion.convertToSuggestionContext issue))
    as ->.
  { subst enhanced. destruct H as [-> | [-> | [-> | ->]]];
      rewrite ?andb_false_r; try done; by case_match. }
  eexists. split; [reflexivity |]. cbn [context newIntervention].
  unfold Conversion.convertToSuggestionContext. cbn [Personality.suggestion].
  by destruct (CodeAnalyzer.suggestion issue) as [[| c s] |].
Qed.

End EnrichmentFacts.



(** X25. An enrichment that fails never costs the intervention or its
    remedy: when AI enhancement is off, when the provider setting is
    [none], or when the call of a remote provider rejects, the intervention
    is still created and its context is exactly the issue's, suggestion
    included. *)
Theorem failed_enrichment_keeps_remedy
    (callAPI : AIService.Provider → jsstring → jsstring → option jsstring)
    (settings : AIService.Settings) (config : DMentorCore.Configuration)
    (personality : Personality.Personality) (random : nat → jsstring)
    (now : Z) (issue : CodeAnalyzer.CodeIssue)
    (document : CodeAnalyzer.TextDocument) (st : DMentorCore.State) :
  DMentorCore.useAIEnhancement config = false
  ∨ AIService.aiProvider settings = js "none"
  ∨ AIService.analyzeCode callAPI (AIService.loadConfiguration settings)
      (CodeAnalyzer.getText document)
      (AIService.analysisContext
         (CodeAnalyzer.typeName (CodeAnalyzer.type issue)))
      (CodeAnalyzer.languageId document) = None →
  let st' :=
    DMentorCore.createIntervention config personality
      (AIService.service callAPI settings) random now issue document st in
  ∃ n,
    DMentorCore.interventions st' = DMentorCore.interventions st ++ [n]
    ∧ Interventions.context n = Conversion.convertToSuggestionContext issue.
Proof.
  intros H. apply createIntervention_plain.
  destruct H as [H | [H | H]].
  - by left.
  - right. left. cbn [DMentorCore.isConfigured AIService.service].
    unfold AIService.isConfigured. by rewrite H.
  - right. right. right.
    cbn [DMentorCore.analyzeCodeWithAI AIService.service].
    unfold AIService.analyzeCodeWithAI. by rewrite H.
Qed.

Lemma failed_enrichment_keeps_remedy_witness :
  ∃ n,
    DMentorCore.interventions
      (DMentorCore.createIntervention
         Examples.enhancedConfiguration
         Personality.PerformanceOptimizer
         (AIService.service (λ _ _ _, None)
            {| AIService.aiProvider := js "openai";
               AIService.aiApiKey := js "sk-test" |})
         Examples.random 100000 Examples.sqlIssue Examples.docA
         Examples.started)
    = DMentorCore.interventions Examples.started ++ [n]
    ∧ Interventions.context n
      = Conversion.convertToSuggestionContext Examples.sqlIssue.
Proof.
  refine (failed_enrichment_keeps_remedy (λ _ _ _, None)
            {| AIService.aiProvider := js "openai";
               AIService.aiApiKey := js "sk-test" |}
            Examples.enhancedConfiguration Personality.PerformanceOptimizer
            Examples.random 100000 Examples.sqlIssue Examples.docA
            Examples.started _).
  right. right. reflexivity.
Defined.

(** * Identifiers and timers *)

Section IdentifierFacts.

Import CodeAnalyzer Interventions DMentorCore.

Variable config : Configuration.
Variable personality : Personality.Personality.
Variable random : nat → jsstring.

(** The [j]-th intervention of a review takes the readings [1 + 2 j] and
    [2 + 2 j] of the clock and the [j]-th next random result. *)
Lemma reviewInterventionsAt_ids clock r d issues : ∀ s r0 d0,
  r0 = (r + 2 * s)%nat → d0 = (d + s)%nat →
  id <$> reviewInterventionsAt personality random clock r0 d0 issues
  = (λ j, of_Z (clock (r + 2 * j)%nat) ++ js "-" ++ random (d + j)%nat)
      <$> seq s (length issues).
Proof.
  induction issues as [| issue issues IH]; intros s r0 d0 -> ->; [done |].
  cbn [reviewInterventionsAt length seq fmap list_fmap id].
  f_equal. apply IH; lia.
Qed.

Lemma reviewInterventionsAt_timestamps clock r d issues : ∀ s r0 d0,
  r0 = (r + 2 * s)%nat → d0 = (d + s)%nat →
  timestamp <$> reviewInterventionsAt personality random clock r0 d0 issues
  = (λ j, clock (S r + 2 * j)%nat) <$> seq s (length issues).
Proof.
  induction issues as [| issue issues IH]; intros s r0 d0 -> ->; [done |].
  cbn [reviewInterventionsAt length seq fmap list_fmap timestamp].
  f_equal. apply IH; lia.
Qed.

Lemma reviewInterventionsAt_length clock issues : ∀ r d,
  length (reviewInterventionsAt personality random clock r d issues)
  = length issues.
Proof.
  induction issues as [| issue issues IH]; intros r d; [done |].
  cbn [reviewInterventionsAt length]. by rewrite IH.
Qed.

(** With one time for every reading, the review is the one of
    [requestReview]. *)
Lemma reviewInterventionsAt_constant now issues : ∀ r d,
  reviewInterventionsAt personality random (λ _, now) r d issues
  = reviewInterventions personality random now d issues.
Proof.
  induction issues as [| issue issues IH]; intros r d; [done |].
  cbn [reviewInterventionsAt reviewInterventions]. by rewrite IH.
Qed.

Lemma requestReviewAt_constant now doc st :
  requestReviewAt config personality random (λ _, now) doc st
  = requestReview config personality random now doc st.
Proof.
  unfold requestReviewAt, requestReview. destruct doc as [doc |]; [| done].
  destruct (CodeAnalyzer.analyzeDocument _ now doc _) as [issues ca].
  by rewrite reviewInterventionsAt_constant.
Qed.

Lemma js_cons c s : js (String c s) = N_of_ascii c :: js s.
Proof. reflexivity. Qed.

(** The decimal digits of a number hold no dash. *)
Lemma digits_without_dash d : 45 ∉ js (NilEmpty.string_of_uint d).
Proof.
  induction d as [| d IH | d IH | d IH | d IH | d IH | d IH | d IH | d IH
                 | d IH | d IH]; cbn [NilEmpty.string_of_uint];
    [apply not_elem_of_nil | ..];
    rewrite js_cons; apply not_elem_of_cons; (split; [| exact IH]);
    intros H; vm_compute in H; discriminate H.
Qed.

Lemma of_Z_without_dash z : (0 ≤ z)%Z → 45 ∉ of_Z z.
Proof.
  intros Hz. unfold of_Z. destruct z as [| p | p]; [| | lia].
  - intros H. vm_compute in H. by repeat (inversion_clear H as [| ? ? ? H']; rename H' into H).
  - cbn [Z.to_int NilZero.string_of_int]. unfold NilZero.string_of_uint.
    destruct (Pos.to_uint p) eqn:Hp; try (rewrite <- Hp; apply digits_without_dash).
    intros H. vm_compute in H.
    by repeat (inversion_clear H as [| ? ? ? H']; rename H' into H).
Qed.

(** A text is cut at its first dash in one way only. *)
Lemma split_at_dash (a a' r r' : jsstring) :
  45 ∉ a → 45 ∉ a' → a ++ 45 :: r = a' ++ 45 :: r' → a = a' ∧ r = r'.
Proof.
  revert a'. induction a as [| x a IH]; intros [| x' a'] Ha Ha' H.
  - by injection H as ->.
  - injection H as <- _. exfalso. apply Ha'. apply list_elem_of_here.
  - injection H as -> _. exfalso. apply Ha. apply list_elem_of_here.
  - injection H as -> H. apply not_elem_of_cons in Ha as [_ Ha].
    apply not_elem_of_cons in Ha' as [_ Ha'].
    destruct (IH a' Ha Ha' H) as [-> ->]. done.
Qed.

Lemma fresh_ids_distinct clock r d s n :
  (∀ k1 k2, random k1 = random k2 → k1 = k2) →
  (∀ k, (0 ≤ clock k)%Z) →
  NoDup ((λ j, of_Z (clock (r + 2 * j)%nat) ++ js "-" ++ random (d + j)%nat)
           <$> seq s n).
Proof.
  intros Hr Hc. apply NoDup_fmap_2; [| apply NoDup_seq].
  intros j1 j2 H.
  apply split_at_dash in H as [_ H];
    [| by apply of_Z_without_dash | by apply of_Z_without_dash].
  apply Hr in H. lia.
Qed.

Lemma js_back s : string_of_list_ascii (List.map ascii_of_N (js s)) = s.
Proof.
  unfold js. rewrite List.map_map.
  rewrite (List.map_ext _ (λ a, a)) by (intros a; apply ascii_N_embedding).
  by rewrite List.map_id, string_of_list_ascii_of_string.
Qed.

Lemma js_inj s1 s2 : js s1 = js s2 → s1 = s2.
Proof. intros H. by rewrite <- (js_back s1), <- (js_back s2), H. Qed.

Lemma to_uint_not_nil k : Nat.to_uint k ≠ Decimal.Nil.
Proof.
  intros H. pose proof (DecimalNat.Unsigned.to_of (Nat.to_uint k)) as Hn.
  rewrite DecimalNat.Unsigned.of_to, H in Hn. discriminate Hn.
Qed.

(** Printing a natural number loses nothing. *)
Lemma of_nat_inj k1 k2 : of_nat k1 = of_nat k2 → k1 = k2.
Proof.
  unfold of_nat. intros H. apply js_inj in H.
  apply (f_equal NilZero.uint_of_string) in H.
  rewrite !NilZero.usu in H by apply to_uint_not_nil. injection H as H.
  by apply DecimalNat.Unsigned.to_uint_inj.
Qed.

Lemma example_random_inj k1 k2 :
  Examples.random k1 = Examples.random k2 → k1 = k2.
Proof.
  unfold Examples.random. intros H. apply app_inv_head in H.
  apply app_inv_tail in H. by apply of_nat_inj.
Qed.

End IdentifierFacts.

(** X26. Within one review on demand the identifiers are pairwise
    distinct as soon as the results of [Math.random()] are, whatever the
    clock shows at each issue, as long as it is not negative: the id of the
    [j]-th intervention is the reading of the clock taken for it, a dash
    and the [j]-th next random result, and its timestamp is the reading
    after that one. *)
Theorem review_ids_are_distinct (config : DMentorCore.Configuration)
    (personality : Personality.Personality) (random : nat → jsstring)
    (clock : nat → Z) (doc : option CodeAnalyzer.TextDocument)
    (st : DMentorCore.State) :
  (∀ k1 k2, random k1 = random k2 → k1 = k2) →
  (∀ n, (0 ≤ clock n)%Z) →
  let new :=
    fst (DMentorCore.requestReviewAt config personality random clock doc st) in
  NoDup (Interventions.id <$> new)
  ∧ Interventions.id <$> new
    = (λ j, of_Z (clock (1 + 2 * j)%nat) ++ js "-"
            ++ random (DMentorCore.randomDraws st + j)%nat)
        <$> seq 0 (length new)
  ∧ Interventions.timestamp <$> new
    = (λ j, clock (2 + 2 * j)%nat) <$> seq 0 (length new).
Proof.
  intros Hr Hc. cbn zeta. unfold DMentorCore.requestReviewAt.
  destruct doc as [doc |]; [| split; [apply base.NoDup_nil_2 | done]].
  destruct (CodeAnalyzer.analyzeDocument _ (clock 0%nat) doc _)
    as [issues ca].
  cbn [fst]. rewrite reviewInterventionsAt_length.
  pose proof (reviewInterventionsAt_ids personality random clock 1
                (DMentorCore.randomDraws st) issues 0 1
                (DMentorCore.randomDraws st) ltac:(lia) ltac:(lia)) as Hi.
  pose proof (reviewInterventionsAt_timestamps personality random clock 1
                (DMentorCore.randomDraws st) issues 0 1
                (DMentorCore.randomDraws st) ltac:(lia) ltac:(lia)) as Ht.
  split; [| split; [exact Hi | exact Ht]].
  rewrite Hi. by apply fresh_ids_distinct.
Qed.

Lemma review_ids_are_distinct_witness :
  Interventions.id
    <$> fst (DMentorCore.requestReviewAt DMentorCore.defaultConfiguration
               Personality.PerformanceOptimizer Examples.random
               Examples.ticking (Some Examples.docC) Examples.started)
  = [js "100001-0.05"; js "100003-0.15"]
  ∧ NoDup (Interventions.id
             <$> fst (DMentorCore.requestReviewAt
                        DMentorCore.defaultConfiguration
                        Personality.PerformanceOptimizer Examples.random
                        Examples.ticking (Some Examples.docC)
                        Examples.started)).
Proof.
  split; [reflexivity |].
  refine (proj1 (review_ids_are_distinct DMentorCore.defaultConfiguration
                   Personality.PerformanceOptimizer Examples.random
                   Examples.ticking (Some Examples.docC) Examples.started
                   _ _)).
  - exact example_random_inj.
  - intros n. unfold Examples.ticking. lia.
Defined.

Section TimerFacts.

Import CodeAnalyzer Interventions DMentorCore.

Variable config : Configuration.
Variable personality : Personality.Personality.
Variable ai : AIService.
Variable random : nat → jsstring.

Lemma createInterventions_timers now document issues : ∀ st,
  timers (fold_left (λ st issue, createIntervention config personality ai
                                   random now issue document st) issues st)
  = timers st.
Proof.
  induction issues as [| issue issues IH]; intros st; [done |].
  cbn [fold_left]. by rewrite IH.
Qed.

Lemma analyzeDocument_timers now document st :
  timers (analyzeDocument config personality ai random now document st)
  = timers st.
Proof.
  unfold analyzeDocument.
  destruct (CodeAnalyzer.analyzeDocument _ now document _) as [issues ca].
  destruct issues; [done |]. by rewrite createInterventions_timers.
Qed.

(** A pass that goes through opens the window at its own time. *)
Lemma analyzeDocument_opens_window now document st :
  proactiveInterruptions config = true →
  scheme document = js "file" →
  (20000 ≤ now - lastSuggestionTime (codeAnalyzer st))%Z →
  lastSuggestionTime
    (codeAnalyzer (analyzeDocument config personality ai random now document st))
  = now.
Proof.
  intros Hp Hs Ht. unfold analyzeDocument, CodeAnalyzer.analyzeDocument.
  rewrite Hp, Hs. unfold eqb.
  rewrite bool_decide_eq_true_2 by done. cbn [negb orb].
  destruct (Z.ltb_spec (now - lastSuggestionTime (codeAnalyzer st)) 20000);
    [lia |].
  destruct (detect document) as [| i0 rest]; [done |].
  destruct (createInterventions_append config personality ai random now document
              (selectIssues config
                 (withAnalyzer
                    {| lastAnalysisTime := lastAnalysisTime (codeAnalyzer st);
                       suggestionsRateLimit :=
                         suggestionsRateLimit (codeAnalyzer st);
                       lastSuggestionTime := now |} st) (i0 :: rest))
              (withAnalyzer
                 {| lastAnalysisTime := lastAnalysisTime (codeAnalyzer st);
                    suggestionsRateLimit := suggestionsRateLimit (codeAnalyzer st);
                    lastSuggestionTime := now |} st))
    as (new & _ & _ & _ & _ & Hc).
  cbn zeta in Hc. by rewrite Hc.
Qed.

End TimerFacts.

(** X27. The debounce is per document but the cooldown is not: changes to
    two different documents are both tracked and schedule two analyses, yet
    when the first of the two timers fires and goes through, the second,
    firing less than 20 seconds later, only removes its timer; it creates
    no intervention for the second document. *)
Theorem second_document_is_scheduled_but_silent
    (config : DMentorCore.Configuration)
    (personality : Personality.Personality) (ai : DMentorCore.AIService)
    (random : nat → jsstring) (st : DMentorCore.State)
    (docA docB : CodeAnalyzer.TextDocument) (tA tB fireA fireB : Z) :
  DMentorCore.proactiveInterruptions config = true →
  DMentorCore.isActive st = true →
  DMentorCore.focusMode st = false →
  DMentorCore.timers st = [] →
  CodeAnalyzer.uri docA ≠ CodeAnalyzer.uri docB →
  CodeAnalyzer.scheme docA = js "file" →
  (DMentorCore.debounceDelay
   ≤ tA - default 0%Z (DMentorCore.lastDocumentChange st
                        !! CodeAnalyzer.uri docA))%Z →
  (DMentorCore.debounceDelay
   ≤ tB - default 0%Z (DMentorCore.lastDocumentChange st
                        !! CodeAnalyzer.uri docB))%Z →
  (20000 ≤ fireA - CodeAnalyzer.lastSuggestionTime (DMentorCore.codeAnalyzer st))%Z →
  (fireB - fireA < 20000)%Z →
  let changed :=
    DMentorCore.onDocumentChange config tB docB
      (DMentorCore.onDocumentChange config tA docA st) in
  let first := DMentorCore.fireTimer config personality ai random fireA changed in
  let second := DMentorCore.fireTimer config personality ai random fireB first in
  DMentorCore.timers changed
  = [((tA + DMentorCore.debounceDelay)%Z, docA);
     ((tB + DMentorCore.debounceDelay)%Z, docB)]
  ∧ DMentorCore.timers first = [((tB + DMentorCore.debounceDelay)%Z, docB)]
  ∧ DMentorCore.timers second = []
  ∧ DMentorCore.interventions second = DMentorCore.interventions first.
Proof.
  intros Hp Ha Hf Ht Hu Hs HA HB HfA HfB changed first second.
  assert (changed
          = DMentorCore.withTimer tB docB (DMentorCore.withTimer tA docA st))
    as Hch.
  { subst changed. rewrite (onDocumentChange_tracked config Hp tA) by done.
    rewrite (onDocumentChange_tracked config Hp tB); try done.
    cbn [DMentorCore.lastDocumentChange DMentorCore.withTimer].
    by rewrite lookup_insert_ne. }
  assert (DMentorCore.timers changed
          = [((tA + DMentorCore.debounceDelay)%Z, docA);
             ((tB + DMentorCore.debounceDelay)%Z, docB)]) as Htc.
  { rewrite Hch. cbn [DMentorCore.timers DMentorCore.withTimer].
    by rewrite Ht. }
  split; [exact Htc |].
  assert (DMentorCore.timers first
          = [((tB + DMentorCore.debounceDelay)%Z, docB)]) as Htf.
  { subst first. unfold DMentorCore.fireTimer. rewrite Htc.
    by rewrite analyzeDocument_timers. }
  split; [exact Htf |].
  assert (CodeAnalyzer.lastSuggestionTime (DMentorCore.codeAnalyzer first)
          = fireA) as Hw.
  { subst first. unfold DMentorCore.fireTimer. rewrite Htc.
    apply analyzeDocument_opens_window; try done.
    cbn [DMentorCore.codeAnalyzer]. by rewrite Hch. }
  subst second. unfold DMentorCore.fireTimer. rewrite Htf.
  unfold DMentorCore.analyzeDocument.
  cbn [DMentorCore.codeAnalyzer].
  rewrite analyzer_in_cooldown by (rewrite Hw; lia).
  split; reflexivity.
Qed.

Lemma second_document_is_scheduled_but_silent_witness :
  DMentorCore.timers
    (DMentorCore.onDocumentChange DMentorCore.defaultConfiguration 10100
       Examples.docB
       (DMentorCore.onDocumentChange DMentorCore.defaultConfiguration 10000
          Examples.docA Examples.started))
  = [(11000%Z, Examples.docA); (11100%Z, Examples.docB)].
Proof.
  refine (proj1 (second_document_is_scheduled_but_silent
                   DMentorCore.defaultConfiguration
                   Personality.PerformanceOptimizer Examples.noAI
                   Examples.random Examples.started Examples.docA
                   Examples.docB 10000 10100 30000 30100
                   eq_refl eq_refl eq_refl eq_refl _ eq_refl _ _ _ _)).
  - intros H. vm_compute in H. discriminate H.
  - vm_compute. discriminate.
  - vm_compute. discriminate.
  - vm_compute. discriminate.
  - vm_compute. reflexivity.
Defined.
